(** * InfluxDB to VictoriaMetrics migration: a shallow embedding

    The development follows the Python sources module by module:
    [mapping] (mapping.py), [vm_writer] (vm_writer.py), [progress]
    (progress.py) and [migrate] (migrate.py). The definitions come first,
    the theorems about them second.

    Conventions.
    - A Python [str] is a [string] holding its UTF-8 bytes; comparing such
      strings bytewise is comparing the Python strings by code point.
    - A Python [int] is a [Z]; a Python [float] is a binary64 [float].
    - A dict that is only looked up is a [gmap]; a dict whose iteration order
      is observable (the label map, the JSON document) is an association list
      in insertion order.
    - A function that may raise returns a [result]; a method that mutates its
      object returns the new object next to its result.
    - What the Python library or the network decides (lower-casing, number
      formatting, the clock, HTTP answers, query results) is a [Variable] of
      the section that needs it.
    - Logging is not modelled. *)

From Stdlib Require Import ZArith Ascii String DecimalString PrimFloat.
From stdpp Require Import gmap strings list sorting.

Local Open Scope Z_scope.

(** ** Python primitives *)

Module Py.

(** Exceptions raised by the code, with the text of [str(e)]. *)
Inductive exn : Type :=
| ValueError (msg : string)
| WriteError (status_code : Z) (body : string)
| ConnectionError (msg : string)
| QueryError (msg : string)
| OtherError (msg : string).

Inductive result (A : Type) : Type :=
| Ok (a : A)
| Raise (e : exn).
Arguments Ok {A} a.
Arguments Raise {A} e.

(** The characters the code names by an escape, and the one-character
    strings of the first two. *)
Definition dquote : ascii := "034".
Definition newline : ascii := "010".
Definition dq : string := String dquote EmptyString.
Definition nl : string := String newline EmptyString.

(** [p in s] on strings. *)
Fixpoint str_in (p s : string) : bool :=
  String.prefix p s ||
  match s with
  | EmptyString => false
  | String _ s' => str_in p s'
  end.

(** A sub-string, as a proposition. *)
Definition substring_of (p s : string) : Prop :=
  exists pre post, s = pre +:+ p +:+ post.

(** [s.replace(old, new)] for a one-character [old]. *)
Fixpoint replace (old : ascii) (new : string) (s : string) : string :=
  match s with
  | EmptyString => EmptyString
  | String c s' =>
      if Ascii.eqb c old then new +:+ replace old new s'
      else String c (replace old new s')
  end.

(** [sep.join(parts)]. *)
Fixpoint join (sep : string) (parts : list string) : string :=
  match parts with
  | [] => EmptyString
  | [p] => p
  | p :: rest => p +:+ sep +:+ join sep rest
  end.

(** [str(n)] for an int. *)
Definition str_int (n : Z) : string := NilZero.string_of_int (Z.to_int n).

(** Truth value of an [Optional[str]]: [None] and the empty string are
    false. *)
Definition truthy (o : option string) : bool :=
  match o with
  | Some s => negb (String.eqb s EmptyString)
  | None => false
  end.

(** A UTF-8 continuation byte, [0x80 <= c < 0xC0]. *)
Definition is_continuation (c : ascii) : bool :=
  let n := nat_of_ascii c in (Nat.leb 128 n && Nat.ltb n 192)%bool.

(** [s[:n]]: the first [n] characters (code points) of [s]. *)
Fixpoint str_take (n : nat) (s : string) : string :=
  match s with
  | EmptyString => EmptyString
  | String c s' =>
      if is_continuation c then String c (str_take n s')
      else match n with
           | O => EmptyString
           | S n' => String c (str_take n' s')
           end
  end.

(** [str.lower()] on the ASCII letters; bytes of other characters are left
    as they are. The mapping engine below takes [str.lower] as a parameter,
    and the examples instantiate it with this function. *)
Definition ascii_lower_char (c : ascii) : ascii :=
  let n := nat_of_ascii c in
  if (Nat.leb 65 n && Nat.leb n 90)%bool then ascii_of_nat (n + 32) else c.

Fixpoint ascii_lower (s : string) : string :=
  match s with
  | EmptyString => EmptyString
  | String c s' => String (ascii_lower_char c) (ascii_lower s')
  end.

End Py.

Import Py.

(** ** mapping.py *)

Module mapping.

(** One entry of [metric_mappings[domain]]. A key missing in the YAML
    document takes the default the code passes to [.get]. *)
Record mapping_info : Type := {
  mi_metric : option string;
  mi_ignore : bool;
  mi_special_mapping_required : bool;
  mi_allow_new : bool
}.

(** One entry of [field_mappings[domain]]. *)
Record field_info : Type := {
  fi_metric : option string;
  fi_ignore : bool
}.

(** One element of [special_mappings[unit]['rules']]. *)
Record special_rule : Type := {
  sr_pattern : option string;
  sr_metric : option string;
  sr_ignore : bool
}.

(** The loaded YAML document ([_SCHEMA_MAPPING]); [labels_computed_entity]
    is [labels.computed.entity] when present, holding its optional
    [template]. *)
Record schema : Type := {
  metric_mappings : gmap string (gmap string mapping_info);
  field_mappings : gmap string (gmap string field_info);
  special_mappings : gmap string (list special_rule);
  labels_computed_entity : option (option string);
  labels_static : list (string * string)
}.

Definition IGNORE_METRIC : string := "__IGNORE__".

(** [d[k] = v] on an insertion-ordered dict: an existing key keeps its
    place. *)
Fixpoint dict_set (k v : string) (d : list (string * string))
  : list (string * string) :=
  match d with
  | [] => [(k, v)]
  | (k', v') :: d' =>
      if String.eqb k' k then (k, v) :: d' else (k', v') :: dict_set k v d'
  end.

(** [d.update(other)]. *)
Definition dict_update (d other : list (string * string))
  : list (string * string) :=
  fold_left (fun acc kv => dict_set kv.1 kv.2 acc) other d.

Section with_schema.

(** [str.lower] and [template.format(domain=.., entity_id=..)] belong to
    the Python library. *)
Variable lower : string -> string.
Variable str_format : string -> string -> string -> string.

(** The module globals [_SCHEMA_MAPPING] and [_KNOWN_VM_METRICS], once
    loaded. *)
Variable s : schema.
Variable known : gset string.

(** [schema.get('metric_mappings', {}).get(domain, {})]. *)
Definition domain_mappings (domain : string) : gmap string mapping_info :=
  default ∅ (metric_mappings s !! domain).

Definition is_ignored (domain measurement : string) : bool :=
  match domain_mappings domain !! measurement with
  | Some mapping_info => mi_ignore mapping_info
  | None => false
  end.

Definition get_field_metric (domain field : string) : option string :=
  let field_mappings := default ∅ (field_mappings s !! domain) in
  match field_mappings !! field with
  | Some mapping_info =>
      if fi_ignore mapping_info then Some IGNORE_METRIC
      else fi_metric mapping_info
  | None => None
  end.

(** What [_apply_special_mapping] returns for the rule it stops at. *)
Definition rule_outcome (rule : special_rule) : option string :=
  if sr_ignore rule then Some IGNORE_METRIC else sr_metric rule.

(** [rule.get('pattern', '').lower()]. *)
Definition rule_pattern (rule : special_rule) : string :=
  lower (default EmptyString (sr_pattern rule)).

(** First loop of [_apply_special_mapping]: [Some r] is the value
    returned from inside the loop, [None] means the loop ran to its end. *)
Fixpoint special_first_pass (entity_id_lower : string)
  (rules : list special_rule) : option (option string) :=
  match rules with
  | [] => None
  | rule :: rules' =>
      let pattern := rule_pattern rule in
      if String.eqb pattern "default" then
        special_first_pass entity_id_lower rules'
      else if str_in pattern entity_id_lower then
        Some (rule_outcome rule)
      else special_first_pass entity_id_lower rules'
  end.

(** Second loop of [_apply_special_mapping]. *)
Fixpoint special_default_pass (rules : list special_rule)
  : option (option string) :=
  match rules with
  | [] => None
  | rule :: rules' =>
      if String.eqb (rule_pattern rule) "default" then
        Some (rule_outcome rule)
      else special_default_pass rules'
  end.

(** [schema.get('special_mappings', {}).get(measurement, {})
    .get('rules', [])]. *)
Definition special_rules (measurement : string) : list special_rule :=
  default [] (special_mappings s !! measurement).

Definition _apply_special_mapping (measurement entity_id : string)
  : option string :=
  let rules := special_rules measurement in
  let entity_id_lower := lower entity_id in
  match special_first_pass entity_id_lower rules with
  | Some r => r
  | None =>
      match special_default_pass rules with
      | Some r => r
      | None => None
      end
  end.

Definition fallback_metric (domain : string) : string :=
  "homeassistant_" +:+ domain +:+ "_state".

(** The body of [if measurement in domain_mappings:] in
    [get_vm_metric_name]: [Some r] when it returns [r], [None] when control
    falls through to the fallback. *)
Definition mapped_metric (mapping_info : mapping_info)
  (measurement entity_id : string) : option (option string) :=
  if mi_ignore mapping_info then Some None
  else
    let metric := mi_metric mapping_info in
    let special : option (option string) :=
      if mi_special_mapping_required mapping_info then
        let special_metric := _apply_special_mapping measurement entity_id in
        if bool_decide (special_metric = Some IGNORE_METRIC) then Some None
        else if truthy special_metric then Some special_metric
        else None
      else None in
    match special with
    | Some r => Some r
    | None => if truthy metric then Some metric else None
    end.

Definition get_vm_metric_name
  (domain measurement entity_id field : string) : option string :=
  if negb (String.eqb field "value") then
    let field_metric := get_field_metric domain field in
    if bool_decide (field_metric = Some IGNORE_METRIC) then None
    else if truthy field_metric then field_metric
    else None
  else
    let returned :=
      match domain_mappings domain !! measurement with
      | Some mapping_info => mapped_metric mapping_info measurement entity_id
      | None => None
      end in
    match returned with
    | Some r => r
    | None => Some (fallback_metric domain)
    end.

Definition is_new_metric_allowed (domain measurement : string) : bool :=
  match domain_mappings domain !! measurement with
  | Some mapping_info => mi_allow_new mapping_info
  | None => false
  end.

Definition build_vm_labels (domain entity_id friendly_name : string)
  : list (string * string) :=
  let labels := [] in
  let labels :=
    match labels_computed_entity s with
    | Some tpl =>
        let template := default "{domain}.{entity_id}" tpl in
        dict_set "entity" (str_format template domain entity_id) labels
    | None => labels
    end in
  let labels := dict_set "domain" domain labels in
  let labels := dict_set "friendly_name" friendly_name labels in
  dict_update labels (labels_static s).

Definition validate_metric_name (metric_name : string) : bool :=
  bool_decide (metric_name ∈ known).

(** The text of the [ValueError] of [get_vm_metric_name_strict]. *)
Definition unknown_metric_message
  (metric_name domain measurement entity_id field : string) : string :=
  "Unknown VM metric '" +:+ metric_name +:+ "' generated from "
  +:+ "domain='" +:+ domain +:+ "', measurement='" +:+ measurement
  +:+ "', entity_id='" +:+ entity_id +:+ "', "
  +:+ "field='" +:+ field +:+ "'. Not in known VM metrics list.".

Definition get_vm_metric_name_strict
  (domain measurement entity_id field : string) : result (option string) :=
  match get_vm_metric_name domain measurement entity_id field with
  | None => Ok None
  | Some metric_name =>
      if negb (validate_metric_name metric_name) then
        if is_new_metric_allowed domain measurement then
          Ok (Some metric_name)
        else
          Raise (ValueError
            (unknown_metric_message metric_name domain measurement
               entity_id field))
      else Ok (Some metric_name)
  end.

(** The text appended to [errors] by [dry_run_validate]. *)
Definition failed_to_map_message
  (domain measurement entity_id e : string) : string :=
  "Failed to map record: domain='" +:+ domain +:+ "', measurement='"
  +:+ measurement +:+ "', " +:+ "entity_id='" +:+ entity_id +:+ "' - "
  +:+ e.

(** The loop of [dry_run_validate], from a given [success_count] and
    [errors]; an exception other than [ValueError] leaves the loop. *)
Fixpoint dry_run_validate_from (success_count : Z) (errors : list string)
  (records : list (string * string * string))
  : result (Z * list string) :=
  match records with
  | [] => Ok (success_count, errors)
  | (domain, measurement, entity_id) :: records' =>
      match get_vm_metric_name_strict domain measurement entity_id "value"
      with
      | Ok _ => dry_run_validate_from (success_count + 1) errors records'
      | Raise (ValueError e) =>
          let error_msg :=
            failed_to_map_message domain measurement entity_id e in
          dry_run_validate_from success_count (errors ++ [error_msg])
            records'
      | Raise e => Raise e
      end
  end.

Definition dry_run_validate (records : list (string * string * string))
  : result (Z * list string) :=
  dry_run_validate_from 0 [] records.

(** *** Vocabulary of the statements about this module *)

(** The first loop stops at [rule] for [entity_id]: its lower-cased pattern
    is not the word default and occurs in the lower-cased entity id. *)
Definition rule_matches (entity_id : string) (rule : special_rule) : bool :=
  negb (String.eqb (rule_pattern rule) "default")
  && str_in (rule_pattern rule) (lower entity_id).

(** The second loop stops at [rule]. *)
Definition rule_is_default (rule : special_rule) : bool :=
  String.eqb (rule_pattern rule) "default".

(** Whether strict resolution of a triple on the default field returns. *)
Definition strict_returns (r : string * string * string) : bool :=
  match get_vm_metric_name_strict r.1.1 r.1.2 r.2 "value" with
  | Ok _ => true
  | Raise _ => false
  end.

(** The sentence "strict resolution of a default-field record whose
    (domain, unit) pair has no rule raises a validation failure whose
    message embeds the domain, the unit and the entity id", at one
    record. *)
Definition strict_raises_for_unruled_pair
  (domain measurement entity_id : string) : Prop :=
  domain_mappings domain !! measurement = None ->
  exists msg,
    get_vm_metric_name_strict domain measurement entity_id "value"
      = Raise (ValueError msg)
    /\ substring_of domain msg
    /\ substring_of measurement msg
    /\ substring_of entity_id msg.

End with_schema.

End mapping.

(** ** vm_writer.py *)

Module vm_writer.

Record VMDataPoint : Type := {
  metric_name : string;
  labels : list (string * string);
  value : float;
  timestamp_ms : Z
}.

(** What [self._session.post(...)] does, once the retry adapter of the
    session has given up retrying: an HTTP response, or one of the
    exceptions [write_batch] tells apart. *)
Inductive post_outcome : Type :=
| Response (status_code : Z) (text : string)
| RequestsConnectionError (e : string)
| RequestsTimeout (e : string)
| PostRaises (e : exn).

(** What [self._session.get(self._health_url, timeout=5)] does. *)
Inductive get_outcome : Type :=
| GetResponse (status_code : Z)
| RequestException (e : string).

(** The attributes of a [VMWriter]. [posted] lists the payloads handed to
    [session.post], oldest first, and [write_batch_calls] the arguments of
    the calls of [write_batch], oldest first; neither is a Python attribute,
    they record what the object did. *)
Record VMWriter : Type := {
  _url : string;
  _import_url : string;
  _health_url : string;
  _dry_run : bool;
  _batch_size : Z;
  _points_written : Z;
  _batches_sent : Z;
  posted : list string;
  write_batch_calls : list (list VMDataPoint)
}.

Definition points_written (w : VMWriter) : Z := _points_written w.
Definition batches_sent (w : VMWriter) : Z := _batches_sent w.
Definition is_dry_run (w : VMWriter) : bool := _dry_run w.

(** [url.rstrip('/')]. *)
Fixpoint rstrip_slash (url : string) : string :=
  match url with
  | EmptyString => EmptyString
  | String c url' =>
      match rstrip_slash url' with
      | EmptyString => if Ascii.eqb c "/" then EmptyString
                       else String c EmptyString
      | rest => String c rest
      end
  end.

(** [VMWriter(url, dry_run, batch_size)]. *)
Definition __init__ (url : string) (dry_run : bool) (batch_size : Z)
  : VMWriter :=
  let url := rstrip_slash url in
  {| _url := url;
     _import_url := url +:+ "/api/v1/import/prometheus";
     _health_url := url +:+ "/health";
     _dry_run := dry_run;
     _batch_size := batch_size;
     _points_written := 0;
     _batches_sent := 0;
     posted := [];
     write_batch_calls := [] |}.

(** The inner function of [format_prometheus_line]. *)
Definition escape_label_value (value : string) : string :=
  let value := replace "\" "\\" value in
  let value := replace dquote ("\" +:+ dq) value in
  let value := replace newline "\n" value in
  value.

(** The order of Python on the pairs [(key, value)] of a dict: by key, then
    by value. *)
Definition item_leb (a b : string * string) : bool :=
  match String.compare a.1 b.1 with
  | Lt => true
  | Eq => String.leb a.2 b.2
  | Gt => false
  end.

Definition item_le (a b : string * string) : Prop := item_leb a b = true.

#[export] Instance item_le_dec a b : Decision (item_le a b).
Proof. unfold item_le. apply _. Defined.

(** [sorted(d.items())]. *)
Definition sorted_items (d : list (string * string))
  : list (string * string) :=
  merge_sort item_le d.

(** [f'{key}="{escape_label_value(value)}"']. *)
Definition label_part (kv : string * string) : string :=
  kv.1 +:+ "=" +:+ dq +:+ escape_label_value kv.2 +:+ dq.

(** ['{' + ','.join(label_parts) + '}'] over the items as given. *)
Definition label_block (items : list (string * string)) : string :=
  "{" +:+ join "," (label_part <$> items) +:+ "}".

Section with_environment.

(** [str(x)] of a float, as an f-string prints it. *)
Variable str_float : float -> string.

(** The destination: the answer to the [n]-th POST of the session (counting
    from 0) with a given payload, and to a GET of the health URL. *)
Variable session_post : nat -> string -> post_outcome.
Variable session_get : string -> get_outcome.

Definition format_prometheus_line (point : VMDataPoint) : string :=
  let label_string :=
    match labels point with
    | [] => EmptyString
    | _ => label_block (sorted_items (labels point))
    end in
  metric_name point +:+ label_string +:+ " " +:+ str_float (value point)
  +:+ " " +:+ str_int (timestamp_ms point).

(** The statistics update shared by both modes of [write_batch]. *)
Definition count_batch (w : VMWriter) (n : Z) : VMWriter :=
  {| _url := _url w; _import_url := _import_url w;
     _health_url := _health_url w; _dry_run := _dry_run w;
     _batch_size := _batch_size w;
     _points_written := _points_written w + n;
     _batches_sent := _batches_sent w + 1;
     posted := posted w;
     write_batch_calls := write_batch_calls w |}.

Definition record_call (w : VMWriter) (points : list VMDataPoint)
  : VMWriter :=
  {| _url := _url w; _import_url := _import_url w;
     _health_url := _health_url w; _dry_run := _dry_run w;
     _batch_size := _batch_size w;
     _points_written := _points_written w;
     _batches_sent := _batches_sent w;
     posted := posted w;
     write_batch_calls := write_batch_calls w ++ [points] |}.

Definition record_post (w : VMWriter) (payload : string) : VMWriter :=
  {| _url := _url w; _import_url := _import_url w;
     _health_url := _health_url w; _dry_run := _dry_run w;
     _batch_size := _batch_size w;
     _points_written := _points_written w;
     _batches_sent := _batches_sent w;
     posted := posted w ++ [payload];
     write_batch_calls := write_batch_calls w |}.

Definition write_batch (w : VMWriter) (points : list VMDataPoint)
  : result Z * VMWriter :=
  let w := record_call w points in
  match points with
  | [] => (Ok 0, w)
  | _ =>
      let lines := format_prometheus_line <$> points in
      let payload := join nl lines in
      let len_points := Z.of_nat (length points) in
      if _dry_run w then
        (Ok len_points, count_batch w len_points)
      else
        let outcome := session_post (length (posted w)) payload in
        let w := record_post w payload in
        match outcome with
        | Response status_code text =>
            if Z.leb 400 status_code then
              (Raise (WriteError status_code (str_take 500 text)), w)
            else (Ok len_points, count_batch w len_points)
        | RequestsConnectionError _ =>
            (Raise (ConnectionError
                      ("Failed to connect to " +:+ _import_url w)), w)
        | RequestsTimeout _ =>
            (Raise (ConnectionError
                      ("Timeout connecting to " +:+ _import_url w)), w)
        | PostRaises e => (Raise e, w)
        end
  end.

Definition health_check (w : VMWriter) : bool :=
  match session_get (_health_url w) with
  | GetResponse status_code => Z.eqb status_code 200
  | RequestException _ => false
  end.

Definition reset_stats (w : VMWriter) : VMWriter :=
  {| _url := _url w; _import_url := _import_url w;
     _health_url := _health_url w; _dry_run := _dry_run w;
     _batch_size := _batch_size w;
     _points_written := 0;
     _batches_sent := 0;
     posted := posted w;
     write_batch_calls := write_batch_calls w |}.

End with_environment.

(** *** Reading a label value back *)

(** What the three replacements of [escape_label_value] make of one
    character. *)
Definition escape_char (c : ascii) : string :=
  if Ascii.eqb c "\" then "\\"
  else if Ascii.eqb c dquote then "\" +:+ dq
  else if Ascii.eqb c newline then "\n"
  else String c EmptyString.

(** The inverse of [escape_label_value]: a backslash announces an escaped
    character. [None] on a dangling backslash or an unknown escape. *)
Fixpoint unescape_label_value (text : string) : option string :=
  match text with
  | EmptyString => Some EmptyString
  | String c text' =>
      if Ascii.eqb c "\" then
        match text' with
        | EmptyString => None
        | String c' text'' =>
            let decoded :=
              if Ascii.eqb c' "\" then Some "\"%char
              else if Ascii.eqb c' dquote then Some dquote
              else if Ascii.eqb c' "n" then Some newline
              else None in
            match decoded, unescape_label_value text'' with
            | Some d, Some rest => Some (String d rest)
            | _, _ => None
            end
        end
      else String c <$> unescape_label_value text'
  end.

(** Reads a quoted text up to its closing quote, the first quote that no
    backslash escapes: the text before that quote and the text after it. *)
Fixpoint read_quoted (text : string) : option (string * string) :=
  match text with
  | EmptyString => None
  | String c text' =>
      if Ascii.eqb c dquote then Some (EmptyString, text')
      else if Ascii.eqb c "\" then
        match text' with
        | EmptyString => None
        | String c' text'' =>
            match read_quoted text'' with
            | Some (v, rest) => Some (String c (String c' v), rest)
            | None => None
            end
        end
      else
        match read_quoted text' with
        | Some (v, rest) => Some (String c v, rest)
        | None => None
        end
  end.

(** Reads a label value from the text that follows its opening quote: the
    value, unescaped, and the text after its closing quote. *)
Definition read_label_value (text : string) : option (string * string) :=
  match read_quoted text with
  | Some (raw, rest) =>
      match unescape_label_value raw with
      | Some v => Some (v, rest)
      | None => None
      end
  | None => None
  end.

(** The order of the label keys in a line. *)
Definition key_le (a b : string * string) : Prop :=
  String.leb a.1 b.1 = true.

End vm_writer.

(** ** progress.py *)

Module progress.

(** A calendar day ([datetime.date]), by its proleptic Gregorian ordinal:
    [d + timedelta(days=1)] is [d + 1] and [d1 <= d2] is [Z.le]. *)
Definition date : Type := Z.

(** What [json.load] returns and [json.dump] accepts. A dict keeps its keys
    in insertion order. *)
#[warnings="-register-all"]
Inductive json : Type :=
| JNull
| JBool (b : bool)
| JInt (n : Z)
| JStr (s : string)
| JList (l : list json)
| JDict (d : list (string * json)).

(** The content of a file of the state directory: the JSON document its text
    denotes, or text that [json.load] rejects. That [json.load] gives back
    the document [json.dump] wrote is a property of the Python library, which
    this representation takes for granted. *)
Inductive file_content : Type :=
| Json (doc : json)
| NotJson (text : string).

Record MigrationProgress : Type := {
  started_at : string;
  last_updated : string;
  status : string;
  total_records : Z;
  oldest_timestamp : string;
  newest_timestamp : string;
  last_migrated_date : option string;
  records_migrated : Z;
  records_failed : Z;
  batches_sent : Z;
  errors : list string;
  dry_run : bool
}.

(** [asdict(self)]. *)
Definition to_dict (p : MigrationProgress) : list (string * json) :=
  [ ("started_at", JStr (started_at p));
    ("last_updated", JStr (last_updated p));
    ("status", JStr (status p));
    ("total_records", JInt (total_records p));
    ("oldest_timestamp", JStr (oldest_timestamp p));
    ("newest_timestamp", JStr (newest_timestamp p));
    ("last_migrated_date",
       match last_migrated_date p with
       | Some d => JStr d
       | None => JNull
       end);
    ("records_migrated", JInt (records_migrated p));
    ("records_failed", JInt (records_failed p));
    ("batches_sent", JInt (batches_sent p));
    ("errors", JList (JStr <$> errors p));
    ("dry_run", JBool (dry_run p)) ].

(** [data[key]] on a dict. *)
Fixpoint dict_get (key : string) (data : list (string * json))
  : option json :=
  match data with
  | [] => None
  | (k, v) :: data' => if String.eqb k key then Some v else dict_get key data'
  end.

Definition as_str (v : json) : option string :=
  match v with JStr s => Some s | _ => None end.

Definition as_int (v : json) : option Z :=
  match v with JInt n => Some n | _ => None end.

Definition as_bool (v : json) : option bool :=
  match v with JBool b => Some b | _ => None end.

Definition as_optional_str (v : json) : option (option string) :=
  match v with JStr s => Some (Some s) | JNull => Some None | _ => None end.

Fixpoint as_str_list (l : list json) : option (list string) :=
  match l with
  | [] => Some []
  | v :: l' =>
      match as_str v, as_str_list l' with
      | Some s, Some rest => Some (s :: rest)
      | _, _ => None
      end
  end.

Definition as_list_of_str (v : json) : option (list string) :=
  match v with JList l => as_str_list l | _ => None end.

(** [cls] called with the dict unpacked as keywords; [None] stands for the
    [TypeError] of a missing or an unexpected keyword: a dict of twelve keys
    that has the twelve field names has no other key. The dataclass does not check the types of the values;
    this typed record cannot hold a value of another type than the annotated
    one, and [from_dict] answers [None] for such a document too. *)
Definition from_dict (data : list (string * json))
  : option MigrationProgress :=
  if negb (Nat.eqb (length data) 12) then None
  else
    started_at ← dict_get "started_at" data ≫= as_str;
    last_updated ← dict_get "last_updated" data ≫= as_str;
    status ← dict_get "status" data ≫= as_str;
    total_records ← dict_get "total_records" data ≫= as_int;
    oldest_timestamp ← dict_get "oldest_timestamp" data ≫= as_str;
    newest_timestamp ← dict_get "newest_timestamp" data ≫= as_str;
    last_migrated_date ←
      dict_get "last_migrated_date" data ≫= as_optional_str;
    records_migrated ← dict_get "records_migrated" data ≫= as_int;
    records_failed ← dict_get "records_failed" data ≫= as_int;
    batches_sent ← dict_get "batches_sent" data ≫= as_int;
    errors ← dict_get "errors" data ≫= as_list_of_str;
    dry_run ← dict_get "dry_run" data ≫= as_bool;
    Some {| started_at := started_at; last_updated := last_updated;
            status := status; total_records := total_records;
            oldest_timestamp := oldest_timestamp;
            newest_timestamp := newest_timestamp;
            last_migrated_date := last_migrated_date;
            records_migrated := records_migrated;
            records_failed := records_failed;
            batches_sent := batches_sent;
            errors := errors; dry_run := dry_run |}.

(** The state directory of a [ProgressTracker]: [progress.json] when it
    exists, and the backup files by name, newest first. Failing file
    operations are not modelled. *)
Record ProgressTracker : Type := {
  progress_file : option file_content;
  backup_files : list (string * file_content)
}.

Definition load (t : ProgressTracker) : option MigrationProgress :=
  match progress_file t with
  | None => None
  | Some (NotJson _) => None
  | Some (Json (JDict data)) => from_dict data
  | Some (Json _) => None
  end.

Definition set_last_updated (p : MigrationProgress) (now : string)
  : MigrationProgress :=
  {| started_at := started_at p; last_updated := now;
     status := status p; total_records := total_records p;
     oldest_timestamp := oldest_timestamp p;
     newest_timestamp := newest_timestamp p;
     last_migrated_date := last_migrated_date p;
     records_migrated := records_migrated p;
     records_failed := records_failed p;
     batches_sent := batches_sent p;
     errors := errors p; dry_run := dry_run p |}.

(** [save(progress)], where [utcnow] is the text of
    [datetime.utcnow().isoformat()] at the call. The temporary file is
    written and renamed over [progress.json]; the object is stamped in
    place. *)
Definition save (t : ProgressTracker) (utcnow : string)
  (p : MigrationProgress) : ProgressTracker * MigrationProgress :=
  let p := set_last_updated p (utcnow +:+ "Z") in
  let temp_file := Json (JDict (to_dict p)) in
  ({| progress_file := Some temp_file; backup_files := backup_files t |}, p).

(** [reset(backup)], where [stamp] is the text of
    [datetime.utcnow().strftime("%Y%m%d_%H%M%S")] at the call. *)
Definition reset (t : ProgressTracker) (stamp : string) (backup : bool)
  : ProgressTracker :=
  match progress_file t with
  | None => t
  | Some content =>
      let backups :=
        if backup then
          ("progress_" +:+ stamp +:+ ".backup.json", content)
            :: backup_files t
        else backup_files t in
      {| progress_file := None; backup_files := backups |}
  end.

(** [create_new(total_records, oldest, newest, dry_run)], given the texts of
    [datetime.utcnow().isoformat()], [oldest.isoformat()] and
    [newest.isoformat()]. *)
Definition create_new (utcnow : string) (total_records : Z)
  (oldest newest : string) (dry_run : bool) : MigrationProgress :=
  let now := utcnow +:+ "Z" in
  {| started_at := now; last_updated := now;
     status := "not_started"; total_records := total_records;
     oldest_timestamp := oldest +:+ "Z";
     newest_timestamp := newest +:+ "Z";
     last_migrated_date := None;
     records_migrated := 0; records_failed := 0; batches_sent := 0;
     errors := []; dry_run := dry_run |}.

Section with_calendar.

(** [d.isoformat()] of a date. *)
Variable date_isoformat : date -> string.

Definition update (t : ProgressTracker) (utcnow : string)
  (p : MigrationProgress) (migrated_date : date) (records batches : Z)
  : ProgressTracker * MigrationProgress :=
  let p :=
    {| started_at := started_at p; last_updated := last_updated p;
       status := "in_progress"; total_records := total_records p;
       oldest_timestamp := oldest_timestamp p;
       newest_timestamp := newest_timestamp p;
       last_migrated_date := Some (date_isoformat migrated_date);
       records_migrated := records_migrated p + records;
       records_failed := records_failed p;
       batches_sent := batches_sent p + batches;
       errors := errors p; dry_run := dry_run p |} in
  save t utcnow p.

End with_calendar.

Definition mark_completed (t : ProgressTracker) (utcnow : string)
  (p : MigrationProgress) : ProgressTracker * MigrationProgress :=
  let p :=
    {| started_at := started_at p; last_updated := last_updated p;
       status := "completed"; total_records := total_records p;
       oldest_timestamp := oldest_timestamp p;
       newest_timestamp := newest_timestamp p;
       last_migrated_date := last_migrated_date p;
       records_migrated := records_migrated p;
       records_failed := records_failed p;
       batches_sent := batches_sent p;
       errors := errors p; dry_run := dry_run p |} in
  save t utcnow p.

Definition mark_failed (t : ProgressTracker) (utcnow : string)
  (p : MigrationProgress) (error : string)
  : ProgressTracker * MigrationProgress :=
  let p :=
    {| started_at := started_at p; last_updated := last_updated p;
       status := "failed"; total_records := total_records p;
       oldest_timestamp := oldest_timestamp p;
       newest_timestamp := newest_timestamp p;
       last_migrated_date := last_migrated_date p;
       records_migrated := records_migrated p;
       records_failed := records_failed p;
       batches_sent := batches_sent p;
       errors := errors p ++ [error]; dry_run := dry_run p |} in
  save t utcnow p.

End progress.

(** ** migrate.py *)

Module migrate.

Import progress.

(** [InfluxDataPoint] of influx_reader.py. The timestamp is a UTC instant,
    in microseconds since the epoch. *)
Record InfluxDataPoint : Type := {
  timestamp : Z;
  domain : string;
  entity_id : string;
  friendly_name : string;
  measurement : string;
  field : string;
  value : float
}.

(** The command-line arguments [main] reads itself; the remaining ones
    (source URL, token, organisation, bucket, state directory, domains,
    extended fields) only configure the collaborators below. *)
Record Args : Type := {
  dry_run : bool;
  reset : bool;
  vm_url : string;
  batch_size : Z;
  start_date : string;
  end_date : string
}.

(** [str(e)]. *)
Definition str_exn (e : exn) : string :=
  match e with
  | ValueError msg => msg
  | WriteError status_code body =>
      "Write failed with status " +:+ str_int status_code +:+ ": " +:+ body
  | ConnectionError msg => msg
  | QueryError msg => msg
  | OtherError msg => msg
  end.

(** The loop of [generate_date_range], run [n] times from [current]. *)
Fixpoint dates_from (n : nat) (current : date) : list date :=
  match n with
  | O => []
  | S n' => current :: dates_from n' (current + 1)
  end.

(** [generate_date_range(start, end)]: the loop runs while
    [current <= end], that is [end - start + 1] times when that is
    positive. *)
Definition generate_date_range (start end_ : date) : list date :=
  dates_from (Z.to_nat (end_ - start + 1)) start.

(** The local variables of the loop of [migrate_day]. *)
Record day_state : Type := {
  batch : list vm_writer.VMDataPoint;
  records_count : Z;
  batches_sent : Z;
  skipped_count : Z
}.

(** The counters of [perform_dry_run_validation]. *)
Record validation_state : Type := {
  total_records : Z;
  valid_records : Z;
  skipped_records : Z;
  errors : list string;
  unmapped_combinations : gset (string * string * string * string)
}.

(** What a run of [main] leaves behind: the value it returns (or the
    exception that escapes it), the state directory, the days it asked the
    source for, in order, and the writer if one was constructed. *)
Record run : Type := {
  exit : result Z;
  tracker_after : ProgressTracker;
  days_queried : list date;
  writer_after : option vm_writer.VMWriter
}.

Section with_environment.

(** The Python library. *)
Variable lower : string -> string.
Variable str_format : string -> string -> string -> string.
Variable str_float : float -> string.
Variable date_isoformat : date -> string.
(** [date.fromisoformat(text)] and
    [datetime.strptime(text, "%Y-%m-%d").date()]; [None] is their
    [ValueError]. *)
Variable date_fromisoformat : string -> option date.
Variable strptime_date : string -> option date.
(** [isoformat()] of the first and of the last instant of a day in UTC. *)
Variable day_min_isoformat : date -> string.
Variable day_max_isoformat : date -> string.
(** [int(t.timestamp() * 1000)] of an instant; the rounding of the float
    product is not modelled. *)
Variable timestamp_ms_of : Z -> Z.
(** The clock: the texts of [utcnow().isoformat()] and of
    [utcnow().strftime("%Y%m%d_%H%M%S")] at the [n]-th reading. *)
Variable utcnow_isoformat : nat -> string.
Variable utcnow_stamp : nat -> string.

(** The collaborators. [query_day day] is the stream of the source for that
    day: the points it yields, in order, and the exception that ends it when
    the query fails. [load_schema url] is what [mapping.load_schema] makes of
    the YAML file and of the metric names the destination reports;
    [connect_influx] is the exception of the constructor of the reader, if
    any. *)
Variable query_day : date -> list InfluxDataPoint * option exn.
Variable load_schema : string -> result (mapping.schema * gset string).
Variable connect_influx : option exn.
Variable session_post : nat -> string -> vm_writer.post_outcome.
Variable session_get : string -> vm_writer.get_outcome.

Section with_schema.

(** The globals of mapping.py after [load_schema]. *)
Variable s : mapping.schema.
Variable known : gset string.

Definition strict (point : InfluxDataPoint) : result (option string) :=
  mapping.get_vm_metric_name_strict lower s known
    (domain point) (measurement point) (entity_id point) (field point).

(** The [VMDataPoint] built for a point that maps to [metric_name]. *)
Definition to_vm_point (metric_name : string) (point : InfluxDataPoint)
  : vm_writer.VMDataPoint :=
  let labels :=
    mapping.build_vm_labels str_format s
      (domain point) (entity_id point) (friendly_name point) in
  let timestamp_ms := timestamp_ms_of (timestamp point) in
  {| vm_writer.metric_name := metric_name;
     vm_writer.labels := labels;
     vm_writer.value := value point;
     vm_writer.timestamp_ms := timestamp_ms |}.

(** The [for] loop of [migrate_day] over the points the stream yields. *)
Fixpoint migrate_day_loop (batch_size : Z) (points : list InfluxDataPoint)
  (st : day_state) (w : vm_writer.VMWriter)
  : result day_state * vm_writer.VMWriter :=
  match points with
  | [] => (Ok st, w)
  | point :: points' =>
      match strict point with
      | Raise e => (Raise e, w)
      | Ok None =>
          migrate_day_loop batch_size points'
            {| batch := batch st; records_count := records_count st;
               batches_sent := batches_sent st;
               skipped_count := skipped_count st + 1 |} w
      | Ok (Some metric_name) =>
          let vm_point := to_vm_point metric_name point in
          let batch := batch st ++ [vm_point] in
          let records_count := records_count st + 1 in
          if Z.leb batch_size (Z.of_nat (length batch)) then
            match vm_writer.write_batch str_float session_post w batch with
            | (Raise e, w') => (Raise e, w')
            | (Ok _, w') =>
                migrate_day_loop batch_size points'
                  {| batch := []; records_count := records_count;
                     batches_sent := batches_sent st + 1;
                     skipped_count := skipped_count st |} w'
            end
          else
            migrate_day_loop batch_size points'
              {| batch := batch; records_count := records_count;
                 batches_sent := batches_sent st;
                 skipped_count := skipped_count st |} w
      end
  end.

(** [migrate_day(influx, vm_writer, day, batch_size, dry_run)]: the triple
    [(records_migrated, batches_sent, records_skipped)]. *)
Definition migrate_day (w : vm_writer.VMWriter) (day : date)
  (batch_size : Z) (dry_run : bool)
  : result (Z * Z * Z) * vm_writer.VMWriter :=
  let '(points, stream_error) := query_day day in
  let st0 := {| batch := []; records_count := 0; batches_sent := 0;
                skipped_count := 0 |} in
  match migrate_day_loop batch_size points st0 w with
  | (Raise e, w') => (Raise e, w')
  | (Ok st, w') =>
      match stream_error with
      | Some e => (Raise e, w')
      | None =>
          match batch st with
          | [] =>
              (Ok (records_count st, batches_sent st, skipped_count st), w')
          | _ =>
              match
                vm_writer.write_batch str_float session_post w' (batch st)
              with
              | (Raise e, w'') => (Raise e, w'')
              | (Ok _, w'') =>
                  (Ok (records_count st, batches_sent st + 1,
                       skipped_count st), w'')
              end
          end
      end
  end.

(** *** Vocabulary of the statements about [migrate_day] *)

(** The points of a stream that are not skipped, as the [VMDataPoint]s the
    loop appends to its batch, in order. *)
Fixpoint vm_points_of (points : list InfluxDataPoint)
  : list vm_writer.VMDataPoint :=
  match points with
  | [] => []
  | point :: points' =>
      match strict point with
      | Ok (Some metric_name) =>
          to_vm_point metric_name point :: vm_points_of points'
      | _ => vm_points_of points'
      end
  end.

(** The number of points of a stream that strict resolution skips. *)
Fixpoint skipped_of (points : list InfluxDataPoint) : nat :=
  match points with
  | [] => O
  | point :: points' =>
      match strict point with
      | Ok None => S (skipped_of points')
      | _ => skipped_of points'
      end
  end.

(** The arguments of the calls of [write_batch] between two states of a
    writer. *)
Definition calls_since (w w' : vm_writer.VMWriter)
  : list (list vm_writer.VMDataPoint) :=
  drop (length (vm_writer.write_batch_calls w))
    (vm_writer.write_batch_calls w').

(** The sentence "[migrate_day] conserves records: what it returns as
    migrated plus what it returns as skipped is the number of points of the
    stream, every point that is not skipped is in exactly one batch, every
    batch written but possibly the last has exactly [batch_size] points,
    and the batches it returns as sent are the calls of [write_batch]", at
    one call. *)
Definition day_is_conserved (w : vm_writer.VMWriter) (day : date)
  (batch_size : Z) (dry_run : bool) : Prop :=
  forall records batches skipped w',
    migrate_day w day batch_size dry_run
      = (Ok (records, batches, skipped), w') ->
    let points := (query_day day).1 in
    let calls := calls_since w w' in
    records + skipped = Z.of_nat (length points)
    /\ concat calls = vm_points_of points
    /\ (forall i b,
          calls !! i = Some b -> (S i < length calls)%nat ->
          Z.of_nat (length b) = batch_size)
    /\ batches = Z.of_nat (length calls).

(** The sentence "a record on a non-default field that has no field rule
    resolves to an outcome other than the ignored one, and a day whose
    stream holds such a record fails", at one call. *)
Definition unruled_field_fails_the_day (w : vm_writer.VMWriter) (day : date)
  (batch_size : Z) (dry_run : bool) (point : InfluxDataPoint) : Prop :=
  field point <> "value" ->
  default ∅ (mapping.field_mappings s !! domain point) !! field point
    = None ->
  point ∈ (query_day day).1 ->
  strict point <> Ok None
  /\ exists e w', migrate_day w day batch_size dry_run = (Raise e, w').

(** The text appended to [errors] by [perform_dry_run_validation]. *)
Definition unmapped_message (point : InfluxDataPoint) : string :=
  "UNMAPPED: domain='" +:+ domain point +:+ "', "
  +:+ "measurement='" +:+ measurement point +:+ "', "
  +:+ "entity_id='" +:+ entity_id point +:+ "', "
  +:+ "field='" +:+ field point +:+ "'".

(** The inner loop of [perform_dry_run_validation] over the points of one
    day. *)
Fixpoint validate_points (points : list InfluxDataPoint)
  (v : validation_state) : result validation_state :=
  match points with
  | [] => Ok v
  | point :: points' =>
      let total := total_records v + 1 in
      match strict point with
      | Ok None =>
          validate_points points'
            {| total_records := total; valid_records := valid_records v;
               skipped_records := skipped_records v + 1;
               errors := errors v;
               unmapped_combinations := unmapped_combinations v |}
      | Ok (Some _) =>
          validate_points points'
            {| total_records := total;
               valid_records := valid_records v + 1;
               skipped_records := skipped_records v;
               errors := errors v;
               unmapped_combinations := unmapped_combinations v |}
      | Raise (ValueError _) =>
          let combination_key :=
            (domain point, measurement point, entity_id point,
             field point) in
          if bool_decide (combination_key ∈ unmapped_combinations v) then
            validate_points points'
              {| total_records := total; valid_records := valid_records v;
                 skipped_records := skipped_records v;
                 errors := errors v;
                 unmapped_combinations := unmapped_combinations v |}
          else
            validate_points points'
              {| total_records := total; valid_records := valid_records v;
                 skipped_records := skipped_records v;
                 errors := errors v ++ [unmapped_message point];
                 unmapped_combinations :=
                   {[ combination_key ]} ∪ unmapped_combinations v |}
      | Raise e => Raise e
      end
  end.

(** The outer loop of [perform_dry_run_validation] over the days; the days
    asked for are returned next to the result. *)
Fixpoint validate_days (days : list date) (v : validation_state)
  (queried : list date) : result validation_state * list date :=
  match days with
  | [] => (Ok v, queried)
  | current_date :: days' =>
      let '(points, stream_error) := query_day current_date in
      let queried := queried ++ [current_date] in
      match validate_points points v with
      | Raise e => (Raise e, queried)
      | Ok v' =>
          match stream_error with
          | Some e => (Raise e, queried)
          | None => validate_days days' v' queried
          end
      end
  end.

Definition perform_dry_run_validation (start_date end_date : date)
  : result (Z * Z * Z * list string) * list date :=
  let v0 := {| total_records := 0; valid_records := 0;
               skipped_records := 0; errors := [];
               unmapped_combinations := ∅ |} in
  match validate_days (generate_date_range start_date end_date) v0 [] with
  | (Ok v, queried) =>
      (Ok (total_records v, valid_records v, skipped_records v, errors v),
       queried)
  | (Raise e, queried) => (Raise e, queried)
  end.

(** The state [main] threads through the migration loop. *)
Record loop_state : Type := {
  tracker : ProgressTracker;
  clock_reads : nat;
  checkpoint : MigrationProgress;
  queried : list date;
  writer : vm_writer.VMWriter;
  total_skipped : Z
}.

(** The [for] loop of [main] over [dates_to_migrate]: [Raise e] when a day
    fails, after the [mark_failed] of the inner handler. *)
Fixpoint migrate_dates (args : Args) (dates : list date) (st : loop_state)
  : result unit * loop_state :=
  match dates with
  | [] => (Ok tt, st)
  | current_date :: dates' =>
      let '(r, w) :=
        migrate_day (writer st) current_date (batch_size args)
          (dry_run args) in
      let queried := queried st ++ [current_date] in
      match r with
      | Ok (records, batches, skipped) =>
          let '(t, p) :=
            update date_isoformat (tracker st)
              (utcnow_isoformat (clock_reads st)) (checkpoint st) current_date
              records batches in
          migrate_dates args dates'
            {| tracker := t; clock_reads := S (clock_reads st); checkpoint := p;
               queried := queried; writer := w;
               total_skipped := total_skipped st + skipped |}
      | Raise e =>
          let '(t, p) :=
            mark_failed (tracker st) (utcnow_isoformat (clock_reads st))
              (checkpoint st)
              ("Failed on " +:+ date_isoformat current_date +:+ ": "
               +:+ str_exn e) in
          (Raise e,
           {| tracker := t; clock_reads := S (clock_reads st); checkpoint := p;
              queried := queried; writer := w;
              total_skipped := total_skipped st |})
      end
  end.

End with_schema.

(** [main()] from the [# Load schema mapping] comment on, with the
    checkpoint read at the start ([None] when there is none). *)
Definition main_from_schema (args : Args) (t : ProgressTracker)
  (clock : nat) (progress : option MigrationProgress) : run :=
  let stop code t queried w :=
    {| exit := code; tracker_after := t; days_queried := queried;
       writer_after := w |} in
  match load_schema (vm_url args) with
  | Raise _ => stop (Ok 1) t [] None
  | Ok (s, known) =>
  match connect_influx with
  | Some _ => stop (Ok 1) t [] None
  | None =>
  match strptime_date (start_date args), strptime_date (end_date args) with
  | None, _ | _, None => stop (Ok 1) t [] None
  | Some start_date, Some end_date =>
  let total_records := 55000000 in
  let '(t, clock, progress) :=
    match progress with
    | Some p => (t, clock, p)
    | None =>
        let p :=
          create_new (utcnow_isoformat clock) total_records
            (day_min_isoformat start_date) (day_max_isoformat end_date)
            (dry_run args) in
        let '(t, p) := save t (utcnow_isoformat (S clock)) p in
        (t, S (S clock), p)
    end in
  let w := vm_writer.__init__ (vm_url args) (dry_run args) (batch_size args) in
  if negb (dry_run args) && negb (vm_writer.health_check session_get w)
  then stop (Ok 1) t [] (Some w)
  else
  let resume :=
    if truthy (last_migrated_date progress) then
      match date_fromisoformat (default EmptyString
                                  (last_migrated_date progress)) with
      | Some resume_date => Ok (resume_date + 1)
      | None => Raise (ValueError "Invalid isoformat string")
      end
    else Ok start_date in
  match resume with
  | Raise e => stop (Raise e) t [] (Some w)
  | Ok start_date =>
  if dry_run args then
    match perform_dry_run_validation s known start_date end_date with
    | (Ok (total, valid, skipped, errors), queried) =>
        match errors with
        | [] => stop (Ok 0) t queried (Some w)
        | _ => stop (Ok 1) t queried (Some w)
        end
    | (Raise e, queried) =>
        let '(t, _) :=
          mark_failed t (utcnow_isoformat clock) progress (str_exn e) in
        stop (Ok 1) t queried (Some w)
    end
  else
    let dates_to_migrate := generate_date_range start_date end_date in
    let st0 := {| tracker := t; clock_reads := clock; checkpoint := progress;
                  queried := []; writer := w; total_skipped := 0 |} in
    match migrate_dates s known args dates_to_migrate st0 with
    | (Ok _, st) =>
        let '(t, _) :=
          mark_completed (tracker st) (utcnow_isoformat (clock_reads st))
            (checkpoint st) in
        stop (Ok 0) t (queried st) (Some (writer st))
    | (Raise e, st) =>
        let '(t, _) :=
          mark_failed (tracker st) (utcnow_isoformat (clock_reads st))
            (checkpoint st) (str_exn e) in
        stop (Ok 1) t (queried st) (Some (writer st))
    end
  end end end end.

(** The state directory after the [# Handle reset flag] step of [main], and
    the number of clock readings it took: [reset] reads the clock when there
    is a file to back up. *)
Definition after_reset_flag (args : Args) (t : ProgressTracker)
  : ProgressTracker * nat :=
  if reset args then
    (progress.reset t (utcnow_stamp 0) true,
     match progress_file t with Some _ => 1%nat | None => 0%nat end)
  else (t, 0%nat).

(** [main()], started on the state directory [t]. *)
Definition main (args : Args) (t : ProgressTracker) : run :=
  let '(t, clock) := after_reset_flag args t in
  let progress := load t in
  match progress with
  | Some p =>
      if String.eqb (status p) "completed" then
        {| exit := Ok 0; tracker_after := t; days_queried := [];
           writer_after := None |}
      else if String.eqb (status p) "failed" then
        {| exit := Ok 1; tracker_after := t; days_queried := [];
           writer_after := None |}
      else main_from_schema args t clock progress
  | None => main_from_schema args t clock progress
  end.

End with_environment.

End migrate.

(** ** Concrete inputs

    A small ruleset in the shape of SCHEMA_MAPPING.yaml, a set of known
    metric names taken from the test fixtures, and an environment to run the
    definitions in. *)

Module example.

Import mapping.

Definition rule (metric : string) : mapping_info :=
  {| mi_metric := Some metric; mi_ignore := false;
     mi_special_mapping_required := false; mi_allow_new := false |}.

Definition percent_rule : mapping_info :=
  {| mi_metric := Some "homeassistant_sensor_unit_percent";
     mi_ignore := false; mi_special_mapping_required := true;
     mi_allow_new := false |}.

Definition ignored_rule : mapping_info :=
  {| mi_metric := None; mi_ignore := true;
     mi_special_mapping_required := false; mi_allow_new := false |}.

Definition battery : special_rule :=
  {| sr_pattern := Some "Battery";
     sr_metric := Some "homeassistant_sensor_battery_percent";
     sr_ignore := false |}.

Definition default_percent : special_rule :=
  {| sr_pattern := Some "default";
     sr_metric := Some "homeassistant_sensor_unit_percent";
     sr_ignore := false |}.

Definition humidity : special_rule :=
  {| sr_pattern := Some "humidity";
     sr_metric := Some "homeassistant_sensor_humidity_percent";
     sr_ignore := false |}.

Definition linkquality : special_rule :=
  {| sr_pattern := Some "linkquality"; sr_metric := None;
     sr_ignore := true |}.

Definition schema0 : schema :=
  {| metric_mappings :=
       {[ "sensor" :=
            {[ "°C" := rule "homeassistant_sensor_temperature_celsius";
               "W" := rule "homeassistant_sensor_power_w";
               "%" := percent_rule;
               "lqi" := ignored_rule ]};
          "binary_sensor" :=
            {[ "units" := rule "homeassistant_binary_sensor_state" ]} ]};
     field_mappings :=
       {[ "climate" :=
            {[ "current_temperature" :=
                 {| fi_metric :=
                      Some "homeassistant_climate_current_temperature_celsius";
                    fi_ignore := false |};
               "hvac_action" :=
                 {| fi_metric := None; fi_ignore := true |} ]} ]};
     special_mappings :=
       {[ "%" := [battery; default_percent; humidity; linkquality] ]};
     labels_computed_entity := Some None;
     labels_static := [("job", "influxdb-migration")] |}.

Definition known0 : gset string :=
  {[ "homeassistant_sensor_temperature_celsius";
     "homeassistant_sensor_battery_percent";
     "homeassistant_sensor_humidity_percent";
     "homeassistant_sensor_power_w";
     "homeassistant_sensor_unit_percent";
     "homeassistant_sensor_state";
     "homeassistant_binary_sensor_state";
     "homeassistant_climate_current_temperature_celsius" ]}.

(** What the default template [{domain}.{entity_id}] formats to. *)
Definition str_format (template domain entity_id : string) : string :=
  domain +:+ "." +:+ entity_id.

(** [str] of a float, on the values used below. *)
Definition str_float (x : float) : string :=
  if PrimFloat.eqb x 21.5%float then "21.5"
  else if PrimFloat.eqb x 65.25%float then "65.25"
  else if PrimFloat.eqb x 1%float then "1.0"
  else "0.0".

(** A destination that accepts every batch, and one that rejects every
    batch. *)
Definition post_accepts (n : nat) (payload : string)
  : vm_writer.post_outcome :=
  vm_writer.Response 204 EmptyString.

Definition post_rejects (n : nat) (payload : string)
  : vm_writer.post_outcome :=
  vm_writer.Response 500 "Internal Server Error".

Definition temperature_point : vm_writer.VMDataPoint :=
  {| vm_writer.metric_name := "homeassistant_sensor_temperature_celsius";
     vm_writer.labels :=
       [("entity", "sensor.temperature_living_room");
        ("domain", "sensor");
        ("friendly_name", "Living Room Temperature")];
     vm_writer.value := 21.5%float;
     vm_writer.timestamp_ms := 1732968000000 |}.

Definition humidity_point : vm_writer.VMDataPoint :=
  {| vm_writer.metric_name := "homeassistant_sensor_humidity_percent";
     vm_writer.labels :=
       [("entity", "sensor.humidity_bathroom");
        ("domain", "sensor");
        ("friendly_name", "Bathroom Humidity")];
     vm_writer.value := 65.25%float;
     vm_writer.timestamp_ms := 1732968060000 |}.

Definition motion_point : vm_writer.VMDataPoint :=
  {| vm_writer.metric_name := "homeassistant_binary_sensor_state";
     vm_writer.labels := [];
     vm_writer.value := 1%float;
     vm_writer.timestamp_ms := 1732968120000 |}.

(** A label value with a backslash, a quote and a newline. *)
Definition tricky_value : string :=
  "C:\Users " +:+ dq +:+ "x" +:+ dq +:+ nl +:+ "end".

Definition tricky_point : vm_writer.VMDataPoint :=
  {| vm_writer.metric_name := "test_metric";
     vm_writer.labels := [("path", tricky_value); ("entity", "sensor.t")];
     vm_writer.value := 1%float;
     vm_writer.timestamp_ms := 1000 |}.

(** The same point, its labels inserted in the other order. *)
Definition tricky_point_reordered : vm_writer.VMDataPoint :=
  {| vm_writer.metric_name := "test_metric";
     vm_writer.labels := [("entity", "sensor.t"); ("path", tricky_value)];
     vm_writer.value := 1%float;
     vm_writer.timestamp_ms := 1000 |}.

Definition dry_writer : vm_writer.VMWriter :=
  vm_writer.__init__ "http://vm:8428/" true 10000.

Definition real_writer : vm_writer.VMWriter :=
  vm_writer.__init__ "http://vm:8428/" false 10000.

(** *** An environment for [migrate]: the days of May 2025 *)

Definition may_first : progress.date := 739372.

Definition two_digits (n : Z) : string :=
  if Z.ltb n 10 then "0" +:+ str_int n else str_int n.

(** [d.isoformat()], for the days of May 2025. *)
Definition date_isoformat (d : progress.date) : string :=
  "2025-05-" +:+ two_digits (d - may_first + 1).

Definition may_days : list (string * progress.date) :=
  (fun i => (date_isoformat (may_first + Z.of_nat i), may_first + Z.of_nat i))
    <$> seq 0 31.

(** [date.fromisoformat] and [strptime], on the same days. *)
Definition date_fromisoformat (text : string) : option progress.date :=
  (snd ∘ snd) <$> list_find (fun kd => kd.1 = text) may_days.

Definition day_min_isoformat (d : progress.date) : string :=
  date_isoformat d +:+ "T00:00:00+00:00".

Definition day_max_isoformat (d : progress.date) : string :=
  date_isoformat d +:+ "T23:59:59.999999+00:00".

(** Instants are counted in microseconds. *)
Definition timestamp_ms_of (t : Z) : Z := t / 1000.

Definition utcnow_isoformat (n : nat) : string :=
  "2025-12-01T10:00:" +:+ two_digits (Z.of_nat n).

Definition utcnow_stamp (n : nat) : string :=
  "20251201_1000" +:+ two_digits (Z.of_nat n).

Definition living_room : migrate.InfluxDataPoint :=
  {| migrate.timestamp := 1746093600000000;
     migrate.domain := "sensor";
     migrate.entity_id := "temperature_living_room";
     migrate.friendly_name := "Living Room Temperature";
     migrate.measurement := "°C";
     migrate.field := "value";
     migrate.value := 21.5%float |}.

Definition bathroom : migrate.InfluxDataPoint :=
  {| migrate.timestamp := 1746093660000000;
     migrate.domain := "sensor";
     migrate.entity_id := "humidity_bathroom";
     migrate.friendly_name := "Bathroom Humidity";
     migrate.measurement := "%";
     migrate.field := "value";
     migrate.value := 65.25%float |}.

Definition plug_link : migrate.InfluxDataPoint :=
  {| migrate.timestamp := 1746093720000000;
     migrate.domain := "sensor";
     migrate.entity_id := "plug_linkquality";
     migrate.friendly_name := "Plug";
     migrate.measurement := "lqi";
     migrate.field := "value";
     migrate.value := 1%float |}.

(** A record on a field of its domain that has no field rule. *)
Definition thermostat_target : migrate.InfluxDataPoint :=
  {| migrate.timestamp := 1746093780000000;
     migrate.domain := "climate";
     migrate.entity_id := "thermostat";
     migrate.friendly_name := "Thermostat";
     migrate.measurement := "units";
     migrate.field := "temperature";
     migrate.value := 21.5%float |}.

(** A record of a domain that has no rule and no known fallback metric. *)
Definition stranger : migrate.InfluxDataPoint :=
  {| migrate.timestamp := 1746093840000000;
     migrate.domain := "totally_unknown_domain";
     migrate.entity_id := "test_sensor";
     migrate.friendly_name := "test_sensor";
     migrate.measurement := "units";
     migrate.field := "value";
     migrate.value := 1%float |}.

(** The source: three days with records, the others empty. *)
Definition query_day (day : progress.date)
  : list migrate.InfluxDataPoint * option exn :=
  if Z.eqb day may_first then
    ([living_room; plug_link; bathroom; living_room], None)
  else if Z.eqb day (may_first + 1) then ([thermostat_target], None)
  else if Z.eqb day (may_first + 2) then ([stranger; living_room], None)
  else ([], None).

Definition load_schema (url : string)
  : result (mapping.schema * gset string) :=
  Ok (schema0, known0).

Definition session_get (url : string) : vm_writer.get_outcome :=
  vm_writer.GetResponse 200.

Definition args0 : migrate.Args :=
  {| migrate.dry_run := false; migrate.reset := false;
     migrate.vm_url := "http://vm:8428";
     migrate.batch_size := 2;
     migrate.start_date := "2025-05-01";
     migrate.end_date := "2025-05-02" |}.

(** A checkpoint of a run that has not started, and state directories that
    hold it after completion and after a failure. *)
Definition fresh_progress : progress.MigrationProgress :=
  progress.create_new (utcnow_isoformat 0) 55000000
    (day_min_isoformat may_first) (day_max_isoformat (may_first + 1)) false.

Definition empty_dir : progress.ProgressTracker :=
  {| progress.progress_file := None; progress.backup_files := [] |}.

Definition completed_dir : progress.ProgressTracker :=
  (progress.mark_completed empty_dir (utcnow_isoformat 1) fresh_progress).1.

Definition failed_dir : progress.ProgressTracker :=
  (progress.mark_failed empty_dir (utcnow_isoformat 1) fresh_progress
     "Failed on 2025-05-01: boom").1.

(** [migrate_day] and [main] in this environment. *)
Definition migrate_day :=
  migrate.migrate_day ascii_lower str_format str_float timestamp_ms_of
    query_day post_accepts schema0 known0.

Definition main :=
  migrate.main ascii_lower str_format str_float date_isoformat
    date_fromisoformat date_fromisoformat day_min_isoformat
    day_max_isoformat timestamp_ms_of utcnow_isoformat utcnow_stamp
    query_day load_schema None post_accepts session_get.

End example.

(** ** Vocabulary of the further statements *)

Module dicts.

(** [d.get(k)] on an insertion-ordered dict of strings. *)
Fixpoint dict_lookup (k : string) (d : list (string * string))
  : option string :=
  match d with
  | [] => None
  | (k', v) :: d' => if String.eqb k' k then Some v else dict_lookup k d'
  end.

End dicts.

Module strs.

(** [s.count(c)] for a character [c]. *)
Fixpoint count_char (c : ascii) (s : string) : nat :=
  match s with
  | EmptyString => O
  | String x s' =>
      if Ascii.eqb x c then S (count_char c s') else count_char c s'
  end.

(** [len(s)]: the number of characters (code points) of [s], which is the
    number of its bytes that are not continuation bytes. *)
Fixpoint str_len (s : string) : nat :=
  match s with
  | EmptyString => O
  | String x s' => if is_continuation x then str_len s' else S (str_len s')
  end.

(** ['/' * n]. *)
Fixpoint slashes (n : nat) : string :=
  match n with
  | O => EmptyString
  | S n' => String "/" (slashes n')
  end.

(** The name and the label keys of a point hold no newline. *)
Definition newline_free_names (p : vm_writer.VMDataPoint) : Prop :=
  count_char newline (vm_writer.metric_name p) = O
  /\ Forall (fun kv => count_char newline kv.1 = O) (vm_writer.labels p).

End strs.

Module checkpoints.

(** The names of the fields of [MigrationProgress]. *)
Definition field_names : list string :=
  [ "started_at"; "last_updated"; "status"; "total_records";
    "oldest_timestamp"; "newest_timestamp"; "last_migrated_date";
    "records_migrated"; "records_failed"; "batches_sent"; "errors";
    "dry_run" ].

(** A state directory that holds one file, [progress.json]. *)
Definition only_file (content : progress.file_content)
  : progress.ProgressTracker :=
  {| progress.progress_file := Some content; progress.backup_files := [] |}.

End checkpoints.

Module days.

Import migrate.

Section with_schema.

Variable lower : string -> string.
Variable s : mapping.schema.
Variable known : gset string.

(** The number of points of a stream that strict resolution rejects. *)
Fixpoint failing_of (points : list InfluxDataPoint) : nat :=
  match points with
  | [] => O
  | point :: points' =>
      match strict lower s known point with
      | Raise _ => S (failing_of points')
      | Ok _ => failing_of points'
      end
  end.

(** Strict resolution rejects the point. *)
Definition rejected (point : InfluxDataPoint) : Prop :=
  exists e, strict lower s known point = Raise e.

End with_schema.

(** The key under which [perform_dry_run_validation] notes an unmapped
    point. *)
Definition combination_key (point : InfluxDataPoint)
  : string * string * string * string :=
  (domain point, measurement point, entity_id point, field point).

(** Every combination noted as unmapped has its message in the list of
    errors. *)
Definition reported (v : validation_state) : Prop :=
  forall point,
    combination_key point ∈ unmapped_combinations v ->
    unmapped_message point ∈ errors v.

(** The points the source yields over a list of days, in order. *)
Definition points_over
  (query_day : progress.date -> list InfluxDataPoint * option exn)
  (dates : list progress.date) : list InfluxDataPoint :=
  concat ((fun day => (query_day day).1) <$> dates).

(** The destination answers every POST with a status below 400. *)
Definition accepts_every_post
  (session_post : nat -> string -> vm_writer.post_outcome) : Prop :=
  forall n payload,
    exists status_code text,
      session_post n payload = vm_writer.Response status_code text
      /\ status_code < 400.

End days.

Module runs.

Import progress.

(** What a run starts from: the counters, the error log and the last
    completed day of the checkpoint it loads, or those of a fresh one. *)
Definition records_before (loaded : option MigrationProgress) : Z :=
  match loaded with Some p => records_migrated p | None => 0 end.

Definition batches_before (loaded : option MigrationProgress) : Z :=
  match loaded with Some p => batches_sent p | None => 0 end.

Definition errors_before (loaded : option MigrationProgress) : list string :=
  match loaded with Some p => errors p | None => [] end.

Definition last_date_before (loaded : option MigrationProgress)
  : option string :=
  match loaded with Some p => last_migrated_date p | None => None end.

(** The last completed day after the days [completed], in order, of a run
    that started from [loaded]. *)
Definition last_date_after (date_isoformat : date -> string)
  (loaded : option MigrationProgress) (completed : list date)
  : option string :=
  match last completed with
  | Some day => Some (date_isoformat day)
  | None => last_date_before loaded
  end.

(** The first day a run has left to do: the day after the last completed
    one, or the start date when no day is completed; [None] when the last
    completed day of the checkpoint does not read as a date. *)
Definition first_day_left (date_fromisoformat : string -> option date)
  (loaded : option MigrationProgress) (start_date : date) : option date :=
  if truthy (last_date_before loaded) then
    match date_fromisoformat (default EmptyString (last_date_before loaded))
    with
    | Some resume_date => Some (resume_date + 1)
    | None => None
    end
  else Some start_date.

(** The run stopped where it started: it returned [code], asked for no day
    and constructed no writer. *)
Definition stopped_at (code : Z) (t : ProgressTracker) : migrate.run :=
  {| migrate.exit := Ok code; migrate.tracker_after := t;
     migrate.days_queried := []; migrate.writer_after := None |}.

End runs.

(** ** influx_reader.py *)

Module influx_reader.

Import migrate.

(** A [FluxRecord] of the driver, by what [query_range] reads of it: its
    time, measurement and field, its value as [float(value)] makes it (or
    the message of the exception that conversion raises), and the tags among
    its columns. *)
Record FluxRecord : Type := {
  get_time : Z;
  get_measurement : string;
  get_field : string;
  get_value : float + string;
  values : gmap string string
}.

(** The attributes of an [InfluxDBReader] that its queries read. *)
Record InfluxDBReader : Type := {
  domains : option (list string);
  fields : option (list string);
  use_extended_fields : bool
}.

Definition DEFAULT_FIELDS : list string := ["value"].

Definition EXTENDED_FIELDS : gmap string (list string) :=
  {[ "climate" := ["value"; "current_temperature"; "temperature"];
     "cover" := ["value"; "current_position"];
     "light" := ["value"; "brightness"] ]}.

(** Truth value of an [Optional[List[str]]]. *)
Definition list_truthy (o : option (list string)) : bool :=
  match o with
  | Some (_ :: _) => true
  | _ => false
  end.

Definition _get_fields_for_domain (self : InfluxDBReader)
  (domain : option string) : list string :=
  if list_truthy (fields self) then default [] (fields self)
  else if use_extended_fields self && truthy domain then
    match EXTENDED_FIELDS !! default EmptyString domain with
    | Some domain_fields => domain_fields
    | None => DEFAULT_FIELDS
    end
  else DEFAULT_FIELDS.

(** The point [query_range] yields for a record whose value is [value]. *)
Definition point_of (record : FluxRecord) (value : float)
  : InfluxDataPoint :=
  let domain := default "unknown" (values record !! "domain") in
  let entity_id := default "unknown" (values record !! "entity_id") in
  let friendly_name := values record !! "friendly_name" in
  let friendly_name :=
    if truthy friendly_name then default EmptyString friendly_name
    else entity_id in
  {| timestamp := get_time record;
     domain := domain;
     entity_id := entity_id;
     friendly_name := friendly_name;
     measurement := get_measurement record;
     field := get_field record;
     value := value |}.

Section with_range.

(** The two ends of the range, as [strftime] prints them. *)
Variable start_str end_str : string.

(** The exception of the handler of [query_range], for [str(e)]. *)
Definition query_failed (e : string) : exn :=
  QueryError ("Failed to query range " +:+ start_str +:+ " to "
              +:+ end_str +:+ ": " +:+ e).

(** The [for] loop of [query_range] over the records the driver streams,
    where [stream_error] is the message of the exception that ends the
    stream, if any: the points yielded, in order, and the exception raised
    after them. *)
Fixpoint query_range (self : InfluxDBReader) (records : list FluxRecord)
  (stream_error : option string) : list InfluxDataPoint * option exn :=
  match records with
  | [] => ([], query_failed <$> stream_error)
  | record :: records' =>
      let domain := default "unknown" (values record !! "domain") in
      let valid_fields := _get_fields_for_domain self (Some domain) in
      if use_extended_fields self
         && negb (bool_decide (get_field record ∈ valid_fields))
      then query_range self records' stream_error
      else
        match get_value record with
        | inr e => ([], Some (query_failed e))
        | inl value =>
            let '(points, error) :=
              query_range self records' stream_error in
            (point_of record value :: points, error)
        end
  end.

End with_range.

End influx_reader.

(** ** migrate_hvac_action.py *)

Module migrate_hvac_action.

Record HvacActionPoint : Type := {
  timestamp : Z;
  entity_id : string;
  friendly_name : string;
  action : string
}.

(** A record of the query of [query_hvac_action], by what is read of it:
    its value when that is a [str], its time and its tags. *)
Record HvacRecord : Type := {
  get_value : option string;
  get_time : Z;
  values : gmap string string
}.

Definition ALL_HVAC_ACTIONS : list string :=
  ["heating"; "idle"; "cooling"; "off"; "drying"; "fan"; "preheating";
   "defrosting"].

Section with_environment.

Variable lower : string -> string.
Variable str_float : float -> string.
Variable timestamp_ms_of : Z -> Z.
Variable session_post : nat -> string -> vm_writer.post_outcome.

(** The loop of [query_hvac_action] over the records of the query. *)
Fixpoint query_hvac_action (records : list HvacRecord)
  : list HvacActionPoint :=
  match records with
  | [] => []
  | record :: records' =>
      if negb (truthy (get_value record)) then query_hvac_action records'
      else
        let action := default EmptyString (get_value record) in
        let entity_id := default "unknown" (values record !! "entity_id") in
        let friendly_name :=
          default entity_id (values record !! "friendly_name") in
        {| timestamp := get_time record;
           entity_id := entity_id;
           friendly_name := friendly_name;
           action := lower action |}
          :: query_hvac_action records'
  end.

(** The body of the loop of [build_vm_datapoints]. *)
Definition datapoint_for (point : HvacActionPoint) (action : string)
  : vm_writer.VMDataPoint :=
  let labels :=
    [ ("entity", "climate." +:+ entity_id point);
      ("domain", "climate");
      ("friendly_name", friendly_name point);
      ("action", action);
      ("job", "influxdb-migration");
      ("instance", "influxdb-migration") ] in
  let value :=
    if String.eqb action (migrate_hvac_action.action point) then 1%float
    else 0%float in
  {| vm_writer.metric_name := "homeassistant_climate_action";
     vm_writer.labels := labels;
     vm_writer.value := value;
     vm_writer.timestamp_ms := timestamp_ms_of (timestamp point) |}.

Definition build_vm_datapoints (point : HvacActionPoint)
  : list vm_writer.VMDataPoint :=
  datapoint_for point <$> ALL_HVAC_ACTIONS.

(** The loop of [main] over the points of one day, from the batch it
    holds, the records counted for the day and the batches written so far:
    those three at the end, unless [write_batch] raises. *)
Fixpoint day_loop (batch_size : Z) (points : list HvacActionPoint)
  (batch : list vm_writer.VMDataPoint) (day_records total_batches : Z)
  (w : vm_writer.VMWriter)
  : result (list vm_writer.VMDataPoint * Z * Z) * vm_writer.VMWriter :=
  match points with
  | [] => (Ok (batch, day_records, total_batches), w)
  | point :: points' =>
      let vm_points := build_vm_datapoints point in
      let batch := batch ++ vm_points in
      let day_records := day_records + 1 in
      if Z.leb batch_size (Z.of_nat (length batch)) then
        match vm_writer.write_batch str_float session_post w batch with
        | (Raise e, w') => (Raise e, w')
        | (Ok _, w') =>
            day_loop batch_size points' [] day_records (total_batches + 1) w'
        end
      else day_loop batch_size points' batch day_records total_batches w
  end.

(** The body of the loop of [main] over the days, for the points of one
    day: the records of the day and the batches written so far. *)
Definition migrate_one_day (batch_size : Z) (points : list HvacActionPoint)
  (total_batches : Z) (w : vm_writer.VMWriter)
  : result (Z * Z) * vm_writer.VMWriter :=
  match day_loop batch_size points [] 0 total_batches w with
  | (Raise e, w') => (Raise e, w')
  | (Ok (batch, day_records, total_batches), w') =>
      match batch with
      | [] => (Ok (day_records, total_batches), w')
      | _ =>
          match vm_writer.write_batch str_float session_post w' batch with
          | (Raise e, w'') => (Raise e, w'')
          | (Ok _, w'') => (Ok (day_records, total_batches + 1), w'')
          end
      end
  end.

End with_environment.

(** The points of a list that carry the value 1. *)
Definition active (points : list vm_writer.VMDataPoint)
  : list vm_writer.VMDataPoint :=
  filter (fun p => PrimFloat.eqb (vm_writer.value p) 1%float = true) points.

End migrate_hvac_action.

(** ** Further concrete inputs *)

Module samples.

Import mapping.

(** A ruleset whose rule for a custom unit allows new metric names. *)
Definition open_rule : mapping_info :=
  {| mi_metric := Some "homeassistant_sensor_custom";
     mi_ignore := false; mi_special_mapping_required := false;
     mi_allow_new := true |}.

Definition open_schema : schema :=
  {| metric_mappings := {[ "sensor" := {[ "custom" := open_rule ]} ]};
     field_mappings := ∅;
     special_mappings := ∅;
     labels_computed_entity := Some None;
     labels_static := [] |}.

(** Runs of [main]: a dry run, a run over three days, the last of which
    holds a record that strict resolution rejects, and a run whose start
    date does not parse. *)
Definition args_dry_run : migrate.Args :=
  {| migrate.dry_run := true; migrate.reset := false;
     migrate.vm_url := "http://vm:8428";
     migrate.batch_size := 2;
     migrate.start_date := "2025-05-01";
     migrate.end_date := "2025-05-02" |}.

Definition args_three_days : migrate.Args :=
  {| migrate.dry_run := false; migrate.reset := false;
     migrate.vm_url := "http://vm:8428";
     migrate.batch_size := 2;
     migrate.start_date := "2025-05-01";
     migrate.end_date := "2025-05-03" |}.

Definition args_bad_date : migrate.Args :=
  {| migrate.dry_run := false; migrate.reset := false;
     migrate.vm_url := "http://vm:8428";
     migrate.batch_size := 2;
     migrate.start_date := "yesterday";
     migrate.end_date := "2025-05-02" |}.

(** The validation of the first two days of May. *)
Definition validation :=
  migrate.perform_dry_run_validation ascii_lower example.query_day
    example.schema0 example.known0 example.may_first (example.may_first + 1).

(** Records of the source: a thermostat on a field of its domain, a light on
    a field that is not of its domain, a record without tags, and a record
    whose value is not a number. *)
Definition thermostat_record : influx_reader.FluxRecord :=
  {| influx_reader.get_time := 1746093600000000;
     influx_reader.get_measurement := "units";
     influx_reader.get_field := "current_temperature";
     influx_reader.get_value := inl 21.5%float;
     influx_reader.values :=
       {[ "domain" := "climate"; "entity_id" := "thermostat";
          "friendly_name" := "Thermostat" ]} |}.

Definition light_record : influx_reader.FluxRecord :=
  {| influx_reader.get_time := 1746093660000000;
     influx_reader.get_measurement := "units";
     influx_reader.get_field := "current_position";
     influx_reader.get_value := inl 1%float;
     influx_reader.values :=
       {[ "domain" := "light"; "entity_id" := "desk";
          "friendly_name" := EmptyString ]} |}.

Definition bare_record : influx_reader.FluxRecord :=
  {| influx_reader.get_time := 1746093720000000;
     influx_reader.get_measurement := "W";
     influx_reader.get_field := "value";
     influx_reader.get_value := inl 65.25%float;
     influx_reader.values := ∅ |}.

Definition text_record : influx_reader.FluxRecord :=
  {| influx_reader.get_time := 1746093780000000;
     influx_reader.get_measurement := "state";
     influx_reader.get_field := "value";
     influx_reader.get_value := inr "could not convert string to float";
     influx_reader.values := {[ "domain" := "sensor" ]} |}.

Definition extended_reader : influx_reader.InfluxDBReader :=
  {| influx_reader.domains := None; influx_reader.fields := None;
     influx_reader.use_extended_fields := true |}.

(** Records of [hvac_action_str]. *)
Definition heating : migrate_hvac_action.HvacActionPoint :=
  {| migrate_hvac_action.timestamp := 1746093600000000;
     migrate_hvac_action.entity_id := "thermostat";
     migrate_hvac_action.friendly_name := "Thermostat";
     migrate_hvac_action.action := "heating" |}.

Definition resting : migrate_hvac_action.HvacActionPoint :=
  {| migrate_hvac_action.timestamp := 1746093660000000;
     migrate_hvac_action.entity_id := "thermostat";
     migrate_hvac_action.friendly_name := "Thermostat";
     migrate_hvac_action.action := "idle" |}.

Definition hvac_day :=
  migrate_hvac_action.migrate_one_day example.str_float
    example.timestamp_ms_of example.post_accepts 10
    [heating; resting; heating] 0 example.dry_writer.

End samples.

(** * Theorems *)

(** ** Facts about the Python primitives *)

Section py_facts.

Lemma append_cons (x : ascii) (a b : string) :
  String x a +:+ b = String x (a +:+ b).
Proof. reflexivity. Qed.

Lemma append_nil_l (a : string) : EmptyString +:+ a = a.
Proof. reflexivity. Qed.

Lemma append_assoc (a b c : string) : (a +:+ b) +:+ c = a +:+ (b +:+ c).
Proof.
  induction a as [|x a IH]; [done|]. by rewrite !append_cons, IH.
Qed.

Lemma append_nil_r (a : string) : a +:+ EmptyString = a.
Proof. induction a as [|x a IH]; [done|]. by rewrite append_cons, IH. Qed.

Lemma prefix_true_iff (p s : string) :
  String.prefix p s = true <-> exists post, s = p +:+ post.
Proof.
  revert s. induction p as [|a p IH]; intros [|b s]; cbn [String.prefix].
  - split; [intros _; by exists EmptyString | done].
  - split; [intros _; by exists (String b s) | done].
  - split; [done | intros [post H]; discriminate].
  - destruct (ascii_dec a b) as [->|Hne].
    + rewrite IH. split; intros [post H]; exists post.
      * by rewrite append_cons, H.
      * rewrite append_cons in H. congruence.
    + split; [done | intros [post H]].
      rewrite append_cons in H. congruence.
Qed.

Lemma str_in_true_iff (p s : string) :
  str_in p s = true <-> substring_of p s.
Proof.
  unfold substring_of. induction s as [|c s IH].
  - cbn [str_in]. rewrite orb_false_r, prefix_true_iff. split.
    + intros [post H]. by exists EmptyString, post.
    + intros ([|x pre] & post & H); [by exists post | discriminate].
  - cbn [str_in]. rewrite orb_true_iff, IH, prefix_true_iff. split.
    + intros [[post H] | (pre & post & H)].
      * by exists EmptyString, post.
      * exists (String c pre), post. by rewrite append_cons, H.
    + intros ([|x pre] & post & H).
      * left. by exists post.
      * right. exists pre, post. rewrite append_cons in H. congruence.
Qed.

Lemma substring_of_middle (pre p post : string) :
  substring_of p (pre +:+ p +:+ post).
Proof. by exists pre, post. Qed.

Lemma substring_of_app_l (a p s : string) :
  substring_of p s -> substring_of p (a +:+ s).
Proof.
  intros (pre & post & ->). exists (a +:+ pre), post.
  by rewrite append_assoc.
Qed.

Lemma substring_of_app_r (a p s : string) :
  substring_of p s -> substring_of p (s +:+ a).
Proof.
  intros (pre & post & ->). exists pre, (post +:+ a).
  by rewrite !append_assoc.
Qed.

End py_facts.

(** ** mapping.py *)

Section mapping_facts.

Import mapping.

Context (lower : string -> string) (s : schema) (known : gset string).

Local Abbreviation strictly := (get_vm_metric_name_strict lower s known).
Local Abbreviation matches := (rule_matches lower).
Local Abbreviation is_default := (rule_is_default lower).

(** Strict resolution raises nothing but the [ValueError] of an unknown
    metric name. *)
Lemma strict_raises_only_ValueError domain measurement entity_id field e :
  strictly domain measurement entity_id field = Raise e ->
  exists metric_name,
    e = ValueError (unknown_metric_message metric_name domain measurement
                      entity_id field).
Proof.
  unfold get_vm_metric_name_strict.
  destruct (get_vm_metric_name _ _ _ _ _ _) as [metric_name|]; [|done].
  destruct (negb _); [|done].
  destruct (is_new_metric_allowed _ _ _); [done|].
  intros [= <-]. by exists metric_name.
Qed.

(** A default-field record whose pair has no rule resolves to the fallback
    name. *)
Lemma unruled_pair_gets_fallback domain measurement entity_id :
  domain_mappings s domain !! measurement = None ->
  get_vm_metric_name lower s domain measurement entity_id "value"
    = Some (fallback_metric domain).
Proof. intros H. unfold get_vm_metric_name. cbn. by rewrite H. Qed.

(** ... and strict resolution accepts it when the destination knows that
    name. *)
Lemma unruled_pair_accepted_when_fallback_known
  domain measurement entity_id :
  domain_mappings s domain !! measurement = None ->
  validate_metric_name known (fallback_metric domain) = true ->
  strictly domain measurement entity_id "value"
    = Ok (Some (fallback_metric domain)).
Proof.
  intros H Hk. unfold get_vm_metric_name_strict.
  by rewrite unruled_pair_gets_fallback, Hk.
Qed.

(** C1, as the code has it. For a (domain, unit) pair that has no entry in
    metric_mappings and whose fallback name homeassistant_<domain>_state is
    not a known destination metric, strict resolution on the default field
    raises the validation failure, and its message embeds the domain, the
    unit and the entity id that were supplied. No allow_new flag can apply,
    the pair having no rule to carry one. *)
Theorem strict_raises_for_unruled_pair_with_unknown_fallback
  domain measurement entity_id :
  domain_mappings s domain !! measurement = None ->
  validate_metric_name known (fallback_metric domain) = false ->
  exists msg,
    strictly domain measurement entity_id "value" = Raise (ValueError msg)
    /\ is_new_metric_allowed s domain measurement = false
    /\ substring_of ("domain='" +:+ domain +:+ "'") msg
    /\ substring_of ("measurement='" +:+ measurement +:+ "'") msg
    /\ substring_of ("entity_id='" +:+ entity_id +:+ "'") msg
    /\ substring_of domain msg
    /\ substring_of measurement msg
    /\ substring_of entity_id msg.
Proof.
  intros H Hk.
  exists (unknown_metric_message (fallback_metric domain) domain measurement
            entity_id "value").
  split; [|split].
  - unfold get_vm_metric_name_strict, is_new_metric_allowed.
    by rewrite unruled_pair_gets_fallback, Hk, H.
  - unfold is_new_metric_allowed. by rewrite H.
  - unfold unknown_metric_message.
    pose (head := "Unknown VM metric '" +:+ fallback_metric domain
                  +:+ "' generated from ").
    repeat split.
    + exists head, (", measurement='" +:+ measurement +:+ "', entity_id='"
        +:+ entity_id +:+ "', field='value'. Not in known VM metrics list.").
      subst head. by rewrite !append_assoc.
    + exists (head +:+ "domain='" +:+ domain +:+ "', "),
        (", entity_id='" +:+ entity_id
         +:+ "', field='value'. Not in known VM metrics list.").
      subst head. by rewrite !append_assoc.
    + exists (head +:+ "domain='" +:+ domain +:+ "', measurement='"
              +:+ measurement +:+ "', "),
        (", field='value'. Not in known VM metrics list.").
      subst head. by rewrite !append_assoc.
    + exists (head +:+ "domain='"),
        ("', measurement='" +:+ measurement +:+ "', entity_id='"
         +:+ entity_id +:+ "', field='value'. Not in known VM metrics list.").
      subst head. by rewrite !append_assoc.
    + exists (head +:+ "domain='" +:+ domain +:+ "', measurement='"),
        ("', entity_id='" +:+ entity_id
         +:+ "', field='value'. Not in known VM metrics list.").
      subst head. by rewrite !append_assoc.
    + exists (head +:+ "domain='" +:+ domain +:+ "', measurement='"
              +:+ measurement +:+ "', entity_id='"),
        ("', field='value'. Not in known VM metrics list.").
      subst head. by rewrite !append_assoc.
Qed.

(** The first loop passes over rules that do not match. *)
Lemma special_first_pass_skip entity_id pre rest :
  Forall (fun r => matches entity_id r = false) pre ->
  special_first_pass lower (lower entity_id) (pre ++ rest)
    = special_first_pass lower (lower entity_id) rest.
Proof.
  induction 1 as [|r pre Hr _ IH]; [done|].
  cbn [app special_first_pass]. unfold rule_matches in Hr.
  destruct (String.eqb (rule_pattern lower r) "default"); [done|].
  cbn in Hr. by rewrite Hr.
Qed.

Lemma special_first_pass_stops entity_id r rest :
  matches entity_id r = true ->
  special_first_pass lower (lower entity_id) (r :: rest)
    = Some (rule_outcome r).
Proof.
  unfold rule_matches. cbn [special_first_pass].
  destruct (String.eqb (rule_pattern lower r) "default"); [done|].
  cbn. by intros ->.
Qed.

(** The second loop passes over rules whose pattern is not the word
    default. *)
Lemma special_default_pass_skip pre rest :
  Forall (fun r => is_default r = false) pre ->
  special_default_pass lower (pre ++ rest) = special_default_pass lower rest.
Proof.
  induction 1 as [|r pre Hr _ IH]; [done|].
  cbn [app special_default_pass]. unfold rule_is_default in Hr.
  by rewrite Hr.
Qed.

(** C3. Disambiguation of a unit: a rule matches an entity id when its
    lower-cased pattern is not the word default and is a sub-string of the
    lower-cased entity id; the first matching rule in declared order decides;
    when no rule matches, the first rule whose pattern is default decides;
    when there is none either, nothing is decided. A deciding rule that is
    flagged ignore makes [get_vm_metric_name] return [None], whatever metric
    the parent rule names; a metric that is decided otherwise is what
    [get_vm_metric_name] returns. *)
Theorem special_mapping_first_match_then_default measurement entity_id :
  let rules := special_rules s measurement in
  let decided := _apply_special_mapping lower s measurement entity_id in
  (forall r,
     matches entity_id r = true <->
     rule_pattern lower r <> "default"
     /\ substring_of (rule_pattern lower r) (lower entity_id))
  /\ (forall pre r post,
        rules = pre ++ r :: post ->
        Forall (fun r' => matches entity_id r' = false) pre ->
        matches entity_id r = true ->
        decided = rule_outcome r)
  /\ (forall pre r post,
        Forall (fun r' => matches entity_id r' = false) rules ->
        rules = pre ++ r :: post ->
        Forall (fun r' => is_default r' = false) pre ->
        is_default r = true ->
        decided = rule_outcome r)
  /\ (Forall (fun r' => matches entity_id r' = false) rules ->
      Forall (fun r' => is_default r' = false) rules ->
      decided = None)
  /\ (forall domain info r,
        domain_mappings s domain !! measurement = Some info ->
        mi_special_mapping_required info = true ->
        decided = rule_outcome r ->
        sr_ignore r = true ->
        get_vm_metric_name lower s domain measurement entity_id "value"
          = None)
  /\ (forall domain info metric,
        domain_mappings s domain !! measurement = Some info ->
        mi_ignore info = false ->
        mi_special_mapping_required info = true ->
        decided = Some metric ->
        metric <> IGNORE_METRIC -> metric <> EmptyString ->
        get_vm_metric_name lower s domain measurement entity_id "value"
          = Some metric).
Proof.
  intros rules decided. subst decided. unfold _apply_special_mapping.
  fold rules. split; [|split; [|split; [|split; [|split]]]].
  - intros r. unfold rule_matches.
    rewrite andb_true_iff, negb_true_iff, str_in_true_iff.
    by rewrite String.eqb_neq.
  - intros pre r post -> Hpre Hr.
    by rewrite special_first_pass_skip, special_first_pass_stops.
  - intros pre r post Hnone Hrules Hpre Hr.
    rewrite <- (app_nil_r rules) at 1.
    rewrite special_first_pass_skip by done. cbn [special_first_pass].
    rewrite Hrules, special_default_pass_skip by done.
    cbn [special_default_pass]. unfold rule_is_default in Hr.
    by rewrite Hr.
  - intros Hnone Hnodefault.
    rewrite <- (app_nil_r rules).
    rewrite special_first_pass_skip by done. cbn [special_first_pass].
    by rewrite special_default_pass_skip by done.
  - intros domain info r Hinfo Hspecial Hdecided Hignore.
    unfold get_vm_metric_name. cbn. rewrite Hinfo. unfold mapped_metric.
    destruct (mi_ignore info); [done|]. rewrite Hspecial.
    unfold _apply_special_mapping. fold rules. rewrite Hdecided.
    unfold rule_outcome. rewrite Hignore. by rewrite bool_decide_eq_true_2.
  - intros domain info metric Hinfo Hignore Hspecial Hdecided Hnot Hne.
    unfold get_vm_metric_name. cbn. rewrite Hinfo. unfold mapped_metric.
    rewrite Hignore, Hspecial.
    unfold _apply_special_mapping. fold rules. rewrite Hdecided.
    rewrite bool_decide_eq_false_2 by congruence.
    cbn. apply String.eqb_neq in Hne. by rewrite Hne.
Qed.

Local Abbreviation strict_returns := (mapping.strict_returns lower s known).

Lemma dry_run_validate_from_spec records : forall success_count errors,
  exists errors',
    dry_run_validate_from lower s known success_count errors records
      = Ok (success_count
              + Z.of_nat (length (filter (fun r => strict_returns r = true)
                                    records)),
            errors ++ errors')
    /\ (length errors'
        + length (filter (fun r => strict_returns r = true) records)
        = length records)%nat.
Proof.
  induction records as [|[[domain measurement] entity_id] records IH];
    intros success_count errors.
  - exists []. cbn. by rewrite Z.add_0_r, app_nil_r.
  - cbn [dry_run_validate_from].
    destruct (strictly domain measurement entity_id "value")
      as [metric|e] eqn:Hstrict.
    + destruct (IH (success_count + 1) errors) as (errors' & -> & Hlen).
      exists errors'.
      rewrite filter_cons_True
        by (unfold mapping.strict_returns; cbn; by rewrite Hstrict).
      cbn [length]. split; [f_equal; f_equal; lia | lia].
    + destruct (strict_raises_only_ValueError _ _ _ _ _ Hstrict)
        as [metric_name ->].
      destruct (IH success_count
                  (errors ++ [failed_to_map_message domain measurement
                     entity_id
                     (unknown_metric_message metric_name domain measurement
                        entity_id "value")]))
        as (errors' & -> & Hlen).
      eexists (_ :: errors').
      rewrite filter_cons_False
        by (unfold mapping.strict_returns; cbn; by rewrite Hstrict).
      split; [by rewrite <- app_assoc | cbn [length]; lia].
Qed.

(** C10. [dry_run_validate] returns, and in the pair it returns the number
    of successes plus the number of error messages is the number of records:
    the successes are the records on which strict resolution returns, a
    record it ignores (result [None]) among them, and each other record
    leaves one message. *)
Theorem dry_run_validate_counts_every_record records :
  exists success_count errors,
    dry_run_validate lower s known records = Ok (success_count, errors)
    /\ success_count + Z.of_nat (length errors) = Z.of_nat (length records)
    /\ success_count
       = Z.of_nat (length (filter (fun r => strict_returns r = true)
                             records))
    /\ (forall domain measurement entity_id,
          strictly domain measurement entity_id "value" = Ok None ->
          strict_returns (domain, measurement, entity_id) = true
          /\ dry_run_validate lower s known
               [(domain, measurement, entity_id)] = Ok (1, [])).
Proof.
  destruct (dry_run_validate_from_spec records 0 []) as (errors & H & Hlen).
  eexists _, errors. unfold dry_run_validate. rewrite H.
  split; [done|]. split; [cbn; lia|]. split; [done|].
  intros domain measurement entity_id Hnone. split.
  - unfold mapping.strict_returns. cbn. by rewrite Hnone.
  - cbn. by rewrite Hnone.
Qed.

End mapping_facts.

(** *** The mapping engine on the example ruleset *)

(** C1 as the specification words it fails: the pair (sensor, unknown_unit)
    has no rule, its fallback name homeassistant_sensor_state is a known
    metric, and strict resolution returns that name instead of raising. *)
Lemma unruled_sensor_unit_is_accepted :
  ~ mapping.strict_raises_for_unruled_pair ascii_lower example.schema0
      example.known0 "sensor" "unknown_unit" "test_sensor".
Proof.
  intros H.
  assert (mapping.domain_mappings example.schema0 "sensor" !! "unknown_unit"
          = None) as Hnone by (vm_compute; reflexivity).
  destruct (H Hnone) as (msg & Hraise & _).
  vm_compute in Hraise. discriminate.
Qed.

(** The first of two matching rules decides. *)
Example battery_precedes_humidity :
  mapping._apply_special_mapping ascii_lower example.schema0 "%"
    "Humidity_Sensor_Battery" = Some "homeassistant_sensor_battery_percent".
Proof. vm_compute. reflexivity. Qed.

Lemma strict_raises_for_unruled_pair_with_unknown_fallback_witness :
  mapping.domain_mappings example.schema0 "totally_unknown_domain" !! "units"
    = None
  /\ mapping.validate_metric_name example.known0
       (mapping.fallback_metric "totally_unknown_domain") = false
  /\ exists msg,
       mapping.get_vm_metric_name_strict ascii_lower example.schema0
         example.known0 "totally_unknown_domain" "units" "test_sensor"
         "value" = Raise (ValueError msg)
       /\ mapping.is_new_metric_allowed example.schema0
            "totally_unknown_domain" "units" = false
       /\ substring_of "domain='totally_unknown_domain'" msg
       /\ substring_of "measurement='units'" msg
       /\ substring_of "entity_id='test_sensor'" msg
       /\ substring_of "totally_unknown_domain" msg
       /\ substring_of "units" msg
       /\ substring_of "test_sensor" msg.
Proof.
  split; [vm_compute; reflexivity|].
  split; [vm_compute; reflexivity|].
  apply (strict_raises_for_unruled_pair_with_unknown_fallback ascii_lower
           example.schema0 example.known0
           "totally_unknown_domain" "units" "test_sensor");
    vm_compute; reflexivity.
Defined.

Lemma special_mapping_first_match_then_default_witness :
  mapping._apply_special_mapping ascii_lower example.schema0 "%"
    "Phone_BATTERY_level" = Some "homeassistant_sensor_battery_percent"
  /\ mapping._apply_special_mapping ascii_lower example.schema0 "%"
       "completion_rate" = Some "homeassistant_sensor_unit_percent"
  /\ mapping.get_vm_metric_name ascii_lower example.schema0 "sensor" "%"
       "plug_linkquality" "value" = None.
Proof.
  split; [|split].
  - destruct (special_mapping_first_match_then_default ascii_lower
                example.schema0 "%" "Phone_BATTERY_level")
      as (_ & Hfirst & _).
    apply (Hfirst [] example.battery
             [example.default_percent; example.humidity;
              example.linkquality]);
      [vm_compute; reflexivity | constructor | vm_compute; reflexivity].
  - destruct (special_mapping_first_match_then_default ascii_lower
                example.schema0 "%" "completion_rate")
      as (_ & _ & Hdefault & _).
    apply (Hdefault [example.battery] example.default_percent
             [example.humidity; example.linkquality]);
      [repeat constructor | vm_compute; reflexivity | repeat constructor
      | vm_compute; reflexivity].
  - destruct (special_mapping_first_match_then_default ascii_lower
                example.schema0 "%" "plug_linkquality")
      as (_ & Hfirst & _ & _ & Hignore & _).
    apply (Hignore "sensor" example.percent_rule example.linkquality);
      [vm_compute; reflexivity | reflexivity | | reflexivity].
    apply (Hfirst [example.battery; example.default_percent;
                   example.humidity] example.linkquality []);
      [vm_compute; reflexivity | repeat constructor | vm_compute; reflexivity].
Defined.

Lemma dry_run_validate_counts_every_record_witness :
  mapping.dry_run_validate ascii_lower example.schema0 example.known0
    [("sensor", "lqi", "plug")] = Ok (1, []).
Proof.
  destruct (dry_run_validate_counts_every_record ascii_lower example.schema0
              example.known0 [("sensor", "lqi", "plug")])
    as (success_count & errors & _ & _ & _ & Hignored).
  apply (Hignored "sensor" "lqi" "plug"). vm_compute. reflexivity.
Defined.

(** ** The order of Python on strings and on dict items *)

Section string_order.

Lemma ascii_compare_refl (c : ascii) : Ascii.compare c c = Eq.
Proof. unfold Ascii.compare. apply N.compare_refl. Qed.

Lemma ascii_compare_lt_trans (a b c : ascii) :
  Ascii.compare a b = Lt -> Ascii.compare b c = Lt -> Ascii.compare a c = Lt.
Proof.
  unfold Ascii.compare. rewrite !N.compare_lt_iff. apply N.lt_trans.
Qed.

Lemma string_compare_refl (a : string) : String.compare a a = Eq.
Proof.
  induction a as [|c a IH]; [done|].
  cbn [String.compare]. by rewrite ascii_compare_refl.
Qed.

Lemma string_compare_lt_trans (a b c : string) :
  String.compare a b = Lt -> String.compare b c = Lt ->
  String.compare a c = Lt.
Proof.
  revert b c. induction a as [|x a IH]; intros [|y b] [|z c]; try done.
  cbn [String.compare].
  destruct (Ascii.compare x y) eqn:Hxy; [|clear IH|done];
    (destruct (Ascii.compare y z) eqn:Hyz; [| |done]).
  - apply Ascii.compare_eq_iff in Hxy as ->.
    apply Ascii.compare_eq_iff in Hyz as ->.
    rewrite ascii_compare_refl. apply IH.
  - apply Ascii.compare_eq_iff in Hxy as ->. by rewrite Hyz.
  - apply Ascii.compare_eq_iff in Hyz as <-. by rewrite Hxy.
  - by rewrite (ascii_compare_lt_trans _ _ _ Hxy Hyz).
Qed.

Lemma string_leb_refl (a : string) : String.leb a a = true.
Proof. unfold String.leb. by rewrite string_compare_refl. Qed.

Lemma string_leb_trans (a b c : string) :
  String.leb a b = true -> String.leb b c = true -> String.leb a c = true.
Proof.
  unfold String.leb.
  destruct (String.compare a b) eqn:Hab; [| |done];
    (destruct (String.compare b c) eqn:Hbc; [| |done]); intros _ _.
  - apply String.compare_eq_iff in Hab as ->. by rewrite Hbc.
  - apply String.compare_eq_iff in Hab as ->. by rewrite Hbc.
  - apply String.compare_eq_iff in Hbc as <-. by rewrite Hab.
  - by rewrite (string_compare_lt_trans _ _ _ Hab Hbc).
Qed.

Import vm_writer.

#[local] Instance item_le_total : Total item_le.
Proof.
  intros [k1 v1] [k2 v2]. unfold item_le, item_leb. cbn [fst snd].
  rewrite (String.compare_antisym k2 k1).
  destruct (String.compare k1 k2); cbn; auto using String.leb_total.
Qed.

#[local] Instance item_le_trans : Transitive item_le.
Proof.
  intros [k1 v1] [k2 v2] [k3 v3]. unfold item_le, item_leb. cbn [fst snd].
  destruct (String.compare k1 k2) eqn:H12; [| |done];
    (destruct (String.compare k2 k3) eqn:H23; [| |done]).
  - apply String.compare_eq_iff in H12 as ->. rewrite H23.
    apply string_leb_trans.
  - apply String.compare_eq_iff in H12 as ->. by rewrite H23.
  - apply String.compare_eq_iff in H23 as <-. by rewrite H12.
  - by rewrite (string_compare_lt_trans _ _ _ H12 H23).
Qed.

#[local] Instance item_le_antisymm : AntiSymm (=) item_le.
Proof.
  intros [k1 v1] [k2 v2]. unfold item_le, item_leb. cbn [fst snd].
  rewrite (String.compare_antisym k2 k1).
  destruct (String.compare k1 k2) eqn:H; cbn; try done.
  apply String.compare_eq_iff in H as ->.
  intros H1 H2. f_equal. by apply String.leb_antisym.
Qed.

Lemma item_le_key_le (a b : string * string) : item_le a b -> key_le a b.
Proof.
  destruct a as [k1 v1], b as [k2 v2].
  unfold item_le, item_leb, key_le, String.leb. cbn [fst snd].
  by destruct (String.compare k1 k2).
Qed.

Lemma StronglySorted_weaken {A} (R R' : relation A) (l : list A) :
  (forall a b, R a b -> R' a b) -> StronglySorted R l -> StronglySorted R' l.
Proof.
  intros HR. induction 1 as [|a l _ IH Hall]; constructor; [done|].
  eapply Forall_impl; [exact Hall | apply HR].
Qed.

(** [sorted] returns the items in ascending order ... *)
Lemma sorted_items_sorted (d : list (string * string)) :
  StronglySorted item_le (sorted_items d).
Proof. apply StronglySorted_merge_sort; apply _. Qed.

(** ... whatever the order they come in. *)
Lemma sorted_items_Permutation (d1 d2 : list (string * string)) :
  d1 ≡ₚ d2 -> sorted_items d1 = sorted_items d2.
Proof.
  intros Hperm. apply (StronglySorted_unique item_le).
  - apply sorted_items_sorted.
  - apply sorted_items_sorted.
  - unfold sorted_items. by rewrite !merge_sort_Permutation.
Qed.

End string_order.

(** ** vm_writer.py *)

Section vm_writer_facts.

Import vm_writer.

Context (str_float : float -> string).
Context (session_post : nat -> string -> post_outcome).

Local Abbreviation line := (format_prometheus_line str_float).
Local Abbreviation write := (write_batch str_float session_post).

Lemma replace_app old new (a b : string) :
  replace old new (a +:+ b) = replace old new a +:+ replace old new b.
Proof.
  induction a as [|c a IH]; [done|].
  rewrite append_cons. cbn [replace]. rewrite IH.
  destruct (Ascii.eqb c old); [by rewrite append_assoc | done].
Qed.

(** The three replacements act character by character: what an earlier one
    inserts, a later one leaves alone. *)
Lemma escape_label_value_cons c v :
  escape_label_value (String c v) = escape_char c +:+ escape_label_value v.
Proof.
  unfold escape_label_value, escape_char. cbn [replace].
  destruct (Ascii.eqb c "\") eqn:E1.
  - by rewrite !replace_app.
  - cbn [replace]. destruct (Ascii.eqb c dquote) eqn:E2.
    + by rewrite !replace_app.
    + cbn [replace]. by destruct (Ascii.eqb c newline) eqn:E3.
Qed.

Lemma unescape_escape v :
  unescape_label_value (escape_label_value v) = Some v.
Proof.
  induction v as [|c v IH]; [done|].
  rewrite escape_label_value_cons. unfold escape_char.
  destruct (Ascii.eqb c "\") eqn:E1.
  { apply Ascii.eqb_eq in E1 as ->.
    change ("\\" +:+ ?x) with (String "\" (String "\" x)).
    cbn. by rewrite IH. }
  destruct (Ascii.eqb c dquote) eqn:E2.
  { apply Ascii.eqb_eq in E2 as ->.
    change (("\" +:+ dq) +:+ ?x) with (String "\" (String dquote x)).
    cbn. by rewrite IH. }
  destruct (Ascii.eqb c newline) eqn:E3.
  { apply Ascii.eqb_eq in E3 as ->.
    change ("\n" +:+ ?x) with (String "\" (String "n" x)).
    cbn. by rewrite IH. }
  rewrite append_cons, append_nil_l. cbn [unescape_label_value].
  by rewrite E1, IH.
Qed.

Lemma read_quoted_escape v rest :
  read_quoted (escape_label_value v +:+ dq +:+ rest)
    = Some (escape_label_value v, rest).
Proof.
  induction v as [|c v IH]; [done|].
  rewrite escape_label_value_cons, append_assoc. unfold escape_char.
  destruct (Ascii.eqb c "\") eqn:E1.
  { change ("\\" +:+ ?x) with (String "\" (String "\" x)).
    cbn. by rewrite IH. }
  destruct (Ascii.eqb c dquote) eqn:E2.
  { change (("\" +:+ dq) +:+ ?x) with (String "\" (String dquote x)).
    cbn. by rewrite IH. }
  destruct (Ascii.eqb c newline) eqn:E3.
  { change ("\n" +:+ ?x) with (String "\" (String "n" x)).
    cbn. by rewrite IH. }
  rewrite !append_cons, !append_nil_l. cbn [read_quoted].
  by rewrite E1, E2, IH.
Qed.

Lemma read_label_value_escape v rest :
  read_label_value (escape_label_value v +:+ dq +:+ rest) = Some (v, rest).
Proof.
  unfold read_label_value. by rewrite read_quoted_escape, unescape_escape.
Qed.

(** A part of a joined text is a sub-string of it. *)
Lemma join_elem_of sep part parts :
  part ∈ parts -> exists pre post, join sep parts = pre +:+ part +:+ post.
Proof.
  induction parts as [|p parts IH]; [by intros ?%elem_of_nil|].
  intros [->|Hin]%elem_of_cons.
  - destruct parts as [|p' parts].
    + exists EmptyString, EmptyString. cbn [join].
      by rewrite append_nil_l, append_nil_r.
    + by exists EmptyString, (sep +:+ join sep (p' :: parts)).
  - destruct (IH Hin) as (pre & post & Hjoin).
    destruct parts as [|p' parts]; [by apply elem_of_nil in Hin|].
    exists (p +:+ sep +:+ pre), post.
    change (join sep (p :: p' :: parts))
      with (p +:+ sep +:+ join sep (p' :: parts)).
    by rewrite Hjoin, !append_assoc.
Qed.

(** C7. The line of a point is
    metric_name{key="escaped value",...} value timestamp_ms, the label
    block being left out when there are no labels. The items are written in
    the order of [sorted], ascending in the keys, so that two points that
    differ only in the order of their labels give the same line. A label
    value is escaped by replacing backslashes, then quotes, then newlines,
    and the escaping is reversible: [unescape_label_value] undoes it, and
    for every label of the point the line holds key="escaped value" at a
    place from which reading up to the closing quote gives the value
    back. *)
Theorem format_prometheus_line_sorted_and_reversible (p : VMDataPoint) :
  line p
    = metric_name p
      +:+ match labels p with
          | [] => EmptyString
          | _ => "{" +:+ join "," (label_part <$> sorted_items (labels p))
                 +:+ "}"
          end
      +:+ " " +:+ str_float (value p) +:+ " " +:+ str_int (timestamp_ms p)
  /\ (forall k v, label_part (k, v)
                  = k +:+ "=" +:+ dq +:+ escape_label_value v +:+ dq)
  /\ StronglySorted key_le (sorted_items (labels p))
  /\ sorted_items (labels p) ≡ₚ labels p
  /\ (forall q,
        labels q ≡ₚ labels p ->
        metric_name q = metric_name p ->
        value q = value p ->
        timestamp_ms q = timestamp_ms p ->
        line q = line p)
  /\ (forall v,
        escape_label_value v
        = replace newline "\n"
            (replace dquote ("\" +:+ dq) (replace "\" "\\" v)))
  /\ (forall v, unescape_label_value (escape_label_value v) = Some v)
  /\ (forall k v,
        (k, v) ∈ labels p ->
        exists pre post,
          line p = pre +:+ k +:+ "=" +:+ dq +:+ escape_label_value v
                   +:+ dq +:+ post
          /\ read_label_value (escape_label_value v +:+ dq +:+ post)
             = Some (v, post)).
Proof.
  split; [by destruct p as [? [|] ? ?]|].
  split; [done|].
  split.
  { eapply StronglySorted_weaken; [|apply sorted_items_sorted].
    intros a b. apply item_le_key_le. }
  split; [apply merge_sort_Permutation|].
  split.
  { intros q Hperm Hname Hvalue Hts. unfold format_prometheus_line.
    rewrite Hname, Hvalue, Hts, (sorted_items_Permutation _ _ Hperm).
    destruct (labels q) as [|kv d], (labels p) as [|kv' d']; try done.
    - by apply Permutation_nil_cons in Hperm.
    - symmetry in Hperm. by apply Permutation_nil_cons in Hperm. }
  split; [done|].
  split; [apply unescape_escape|].
  intros k v Hin.
  assert (label_part (k, v) ∈ label_part <$> sorted_items (labels p))
    as Hpart.
  { apply list_elem_of_fmap_2. unfold sorted_items.
    by rewrite merge_sort_Permutation. }
  destruct (join_elem_of "," _ _ Hpart) as (pre & post & Hjoin).
  exists (metric_name p +:+ "{" +:+ pre),
    (post +:+ "}" +:+ " " +:+ str_float (value p) +:+ " "
     +:+ str_int (timestamp_ms p)).
  split; [|apply read_label_value_escape].
  unfold format_prometheus_line, label_block.
  destruct (labels p) as [|kv d] eqn:Hlabels; [by apply elem_of_nil in Hin|].
  rewrite Hjoin. unfold label_part. cbn [fst snd].
  by rewrite !append_assoc.
Qed.

(** C8. A dry-run writer and a real writer given batches of one non-zero
    length, the real write succeeding, both return that length, add it to
    [points_written] and add one to [batches_sent]: counters that agree
    before agree after. Given the empty list, a writer of either mode
    returns 0 and keeps both counters. *)
Theorem write_batch_counts_alike_in_both_modes :
  (forall (w_dry w_real : VMWriter)
          (points_dry points_real : list VMDataPoint) (n : Z),
     _dry_run w_dry = true ->
     _dry_run w_real = false ->
     length points_dry = length points_real ->
     points_dry <> [] ->
     (write w_real points_real).1 = Ok n ->
     let len := Z.of_nat (length points_dry) in
     let w_dry' := (write w_dry points_dry).2 in
     let w_real' := (write w_real points_real).2 in
     (write w_dry points_dry).1 = Ok len
     /\ (write w_real points_real).1 = Ok len
     /\ points_written w_dry' = points_written w_dry + len
     /\ batches_sent w_dry' = batches_sent w_dry + 1
     /\ points_written w_real' = points_written w_real + len
     /\ batches_sent w_real' = batches_sent w_real + 1
     /\ (points_written w_dry = points_written w_real ->
         batches_sent w_dry = batches_sent w_real ->
         points_written w_dry' = points_written w_real'
         /\ batches_sent w_dry' = batches_sent w_real'))
  /\ (forall w : VMWriter,
        (write w []).1 = Ok 0
        /\ points_written (write w []).2 = points_written w
        /\ batches_sent (write w []).2 = batches_sent w).
Proof.
  split; [|done].
  intros w_dry w_real points_dry points_real n Hdry Hreal Hlen Hne Hok.
  unfold write_batch in *.
  destruct points_dry as [|pd points_dry]; [done|].
  destruct points_real as [|pr points_real]; [done|].
  cbn [record_call _dry_run] in *. rewrite Hdry. rewrite Hreal in *.
  rewrite Hlen.
  destruct (session_post _ _) as [status_code text| | |]; cbn in Hok;
    try done.
  destruct (Z.leb 400 status_code); [done|].
  cbn. unfold points_written, batches_sent. cbn.
  repeat split; try done; lia.
Qed.

End vm_writer_facts.

(** *** The writer on the example points *)

Example format_temperature_point :
  vm_writer.format_prometheus_line example.str_float
    example.temperature_point
  = "homeassistant_sensor_temperature_celsius{domain=" +:+ dq +:+ "sensor"
    +:+ dq +:+ ",entity=" +:+ dq +:+ "sensor.temperature_living_room"
    +:+ dq +:+ ",friendly_name=" +:+ dq +:+ "Living Room Temperature"
    +:+ dq +:+ "} 21.5 1732968000000".
Proof. vm_compute. reflexivity. Qed.

Example format_without_labels :
  vm_writer.format_prometheus_line example.str_float example.motion_point
  = "homeassistant_binary_sensor_state 1.0 1732968120000".
Proof. vm_compute. reflexivity. Qed.

Example escape_tricky_value :
  vm_writer.escape_label_value example.tricky_value
  = "C:\\Users \" +:+ dq +:+ "x\" +:+ dq +:+ "\nend".
Proof. vm_compute. reflexivity. Qed.

Lemma format_prometheus_line_sorted_and_reversible_witness :
  vm_writer.format_prometheus_line example.str_float
    example.tricky_point_reordered
  = vm_writer.format_prometheus_line example.str_float example.tricky_point
  /\ exists pre post,
       vm_writer.format_prometheus_line example.str_float
         example.tricky_point
       = pre +:+ "path" +:+ "=" +:+ dq
         +:+ vm_writer.escape_label_value example.tricky_value +:+ dq
         +:+ post
       /\ vm_writer.read_label_value
            (vm_writer.escape_label_value example.tricky_value +:+ dq
             +:+ post)
          = Some (example.tricky_value, post).
Proof.
  destruct (format_prometheus_line_sorted_and_reversible example.str_float
              example.tricky_point)
    as (_ & _ & _ & _ & Horder & _ & _ & Hread).
  split.
  - apply Horder; [apply perm_swap | reflexivity | reflexivity | reflexivity].
  - apply Hread. apply list_elem_of_here.
Defined.

Lemma write_batch_counts_alike_in_both_modes_witness :
  let points := [example.temperature_point; example.humidity_point] in
  let dry :=
    vm_writer.write_batch example.str_float example.post_accepts
      example.dry_writer points in
  let real :=
    vm_writer.write_batch example.str_float example.post_accepts
      example.real_writer points in
  dry.1 = Ok 2 /\ real.1 = Ok 2
  /\ vm_writer.points_written dry.2 = 2 /\ vm_writer.batches_sent dry.2 = 1
  /\ vm_writer.points_written real.2 = 2
  /\ vm_writer.batches_sent real.2 = 1.
Proof.
  intros points dry real.
  destruct (write_batch_counts_alike_in_both_modes example.str_float
              example.post_accepts) as [Hsame _].
  destruct (Hsame example.dry_writer example.real_writer points points 2)
    as (Hdry & Hreal & Hpd & Hbd & Hpr & Hbr & _);
    [reflexivity | reflexivity | reflexivity | discriminate
    | vm_compute; reflexivity |].
  repeat split; assumption.
Defined.

(** ** progress.py *)

Section progress_facts.

Import progress.

Context (date_isoformat : date -> string).

Local Abbreviation update := (progress.update date_isoformat).

Lemma as_str_list_JStr (l : list string) : as_str_list (JStr <$> l) = Some l.
Proof. induction l as [|x l IH]; [done|]. cbn. by rewrite IH. Qed.

(** The document of a state reads back as that state. *)
Lemma from_dict_to_dict (p : MigrationProgress) :
  from_dict (to_dict p) = Some p.
Proof.
  destruct p as [? ? ? ? ? ? last ? ? ? errs ?].
  unfold from_dict, to_dict. cbn.
  rewrite as_str_list_JStr. by destruct last.
Qed.

Lemma load_save t utcnow p :
  load (save t utcnow p).1 = Some (save t utcnow p).2.
Proof.
  unfold load, save. cbn [fst snd progress_file]. apply from_dict_to_dict.
Qed.

(** C5. [save] stamps [last_updated] with the current time, and [load]
    after it gives back the stamped state, every field of it: the other
    eleven fields are those of the state that was saved, an empty error list
    and an absent [last_migrated_date] among them. *)
Theorem save_then_load_round_trip t utcnow p :
  let saved := (save t utcnow p).2 in
  load (save t utcnow p).1 = Some saved
  /\ saved = set_last_updated p (utcnow +:+ "Z")
  /\ last_updated saved = utcnow +:+ "Z"
  /\ started_at saved = started_at p
  /\ status saved = status p
  /\ total_records saved = total_records p
  /\ oldest_timestamp saved = oldest_timestamp p
  /\ newest_timestamp saved = newest_timestamp p
  /\ last_migrated_date saved = last_migrated_date p
  /\ records_migrated saved = records_migrated p
  /\ records_failed saved = records_failed p
  /\ batches_sent saved = batches_sent p
  /\ errors saved = errors p
  /\ dry_run saved = dry_run p
  /\ (errors p = [] ->
      errors <$> load (save t utcnow p).1 = Some [])
  /\ (last_migrated_date p = None ->
      last_migrated_date <$> load (save t utcnow p).1 = Some None).
Proof.
  intros saved. subst saved. rewrite load_save.
  repeat split; try done.
  - intros <-. done.
  - intros <-. done.
Qed.

(** C4. Two updates in a row, on the same date or on different ones, add
    both record counts to [records_migrated] and both batch counts to
    [batches_sent], leave [last_migrated_date] at the second date and the
    status at in_progress, and touch no other field than [last_updated];
    the state directory holds the result. Nothing is deduplicated. *)
Theorem update_is_additive t utcnow1 utcnow2 p d1 r1 b1 d2 r2 b2 :
  let first := update t utcnow1 p d1 r1 b1 in
  let second := update first.1 utcnow2 first.2 d2 r2 b2 in
  records_migrated second.2 = records_migrated p + (r1 + r2)
  /\ batches_sent second.2 = batches_sent p + (b1 + b2)
  /\ last_migrated_date second.2 = Some (date_isoformat d2)
  /\ status second.2 = "in_progress"
  /\ load second.1 = Some second.2
  /\ records_migrated first.2 = records_migrated p + r1
  /\ batches_sent first.2 = batches_sent p + b1
  /\ last_migrated_date first.2 = Some (date_isoformat d1)
  /\ status first.2 = "in_progress"
  /\ (started_at second.2, total_records second.2, oldest_timestamp second.2,
      newest_timestamp second.2, records_failed second.2, errors second.2,
      dry_run second.2)
     = (started_at p, total_records p, oldest_timestamp p,
        newest_timestamp p, records_failed p, errors p, dry_run p).
Proof.
  intros first second. subst first second. unfold progress.update.
  rewrite load_save. cbn. repeat split; lia.
Qed.

End progress_facts.

(** *** Checkpoints of the example run *)

Lemma save_then_load_round_trip_witness :
  let saved :=
    progress.save example.empty_dir (example.utcnow_isoformat 1)
      example.fresh_progress in
  progress.load saved.1 = Some saved.2
  /\ progress.errors <$> progress.load saved.1 = Some []
  /\ progress.last_migrated_date <$> progress.load saved.1 = Some None.
Proof.
  intros saved.
  destruct (save_then_load_round_trip example.empty_dir
              (example.utcnow_isoformat 1) example.fresh_progress)
    as (Hload & _ & _ & _ & _ & _ & _ & _ & _ & _ & _ & _ & _ & _
        & Herrors & Hdate).
  split; [exact Hload|]. split; [by apply Herrors | by apply Hdate].
Defined.

(** A second update for the same date counts the day again. *)
Example update_twice_for_one_date :
  let first :=
    progress.update example.date_isoformat example.empty_dir
      (example.utcnow_isoformat 1) example.fresh_progress
      example.may_first 3 2 in
  let second :=
    progress.update example.date_isoformat first.1
      (example.utcnow_isoformat 2) first.2 example.may_first 3 2 in
  progress.records_migrated second.2 = 6
  /\ progress.batches_sent second.2 = 4
  /\ progress.last_migrated_date second.2 = Some "2025-05-01"
  /\ progress.status second.2 = "in_progress".
Proof. vm_compute. repeat split. Qed.

(** ** migrate.py: one day *)

Section migrate_day_facts.

Import migrate.

Context (lower : string -> string).
Context (str_format : string -> string -> string -> string).
Context (str_float : float -> string).
Context (timestamp_ms_of : Z -> Z).
Context (query_day : progress.date -> list InfluxDataPoint * option exn).
Context (session_post : nat -> string -> vm_writer.post_outcome).
Context (s : mapping.schema) (known : gset string).

Local Abbreviation strict := (migrate.strict lower s known).
Local Abbreviation to_vm_point :=
  (migrate.to_vm_point str_format timestamp_ms_of s).
Local Abbreviation vm_points_of :=
  (migrate.vm_points_of lower str_format timestamp_ms_of s known).
Local Abbreviation skipped_of := (migrate.skipped_of lower s known).
Local Abbreviation loop :=
  (migrate_day_loop lower str_format str_float timestamp_ms_of session_post
     s known).
Local Abbreviation migrate_day :=
  (migrate.migrate_day lower str_format str_float timestamp_ms_of query_day
     session_post s known).
Local Abbreviation write := (vm_writer.write_batch str_float session_post).

(** Every call of [write_batch] is recorded, whatever its outcome. *)
Lemma write_batch_calls_snoc w points :
  vm_writer.write_batch_calls (write w points).2
    = vm_writer.write_batch_calls w ++ [points].
Proof.
  unfold vm_writer.write_batch. destruct points as [|p points]; [done|].
  cbn [vm_writer.record_call vm_writer._dry_run].
  destruct (vm_writer._dry_run w); [done|].
  destruct (session_post _ _) as [status_code text| | |]; try done.
  by destruct (Z.leb 400 status_code).
Qed.

(** The loop of [migrate_day], when it runs to the end of the points: the
    batches it wrote, followed by the batch it still holds, are the batch
    it started with followed by the points it did not skip; every point is
    either counted or skipped; and when [batch_size] is positive and the
    starting batch is below it, the batches written are full and the batch
    held is below it again. *)
Lemma migrate_day_loop_returns batch_size points :
  forall st w st' w',
    loop batch_size points st w = (Ok st', w') ->
    exists flushed,
      vm_writer.write_batch_calls w'
        = vm_writer.write_batch_calls w ++ flushed
      /\ concat flushed ++ batch st' = batch st ++ vm_points_of points
      /\ records_count st'
         = records_count st + Z.of_nat (length (vm_points_of points))
      /\ skipped_count st' = skipped_count st + Z.of_nat (skipped_of points)
      /\ (length (vm_points_of points) + skipped_of points
          = length points)%nat
      /\ batches_sent st' = batches_sent st + Z.of_nat (length flushed)
      /\ (1 <= batch_size ->
          Z.of_nat (length (batch st)) < batch_size ->
          Forall (fun b => Z.of_nat (length b) = batch_size) flushed
          /\ Z.of_nat (length (batch st')) < batch_size).
Proof.
  induction points as [|point points IH]; intros st w st' w' Hloop.
  - injection Hloop as <- <-. exists []. cbn.
    rewrite !app_nil_r, !Z.add_0_r. split_and!; done.
  - cbn [migrate_day_loop migrate.vm_points_of migrate.skipped_of] in *.
    destruct (strict point) as [[metric_name|]|e]; [| |done].
    + destruct (Z.leb batch_size _) eqn:Hfull.
      * destruct (write w _) as [[n|e] w1] eqn:Hwrite; [|done].
        apply IH in Hloop as (flushed & Hcalls & Hcat & Hrec & Hskip & Hlen
                              & Hsent & Hsize).
        cbn [batch records_count skipped_count batches_sent] in *.
        exists ((batch st ++ [to_vm_point metric_name point]) :: flushed).
        assert (vm_writer.write_batch_calls w1
                = vm_writer.write_batch_calls w
                  ++ [batch st ++ [to_vm_point metric_name point]]) as Hw1.
        { by rewrite <- (write_batch_calls_snoc w), Hwrite. }
        rewrite Hcalls, Hw1. cbn [concat length].
        rewrite <- !app_assoc, Hcat. cbn [app].
        split_and!; try done; try lia.
        intros Hpos Hbelow. apply Z.leb_le in Hfull.
        rewrite length_app in Hfull. cbn [length] in Hfull.
        destruct Hsize as [Hall Hheld]; [lia | cbn; lia |].
        split; [constructor; [|done] | done].
        rewrite length_app. cbn [length]. lia.
      * apply IH in Hloop as (flushed & Hcalls & Hcat & Hrec & Hskip & Hlen
                              & Hsent & Hsize).
        cbn [batch records_count skipped_count batches_sent] in *.
        exists flushed. rewrite Hcat, <- app_assoc. cbn [app length].
        split_and!; try done; try lia.
        intros Hpos Hbelow. apply Hsize; [done|]. by apply Z.leb_gt.
    + apply IH in Hloop as (flushed & Hcalls & Hcat & Hrec & Hskip & Hlen
                            & Hsent & Hsize).
      cbn [batch records_count skipped_count batches_sent] in *.
      exists flushed. cbn [length]. split_and!; try done; lia.
Qed.

(** A dry-run writer accepts every batch and stays a dry-run writer. *)
Lemma write_batch_dry_run_returns w points :
  vm_writer._dry_run w = true ->
  exists n w',
    write w points = (Ok n, w') /\ vm_writer._dry_run w' = true.
Proof.
  intros Hdry. unfold vm_writer.write_batch.
  destruct points as [|p points]; [by eexists _, _|].
  cbn [vm_writer.record_call vm_writer._dry_run]. rewrite Hdry.
  by eexists _, _.
Qed.

Lemma migrate_day_loop_returns_in_dry_run batch_size points :
  forall st w,
    vm_writer._dry_run w = true ->
    Forall (fun point => exists r, strict point = Ok r) points ->
    exists st' w',
      loop batch_size points st w = (Ok st', w')
      /\ vm_writer._dry_run w' = true.
Proof.
  induction points as [|point points IH]; intros st w Hdry Hall.
  - by eexists _, _.
  - apply Forall_cons in Hall as [[r Hr] Hall].
    cbn [migrate_day_loop]. rewrite Hr. destruct r as [metric_name|].
    + destruct (Z.leb batch_size _).
      * destruct (write_batch_dry_run_returns w
                    (batch st ++ [to_vm_point metric_name point]) Hdry)
          as (n & w1 & -> & Hdry1).
        by apply IH.
      * by apply IH.
    + by apply IH.
Qed.

(** In dry-run mode [migrate_day] returns for every day whose stream ends
    normally and holds no point that strict resolution rejects. *)
Lemma migrate_day_returns_in_dry_run w day batch_size dry_run :
  vm_writer._dry_run w = true ->
  (query_day day).2 = None ->
  Forall (fun point => exists r, strict point = Ok r) (query_day day).1 ->
  exists counts w', migrate_day w day batch_size dry_run = (Ok counts, w').
Proof.
  intros Hdry Hend Hall. unfold migrate.migrate_day.
  destruct (query_day day) as [points stream_error]. cbn [fst snd] in *.
  subst stream_error.
  destruct (migrate_day_loop_returns_in_dry_run batch_size points
              {| batch := []; records_count := 0; batches_sent := 0;
                 skipped_count := 0 |} w Hdry Hall)
    as (st & w1 & -> & Hdry1).
  destruct (batch st) as [|p held]; [by eexists _, _|].
  destruct (write_batch_dry_run_returns w1 (p :: held) Hdry1)
    as (n & w2 & -> & _).
  by eexists _, _.
Qed.

(** C9, as the code has it. For a positive [batch_size], when [migrate_day]
    returns (records, batches, skipped): the stream of the day ended
    normally; records + skipped is the number of points it yielded; the
    batches handed to [write_batch] during the call, concatenated, are the
    points that were not skipped, each once and in order; every batch but
    the last has exactly [batch_size] points and the last has between one
    and [batch_size]; and batches is the number of those calls. *)
Theorem migrate_day_conserves_records
  w day batch_size dry_run records batches skipped w' :
  1 <= batch_size ->
  migrate_day w day batch_size dry_run
    = (Ok (records, batches, skipped), w') ->
  let points := (query_day day).1 in
  let calls := calls_since w w' in
  (query_day day).2 = None
  /\ vm_writer.write_batch_calls w' = vm_writer.write_batch_calls w ++ calls
  /\ records + skipped = Z.of_nat (length points)
  /\ records = Z.of_nat (length (vm_points_of points))
  /\ skipped = Z.of_nat (skipped_of points)
  /\ concat calls = vm_points_of points
  /\ (forall i b,
        calls !! i = Some b -> (S i < length calls)%nat ->
        Z.of_nat (length b) = batch_size)
  /\ (forall b,
        last calls = Some b -> 1 <= Z.of_nat (length b) <= batch_size)
  /\ batches = Z.of_nat (length calls).
Proof.
  intros Hpos Hday points calls. subst points calls.
  unfold migrate.migrate_day, calls_since in *.
  destruct (query_day day) as [points stream_error]. cbn [fst snd].
  destruct (loop batch_size points _ w) as [[st|e] w1] eqn:Hloop; [|done].
  destruct stream_error as [e|]; [done|].
  apply migrate_day_loop_returns in Hloop
    as (flushed & Hcalls & Hcat & Hrec & Hskip & Hlen & Hsent & Hsize).
  cbn [batch records_count skipped_count batches_sent app] in *.
  destruct Hsize as [Hfull Hheld]; [done | cbn; lia |].
  destruct (batch st) as [|p held] eqn:Hbatch.
  - injection Hday as <- <- <- <-.
    rewrite Hcalls, drop_app_length, app_nil_r in *.
    split_and!; try done; try lia.
    + intros i b Hi _. by eapply (Forall_lookup_1 _ _ _ _ Hfull).
    + intros b Hb. apply last_Some_elem_of in Hb.
      rewrite Forall_forall in Hfull. apply Hfull in Hb. lia.
  - destruct (write w1 (p :: held)) as [[n|e] w2] eqn:Hwrite; [|done].
    injection Hday as <- <- <- <-.
    assert (vm_writer.write_batch_calls w2
            = vm_writer.write_batch_calls w ++ (flushed ++ [p :: held]))
      as Hw2.
    { replace w2 with (write w1 (p :: held)).2 by (by rewrite Hwrite).
      by rewrite write_batch_calls_snoc, Hcalls, <- app_assoc. }
    rewrite Hw2, drop_app_length.
    rewrite concat_app, length_app. cbn [concat length] in *.
    rewrite app_nil_r.
    split_and!; try done; try lia.
    + intros i b Hi Hlt. rewrite lookup_app_l in Hi by lia.
      by eapply (Forall_lookup_1 _ _ _ _ Hfull).
    + intros b. rewrite last_snoc. intros [= <-]. cbn [length]. lia.
Qed.

(** C2, as the code has it. A record on a non-default field that has no
    field rule resolves to [None], which is also the outcome of a record
    whose field rule is flagged ignore: strict resolution returns [None] for
    it, the loop of [migrate_day] counts it as skipped and goes on with the
    next point, and a day whose stream is that record alone returns
    (0, 0, 1). What [migrate_day] propagates, ending the day at that point,
    is the validation failure of strict resolution. *)
Theorem unruled_field_is_skipped_like_ignored (point : InfluxDataPoint) :
  field point <> "value" ->
  default ∅ (mapping.field_mappings s !! domain point) !! field point
    = None ->
  mapping.get_vm_metric_name lower s (domain point) (measurement point)
    (entity_id point) (field point) = None
  /\ strict point = Ok None
  /\ (forall batch_size points st w,
        loop batch_size (point :: points) st w
        = loop batch_size points
            {| batch := batch st; records_count := records_count st;
               batches_sent := batches_sent st;
               skipped_count := skipped_count st + 1 |} w)
  /\ (forall w day batch_size dry_run,
        query_day day = ([point], None) ->
        migrate_day w day batch_size dry_run = (Ok (0, 0, 1), w))
  /\ (forall ignored info,
        field ignored <> "value" ->
        default ∅ (mapping.field_mappings s !! domain ignored)
          !! field ignored = Some info ->
        mapping.fi_ignore info = true ->
        strict ignored = Ok None)
  /\ (forall failing e batch_size points st w,
        strict failing = Raise e ->
        loop batch_size (failing :: points) st w = (Raise e, w))
  /\ (forall failing e w day batch_size dry_run points stream_error,
        strict failing = Raise e ->
        query_day day = (failing :: points, stream_error) ->
        migrate_day w day batch_size dry_run = (Raise e, w)).
Proof.
  intros Hfield Hrule.
  assert (mapping.get_vm_metric_name lower s (domain point)
            (measurement point) (entity_id point) (field point) = None)
    as Hname.
  { unfold mapping.get_vm_metric_name, mapping.get_field_metric.
    apply String.eqb_neq in Hfield. rewrite Hfield, Hrule. done. }
  assert (strict point = Ok None) as Hstrict.
  { unfold migrate.strict, mapping.get_vm_metric_name_strict.
    by rewrite Hname. }
  split_and!; try done.
  - intros batch_size points st w. cbn [migrate_day_loop].
    by rewrite Hstrict.
  - intros w day batch_size dry_run Hday. unfold migrate.migrate_day.
    rewrite Hday. cbn [migrate_day_loop]. by rewrite Hstrict.
  - intros ignored info Hfield' Hrule' Hignore.
    unfold migrate.strict, mapping.get_vm_metric_name_strict,
      mapping.get_vm_metric_name, mapping.get_field_metric.
    apply String.eqb_neq in Hfield'. rewrite Hfield', Hrule', Hignore.
    done.
  - intros failing e batch_size points st w Hfail. cbn [migrate_day_loop].
    by rewrite Hfail.
  - intros failing e w day batch_size dry_run points stream_error Hfail Hday.
    unfold migrate.migrate_day. rewrite Hday. cbn [migrate_day_loop].
    by rewrite Hfail.
Qed.

End migrate_day_facts.

(** *** Days of the example source *)

(** C9 as the specification words it fails for a [batch_size] of zero: the
    test of the loop then holds after every point, every batch written has
    one point, and one is not zero. *)
Lemma zero_batch_size_flushes_single_points :
  ~ migrate.day_is_conserved ascii_lower example.str_format
      example.str_float example.timestamp_ms_of example.query_day
      example.post_accepts example.schema0 example.known0
      example.dry_writer example.may_first 0 false.
Proof.
  intros H.
  pose (r := example.migrate_day example.dry_writer example.may_first 0
               false).
  assert (r = (Ok (3, 3, 1), r.2)) as Hr by (vm_compute; reflexivity).
  destruct (H _ _ _ _ Hr) as (_ & _ & Hfull & _).
  assert (exists b,
            migrate.calls_since example.dry_writer r.2 !! 0%nat = Some b
            /\ length b = 1%nat
            /\ (1 < length (migrate.calls_since example.dry_writer r.2))%nat)
    as (b & Hb & Hlen & Hcount).
  { vm_compute. eexists. split_and!; [reflexivity | reflexivity | lia]. }
  specialize (Hfull 0%nat b Hb Hcount). rewrite Hlen in Hfull.
  discriminate Hfull.
Qed.

Lemma migrate_day_conserves_records_witness :
  let r := example.migrate_day example.dry_writer example.may_first 2 false in
  r.1 = Ok (3, 2, 1)
  /\ 3 + 1 = Z.of_nat (length (example.query_day example.may_first).1)
  /\ 2 = Z.of_nat (length (migrate.calls_since example.dry_writer r.2))
  /\ (forall i b,
        migrate.calls_since example.dry_writer r.2 !! i = Some b ->
        (S i < length (migrate.calls_since example.dry_writer r.2))%nat ->
        Z.of_nat (length b) = 2).
Proof.
  intros r.
  assert (r = (Ok (3, 2, 1), r.2)) as Hr by (vm_compute; reflexivity).
  assert (1 <= 2) as Hpos by lia.
  destruct (migrate_day_conserves_records ascii_lower example.str_format
              example.str_float example.timestamp_ms_of example.query_day
              example.post_accepts example.schema0 example.known0
              example.dry_writer example.may_first 2 false 3 2 1 r.2
              Hpos Hr)
    as (_ & _ & Hsum & _ & _ & _ & Hfull & _ & Hcalls).
  split; [by rewrite Hr|]. split; [exact Hsum|]. split; [exact Hcalls|].
  exact Hfull.
Defined.

(** C2 as the specification words it fails: the record of the thermostat is
    on the field temperature, for which the domain climate has no field
    rule; strict resolution gives it the outcome of an ignored record, and
    the day that holds it returns instead of failing. *)
Lemma unruled_field_record_does_not_fail_the_day :
  ~ migrate.unruled_field_fails_the_day ascii_lower example.str_format
      example.str_float example.timestamp_ms_of example.query_day
      example.post_accepts example.schema0 example.known0
      example.dry_writer (example.may_first + 1) 2 false
      example.thermostat_target.
Proof.
  intros H. destruct H as [Hdistinct _].
  - discriminate.
  - vm_compute. reflexivity.
  - apply list_elem_of_here.
  - apply Hdistinct. vm_compute. reflexivity.
Qed.

Lemma unruled_field_is_skipped_like_ignored_witness :
  migrate.strict ascii_lower example.schema0 example.known0
    example.thermostat_target = Ok None
  /\ example.migrate_day example.dry_writer (example.may_first + 1) 2 false
     = (Ok (0, 0, 1), example.dry_writer)
  /\ exists e,
       example.migrate_day example.dry_writer (example.may_first + 2) 2 false
       = (Raise (ValueError e), example.dry_writer).
Proof.
  assert (migrate.field example.thermostat_target <> "value") as Hfield
    by discriminate.
  assert (default ∅ (mapping.field_mappings example.schema0
                       !! migrate.domain example.thermostat_target)
            !! migrate.field example.thermostat_target = None) as Hrule
    by (vm_compute; reflexivity).
  destruct (unruled_field_is_skipped_like_ignored ascii_lower
              example.str_format example.str_float example.timestamp_ms_of
              example.query_day example.post_accepts example.schema0
              example.known0 example.thermostat_target Hfield Hrule)
    as (_ & Hstrict & _ & Hday & _ & _ & Hfails).
  split; [exact Hstrict|]. split.
  - apply Hday. reflexivity.
  - eexists. eapply (Hfails example.stranger); [|reflexivity].
    vm_compute. reflexivity.
Defined.

(** ** migrate.py: the run *)

Section main_facts.

Import migrate progress.

Context (lower : string -> string).
Context (str_format : string -> string -> string -> string).
Context (str_float : float -> string).
Context (date_isoformat : date -> string).
Context (date_fromisoformat strptime_date : string -> option date).
Context (day_min_isoformat day_max_isoformat : date -> string).
Context (timestamp_ms_of : Z -> Z).
Context (utcnow_isoformat utcnow_stamp : nat -> string).
Context (query_day : date -> list InfluxDataPoint * option exn).
Context (load_schema : string -> result (mapping.schema * gset string)).
Context (connect_influx : option exn).
Context (session_post : nat -> string -> vm_writer.post_outcome).
Context (session_get : string -> vm_writer.get_outcome).

Local Abbreviation main :=
  (migrate.main lower str_format str_float date_isoformat date_fromisoformat
     strptime_date day_min_isoformat day_max_isoformat timestamp_ms_of
     utcnow_isoformat utcnow_stamp query_day load_schema connect_influx
     session_post session_get).
Local Abbreviation after_reset_flag :=
  (migrate.after_reset_flag utcnow_stamp).

(** After a reset there is no checkpoint to load. *)
Lemma load_after_reset t stamp backup :
  load (progress.reset t stamp backup) = None.
Proof.
  unfold progress.reset, load.
  by destruct (progress_file t) eqn:Hfile; [|rewrite Hfile].
Qed.

(** C6. Terminal checkpoints are sticky. When the checkpoint that [main]
    loads has status completed, [main] returns 0; when it has status
    failed, [main] returns 1; either way no day was asked of the source, no
    writer was constructed, and the state directory is as it was when the
    checkpoint was loaded. Without the reset flag that is the directory
    [main] was started on; with the reset flag there is no checkpoint to
    load, so that neither case arises. *)
Theorem terminal_checkpoints_are_sticky (args : Args) (t : ProgressTracker) :
  let loaded_from := (after_reset_flag args t).1 in
  (forall p,
     load loaded_from = Some p -> status p = "completed" ->
     main args t
     = {| exit := Ok 0; tracker_after := loaded_from; days_queried := [];
          writer_after := None |})
  /\ (forall p,
        load loaded_from = Some p -> status p = "failed" ->
        main args t
        = {| exit := Ok 1; tracker_after := loaded_from; days_queried := [];
             writer_after := None |})
  /\ (migrate.reset args = false -> loaded_from = t)
  /\ (migrate.reset args = true -> load loaded_from = None).
Proof.
  intros loaded_from. subst loaded_from. unfold migrate.main.
  destruct (after_reset_flag args t) as [t1 clock] eqn:Hreset.
  cbn [fst]. split_and!.
  - intros p -> Hstatus. by rewrite Hstatus.
  - intros p -> Hstatus. by rewrite Hstatus.
  - intros Hflag. unfold migrate.after_reset_flag in Hreset.
    rewrite Hflag in Hreset. by injection Hreset as <- _.
  - intros Hflag. unfold migrate.after_reset_flag in Hreset.
    rewrite Hflag in Hreset. injection Hreset as <- _.
    apply load_after_reset.
Qed.

End main_facts.

(** *** Runs on the example state directories *)

Example run_from_scratch :
  migrate.exit (example.main example.args0 example.empty_dir) = Ok 0
  /\ migrate.days_queried (example.main example.args0 example.empty_dir)
     = [example.may_first; example.may_first + 1].
Proof. vm_compute. split; reflexivity. Qed.

Lemma terminal_checkpoints_are_sticky_witness :
  example.main example.args0 example.completed_dir
  = {| migrate.exit := Ok 0;
       migrate.tracker_after := example.completed_dir;
       migrate.days_queried := [];
       migrate.writer_after := None |}
  /\ example.main example.args0 example.failed_dir
     = {| migrate.exit := Ok 1;
          migrate.tracker_after := example.failed_dir;
          migrate.days_queried := [];
          migrate.writer_after := None |}.
Proof.
  split.
  - destruct (terminal_checkpoints_are_sticky ascii_lower example.str_format
                example.str_float example.date_isoformat
                example.date_fromisoformat example.date_fromisoformat
                example.day_min_isoformat example.day_max_isoformat
                example.timestamp_ms_of example.utcnow_isoformat
                example.utcnow_stamp example.query_day example.load_schema
                None example.post_accepts example.session_get
                example.args0 example.completed_dir) as (Hcompleted & _).
    eapply Hcompleted; [vm_compute; reflexivity | reflexivity].
  - destruct (terminal_checkpoints_are_sticky ascii_lower example.str_format
                example.str_float example.date_isoformat
                example.date_fromisoformat example.date_fromisoformat
                example.day_min_isoformat example.day_max_isoformat
                example.timestamp_ms_of example.utcnow_isoformat
                example.utcnow_stamp example.query_day example.load_schema
                None example.post_accepts example.session_get
                example.args0 example.failed_dir) as (_ & Hfailed & _).
    eapply Hfailed; [vm_compute; reflexivity | reflexivity].
Defined.

(** * Further properties *)

(** ** mapping.py: resolution *)

Section mapping_resolution.

Import mapping.

Context (lower : string -> string) (s : schema) (known : gset string).

Local Abbreviation resolve := (get_vm_metric_name lower s).
Local Abbreviation strictly := (get_vm_metric_name_strict lower s known).

Lemma truthy_Some_nonempty o :
  truthy o = true -> exists name, o = Some name /\ name <> EmptyString.
Proof.
  destruct o as [name|]; [|done]. cbn. rewrite negb_true_iff.
  intros Hne%String.eqb_neq. by exists name.
Qed.

(** X1. On the default field, resolution gives [None] exactly when the
    rule of the pair is flagged ignore, or asks for disambiguation and the
    rule that decides is flagged ignore: in particular a pair flagged
    ignore is skipped for every entity id, and a pair without a rule never
    is. *)
Theorem default_field_is_skipped_only_by_ignore
  domain measurement entity_id :
  resolve domain measurement entity_id "value" = None
  <-> is_ignored s domain measurement = true
      \/ exists info,
           domain_mappings s domain !! measurement = Some info
           /\ mi_special_mapping_required info = true
           /\ _apply_special_mapping lower s measurement entity_id
              = Some IGNORE_METRIC.
Proof.
  unfold get_vm_metric_name, is_ignored. cbn.
  destruct (domain_mappings s domain !! measurement) as [info|] eqn:Hinfo.
  - unfold mapped_metric. destruct (mi_ignore info) eqn:Hignore.
    { split; [by left | done]. }
    destruct (mi_special_mapping_required info) eqn:Hspecial.
    + destruct (bool_decide _) eqn:Hdecided.
      * apply bool_decide_eq_true in Hdecided.
        split; [|done]. intros _. right. by exists info.
      * apply bool_decide_eq_false in Hdecided.
        split.
        -- destruct (truthy (_apply_special_mapping _ _ _ _)) eqn:Ht.
           { apply truthy_Some_nonempty in Ht as (n & -> & _). done. }
           destruct (truthy (mi_metric info)) eqn:Hm; [|done].
           apply truthy_Some_nonempty in Hm as (n & -> & _). done.
        -- intros [|(info' & [= <-] & _ & Hd)]; congruence.
    + split.
      * destruct (truthy (mi_metric info)) eqn:Hm; [|done].
        apply truthy_Some_nonempty in Hm as (n & -> & _). done.
      * intros [|(info' & [= <-] & ? & _)]; congruence.
  - split; [done|]. intros [|(info & ? & _)]; done.
Qed.

(** X2. A name that resolution gives is never the empty string. *)
Theorem resolved_name_is_not_empty domain measurement entity_id field name :
  get_vm_metric_name lower s domain measurement entity_id field = Some name ->
  name <> EmptyString.
Proof.
  unfold get_vm_metric_name.
  destruct (negb (String.eqb field "value")).
  - destruct (bool_decide _); [done|].
    destruct (truthy (get_field_metric s domain field)) eqn:Ht; [|done].
    apply truthy_Some_nonempty in Ht as (n & -> & Hn). by intros [= <-].
  - destruct (domain_mappings s domain !! measurement) as [info|];
      [|by intros [= <-]].
    unfold mapped_metric. destruct (mi_ignore info); [done|].
    assert (forall o : option string,
              truthy o = true -> o = Some name -> name <> EmptyString)
      as Hnonempty.
    { intros o (n & -> & Hn)%truthy_Some_nonempty. by intros [= <-]. }
    destruct (mi_special_mapping_required info).
    + destruct (bool_decide _); [done|].
      destruct (truthy (_apply_special_mapping _ _ _ _)) eqn:Ht;
        [by apply Hnonempty|].
      destruct (truthy (mi_metric info)) eqn:Hm; [by apply Hnonempty|].
      by intros [= <-].
    + destruct (truthy (mi_metric info)) eqn:Hm; [by apply Hnonempty|].
      by intros [= <-].
Qed.

(** X3. Strict resolution returns what resolution gives, and a name it
    returns is a known metric or belongs to a pair flagged allow_new; it
    raises exactly for a name that is neither, with the message of that
    name. *)
Theorem strict_returns_known_or_allowed_names
  domain measurement entity_id field :
  match strictly domain measurement entity_id field with
  | Ok r =>
      resolve domain measurement entity_id field = r
      /\ forall name,
           r = Some name ->
           (name ∈ known)
           \/ is_new_metric_allowed s domain measurement = true
  | Raise e =>
      exists name,
        resolve domain measurement entity_id field = Some name
        /\ (name ∉ known)
        /\ is_new_metric_allowed s domain measurement = false
        /\ e = ValueError (unknown_metric_message name domain measurement
                             entity_id field)
  end.
Proof.
  unfold get_vm_metric_name_strict, validate_metric_name.
  destruct (resolve domain measurement entity_id field) as [name|];
    [|by split].
  destruct (bool_decide (name ∈ known)) eqn:Hknown; cbn [negb].
  - apply bool_decide_eq_true in Hknown.
    split; [done|]. intros ? [= <-]. by left.
  - apply bool_decide_eq_false in Hknown.
    destruct (is_new_metric_allowed s domain measurement) eqn:Hallowed.
    + split; [done|]. intros ? [= <-]. by right.
    + by exists name.
Qed.

(** X4. A record on another field than the default one resolves by the
    field rule of its domain alone: the unit and the entity id do not
    matter, and a name it resolves to is the metric of a field rule that is
    not flagged ignore. *)
Theorem extra_field_resolves_by_field_rule_alone
  domain measurement entity_id field :
  field <> "value" ->
  (forall measurement' entity_id',
     get_vm_metric_name lower s domain measurement' entity_id' field
     = get_vm_metric_name lower s domain measurement entity_id field)
  /\ (forall name,
        get_vm_metric_name lower s domain measurement entity_id field
        = Some name ->
        exists info,
          default ∅ (field_mappings s !! domain) !! field = Some info
          /\ fi_ignore info = false
          /\ fi_metric info = Some name).
Proof.
  intros Hfield%String.eqb_neq. unfold get_vm_metric_name.
  rewrite Hfield. cbn [negb]. split; [done|].
  intros name. unfold get_field_metric.
  destruct (default ∅ (field_mappings s !! domain) !! field) as [info|];
    [|done].
  destruct (fi_ignore info) eqn:Hignore.
  { by rewrite bool_decide_eq_true_2. }
  destruct (bool_decide _); [done|].
  destruct (truthy (fi_metric info)); [|done].
  intros Hname. by exists info.
Qed.

(** X5. A pair whose rule is flagged allow_new never fails strict
    resolution, on any field and for any entity id. *)
Theorem allow_new_pair_never_raises domain measurement :
  is_new_metric_allowed s domain measurement = true ->
  forall entity_id field,
    exists r, strictly domain measurement entity_id field = Ok r.
Proof.
  intros Hallowed entity_id field. unfold get_vm_metric_name_strict.
  destruct (resolve domain measurement entity_id field) as [name|];
    [|by eexists].
  rewrite Hallowed. destruct (negb _); by eexists.
Qed.

End mapping_resolution.

(** ** mapping.py: labels *)

Section label_dicts.

Import mapping dicts.

Lemma dict_lookup_dict_set k v d k' :
  dict_lookup k' (dict_set k v d)
  = if String.eqb k k' then Some v else dict_lookup k' d.
Proof.
  induction d as [|[k0 v0] d IH]; [done|]. cbn [dict_set].
  destruct (String.eqb_spec k0 k) as [->|Hne]; cbn [dict_lookup].
  - by destruct (String.eqb k k').
  - rewrite IH. destruct (String.eqb_spec k0 k') as [->|]; [|done].
    by destruct (String.eqb_spec k k').
Qed.

Lemma dict_set_keys k v d k' :
  k' ∈ (dict_set k v d).*1 <-> k' = k \/ k' ∈ d.*1.
Proof.
  induction d as [|[k0 v0] d IH]; cbn [dict_set].
  - cbn. rewrite list_elem_of_singleton, elem_of_nil. tauto.
  - destruct (String.eqb_spec k0 k) as [->|Hne]; cbn [fmap list_fmap fst].
    + rewrite !elem_of_cons. cbn. tauto.
    + change (list_fmap _ _ fst ?l) with (l.*1).
      rewrite !elem_of_cons, IH. cbn. tauto.
Qed.

Lemma dict_set_NoDup k v d : NoDup d.*1 -> NoDup (dict_set k v d).*1.
Proof.
  induction d as [|[k0 v0] d IH]; cbn [dict_set].
  - intros _. cbn. apply NoDup_singleton.
  - cbn [fmap list_fmap fst]. change (list_fmap _ _ fst ?l) with (l.*1).
    intros [Hnot Hd]%NoDup_cons.
    destruct (String.eqb_spec k0 k) as [->|Hne]; cbn [fmap list_fmap fst].
    + by apply NoDup_cons.
    + change (list_fmap _ _ fst ?l) with (l.*1).
      apply NoDup_cons. split; [|by apply IH].
      rewrite dict_set_keys. cbn. intros [->|]; done.
Qed.

Lemma dict_update_NoDup d other : NoDup d.*1 -> NoDup (dict_update d other).*1.
Proof.
  unfold dict_update. revert d.
  induction other as [|kv other IH]; intros d Hd; [done|].
  cbn [fold_left]. apply IH. by apply dict_set_NoDup.
Qed.

Lemma dict_lookup_app k d1 d2 :
  dict_lookup k (d1 ++ d2)
  = match dict_lookup k d1 with
    | Some v => Some v
    | None => dict_lookup k d2
    end.
Proof.
  induction d1 as [|[k0 v0] d1 IH]; [done|]. cbn.
  by destruct (String.eqb k0 k).
Qed.

(** After [d.update(other)] a key of [other] has its last value there, and
    another key the value it had. *)
Lemma dict_lookup_dict_update k d other :
  dict_lookup k (dict_update d other)
  = match dict_lookup k (reverse other) with
    | Some v => Some v
    | None => dict_lookup k d
    end.
Proof.
  unfold dict_update. revert d.
  induction other as [|[k0 v0] other IH]; intros d; [done|].
  cbn [fold_left]. rewrite IH, reverse_cons, dict_lookup_app.
  destruct (dict_lookup k (reverse other)); [done|].
  cbn. rewrite dict_lookup_dict_set. by destruct (String.eqb k0 k).
Qed.

Context (str_format : string -> string -> string -> string) (s : schema).

(** X6. The labels of a point form a dict without a repeated key, in which
    a static label of the ruleset has its value, and any other key is
    friendly_name, domain or, when the ruleset computes it, entity, with
    the value given or formatted from the template. *)
Theorem build_vm_labels_lets_static_labels_override
  domain entity_id friendly_name :
  let labels := build_vm_labels str_format s domain entity_id friendly_name in
  NoDup labels.*1
  /\ forall k,
       dict_lookup k labels
       = match dict_lookup k (reverse (labels_static s)) with
         | Some v => Some v
         | None =>
             if String.eqb k "friendly_name" then Some friendly_name
             else if String.eqb k "domain" then Some domain
             else if String.eqb k "entity" then
               (fun tpl =>
                  str_format (default "{domain}.{entity_id}" tpl) domain
                    entity_id) <$> labels_computed_entity s
             else None
         end.
Proof.
  intros labels. subst labels. unfold build_vm_labels. split.
  - apply dict_update_NoDup. do 2 apply dict_set_NoDup.
    destruct (labels_computed_entity s); [apply dict_set_NoDup|];
      apply NoDup_nil_2.
  - intros k. rewrite dict_lookup_dict_update.
    destruct (dict_lookup k (reverse (labels_static s))); [done|].
    rewrite !dict_lookup_dict_set. rewrite (String.eqb_sym "friendly_name").
    destruct (String.eqb k "friendly_name"); [done|].
    rewrite (String.eqb_sym "domain").
    destruct (String.eqb k "domain"); [done|].
    destruct (labels_computed_entity s) as [tpl|];
      cbn [dict_set dict_lookup].
    + rewrite (String.eqb_sym "entity").
      by destruct (String.eqb k "entity").
    + by destruct (String.eqb k "entity").
Qed.

End label_dicts.

(** ** vm_writer.py: lines, payloads and failures *)

Section writer_texts.

Import vm_writer strs.

Lemma count_char_app c (a b : string) :
  count_char c (a +:+ b) = (count_char c a + count_char c b)%nat.
Proof.
  induction a as [|x a IH]; [done|].
  rewrite append_cons. cbn [count_char]. rewrite IH.
  by destruct (Ascii.eqb x c).
Qed.

Lemma count_char_replace c old new s :
  Ascii.eqb old c = false -> count_char c new = O ->
  count_char c (replace old new s) = count_char c s.
Proof.
  intros Hold Hnew. induction s as [|x s IH]; [done|].
  cbn [replace count_char]. destruct (Ascii.eqb_spec x old) as [->|Hne].
  - by rewrite count_char_app, Hnew, IH, Hold.
  - cbn [count_char]. by rewrite IH.
Qed.

Lemma count_char_replace_all c new s :
  count_char c new = O -> count_char c (replace c new s) = O.
Proof.
  intros Hnew. induction s as [|x s IH]; [done|].
  cbn [replace]. destruct (Ascii.eqb x c) eqn:Hx.
  - by rewrite count_char_app, Hnew, IH.
  - cbn [count_char]. by rewrite Hx.
Qed.

(** An escaped label value holds no newline. *)
Lemma escape_label_value_no_newline v :
  count_char newline (escape_label_value v) = O.
Proof. unfold escape_label_value. by apply count_char_replace_all. Qed.

Lemma count_char_join_zero c sep parts :
  count_char c sep = O ->
  Forall (fun part => count_char c part = O) parts ->
  count_char c (join sep parts) = O.
Proof.
  intros Hsep. induction 1 as [|part parts Hpart _ IH]; [done|].
  destruct parts as [|part' parts]; [done|].
  change (join sep (part :: part' :: parts))
    with (part +:+ sep +:+ join sep (part' :: parts)).
  by rewrite !count_char_app, Hpart, Hsep, IH.
Qed.

Lemma count_char_join_lines c lines :
  Forall (fun l => count_char c l = O) lines ->
  count_char c (join (String c EmptyString) lines) = (length lines - 1)%nat.
Proof.
  induction 1 as [|l lines Hl Hlines IH]; [done|].
  destruct lines as [|l' lines]; [by cbn|].
  change (join (String c EmptyString) (l :: l' :: lines))
    with (l +:+ String c EmptyString
          +:+ join (String c EmptyString) (l' :: lines)).
  rewrite !count_char_app, Hl, IH. cbn [count_char length].
  rewrite Ascii.eqb_refl. lia.
Qed.

Lemma string_of_uint_no_newline d :
  count_char newline (NilEmpty.string_of_uint d) = O.
Proof. induction d; cbn; done. Qed.

Lemma str_int_no_newline n : count_char newline (str_int n) = O.
Proof.
  unfold str_int, NilZero.string_of_int, NilZero.string_of_uint.
  destruct (Z.to_int n) as [d|d]; destruct d; cbn [count_char];
    try done; apply (string_of_uint_no_newline (_ _)).
Qed.

End writer_texts.

Section writer_behaviour.

Import vm_writer strs.

Context (str_float : float -> string).
Context (session_post : nat -> string -> post_outcome).

Local Abbreviation line := (format_prometheus_line str_float).
Local Abbreviation write := (write_batch str_float session_post).
Local Abbreviation payload :=
  (fun points : list VMDataPoint => join nl (line <$> points)).

Lemma line_no_newline p :
  (forall x, count_char newline (str_float x) = O) ->
  newline_free_names p ->
  count_char newline (line p) = O.
Proof.
  intros Hfloat [Hname Hkeys]. unfold format_prometheus_line.
  rewrite !count_char_app, Hname, Hfloat, str_int_no_newline.
  destruct (labels p) as [|kv d] eqn:Hlabels; [done|].
  rewrite <- Hlabels in *. unfold label_block.
  rewrite !count_char_app, count_char_join_zero; [done..|].
  apply Forall_fmap. unfold sorted_items.
  rewrite merge_sort_Permutation.
  eapply Forall_impl; [exact Hkeys|]. intros [k v] Hk. cbn in *.
  unfold label_part. cbn [fst snd].
  by rewrite !count_char_app, Hk, escape_label_value_no_newline.
Qed.

(** X7. An escaped label value holds no newline, whatever the value; and
    when the printed floats, the metric names and the label keys hold none
    either, the payload of a non-empty batch holds one newline less than
    the batch has points: one line per point. *)
Theorem payload_has_one_line_per_point (points : list VMDataPoint) :
  (forall x, count_char newline (str_float x) = O) ->
  Forall newline_free_names points ->
  (forall v, count_char newline (escape_label_value v) = O)
  /\ Forall (fun p => count_char newline (line p) = O) points
  /\ count_char newline (payload points) = (length points - 1)%nat.
Proof.
  intros Hfloat Hnames. split; [apply escape_label_value_no_newline|].
  assert (Forall (fun p => count_char newline (line p) = O) points) as Hlines.
  { eapply Forall_impl; [exact Hnames|]. intros p. by apply line_no_newline. }
  split; [done|].
  unfold nl. rewrite count_char_join_lines, length_fmap; [done|].
  by apply Forall_fmap.
Qed.

(** X8. A call of [write_batch] that raises leaves both counters as they
    were; it is a call of a real writer on a non-empty batch. *)
Theorem failed_write_leaves_the_counters w points e :
  (write w points).1 = Raise e ->
  points_written (write w points).2 = points_written w
  /\ batches_sent (write w points).2 = batches_sent w
  /\ _dry_run w = false
  /\ points <> [].
Proof.
  unfold write_batch. destruct points as [|p points]; [done|].
  cbn [record_call _dry_run]. destruct (_dry_run w); [done|].
  destruct (session_post _ _) as [status_code text| | |];
    [destruct (Z.leb 400 status_code); [|done]|..];
    intros _; by split_and!.
Qed.

(** X9. Only a real writer given a non-empty batch posts, and it posts
    once, the lines of the batch joined by newlines: a dry-run writer posts
    nothing and returns the length of the batch, and an empty batch is
    posted by neither. The mode and the URLs of the writer stay. *)
Theorem write_batch_posts_only_in_real_mode w points :
  let w' := (write_batch str_float session_post w points).2 in
  (_dry_run w = true ->
   posted w' = posted w
   /\ (write_batch str_float session_post w points).1
      = Ok (Z.of_nat (length points)))
  /\ (points = [] -> posted w' = posted w)
  /\ (_dry_run w = false -> points <> [] ->
      posted w' = posted w ++ [payload points])
  /\ _dry_run w' = _dry_run w
  /\ _import_url w' = _import_url w.
Proof.
  unfold write_batch. destruct points as [|p points].
  { cbn. by split_and!. }
  cbn [record_call _dry_run posted].
  destruct (_dry_run w) eqn:Hdry.
  { cbn. by split_and!. }
  destruct (session_post _ _) as [status_code text| | |];
    [destruct (Z.leb 400 status_code)|..]; cbn; by split_and!.
Qed.

Lemma str_take_prefix n text : String.prefix (str_take n text) text = true.
Proof.
  apply prefix_true_iff. revert n.
  induction text as [|c text IH]; intros n; [by exists EmptyString|].
  cbn [str_take]. destruct (is_continuation c).
  - destruct (IH n) as [post Hpost]. exists post.
    by rewrite append_cons, <- Hpost.
  - destruct n as [|n]; [by exists (String c text)|].
    destruct (IH n) as [post Hpost]. exists post.
    by rewrite append_cons, <- Hpost.
Qed.

Lemma str_take_len n text : (str_len (str_take n text) <= n)%nat.
Proof.
  revert n. induction text as [|c text IH]; intros n; [cbn; lia|].
  cbn [str_take]. destruct (is_continuation c) eqn:Hc.
  - cbn [str_len]. rewrite Hc. apply IH.
  - destruct n as [|n]; [cbn; lia|]. cbn [str_len]. rewrite Hc.
    specialize (IH n). lia.
Qed.

Lemma str_take_short n text : (str_len text <= n)%nat -> str_take n text = text.
Proof.
  revert n. induction text as [|c text IH]; intros n; [done|].
  cbn [str_take str_len]. destruct (is_continuation c).
  - intros Hlen. by rewrite IH.
  - destruct n as [|n]; [lia|]. intros Hlen. rewrite IH; [done | lia].
Qed.

(** X10. When the destination answers the POST of a batch with a status of
    400 or more, [write_batch] raises a [WriteError] with that status and
    with the first 500 characters of the response text, the whole text when
    it is no longer; with a status below 400 it returns the length of the
    batch. *)
Theorem rejected_batch_raises_WriteError w points status_code text :
  _dry_run w = false ->
  points <> [] ->
  session_post (length (posted w)) (payload points)
    = Response status_code text ->
  (400 <= status_code ->
   exists body,
     (write w points).1 = Raise (WriteError status_code body)
     /\ String.prefix body text = true
     /\ (str_len body <= 500)%nat
     /\ ((str_len text <= 500)%nat -> body = text))
  /\ (status_code < 400 ->
      (write w points).1 = Ok (Z.of_nat (length points))).
Proof.
  intros Hreal Hne Hpost. unfold write_batch.
  destruct points as [|p points]; [done|].
  cbn [record_call _dry_run posted]. rewrite Hreal, Hpost. split.
  - intros Hstatus%Z.leb_le. rewrite Hstatus. exists (str_take 500 text).
    split_and!; [done | apply str_take_prefix | apply str_take_len
                | apply str_take_short].
  - intros Hstatus%Z.leb_gt. by rewrite Hstatus.
Qed.

Lemma rstrip_slash_slashes url :
  exists n, url = rstrip_slash url +:+ slashes n.
Proof.
  induction url as [|c url [n IH]]; [by exists O|].
  cbn [rstrip_slash]. destruct (rstrip_slash url) as [|x rest].
  - rewrite append_nil_l in IH.
    destruct (Ascii.eqb_spec c "/") as [->|].
    + exists (S n). by rewrite IH.
    + exists n. by rewrite append_cons, append_nil_l, IH.
  - exists n. by rewrite append_cons, <- IH.
Qed.

Lemma append_slash_not_empty pre : pre +:+ "/" <> EmptyString.
Proof. by destruct pre. Qed.

Lemma rstrip_slash_no_trailing_slash url pre :
  rstrip_slash url <> pre +:+ "/".
Proof.
  revert pre. induction url as [|c url IH]; intros pre.
  { cbn. intros H. by apply (append_slash_not_empty pre). }
  cbn [rstrip_slash]. destruct (rstrip_slash url) as [|x rest].
  - destruct (Ascii.eqb_spec c "/") as [->|Hc].
    + intros H. by apply (append_slash_not_empty pre).
    + destruct pre as [|y pre].
      * by intros [= ->].
      * rewrite append_cons. intros [= _ H].
        by apply (append_slash_not_empty pre).
  - destruct pre as [|y pre]; [done|]. rewrite append_cons.
    intros [= _ H]. by apply (IH pre).
Qed.

(** X11. A new writer keeps the URL it is given without its trailing
    slashes, all of them, builds the import and the health URL on it, and
    starts with both counters at zero. *)
Theorem init_strips_trailing_slashes url dry_run batch_size :
  let w := __init__ url dry_run batch_size in
  (exists n, url = _url w +:+ slashes n)
  /\ (forall pre, _url w <> pre +:+ "/")
  /\ _import_url w = _url w +:+ "/api/v1/import/prometheus"
  /\ _health_url w = _url w +:+ "/health"
  /\ points_written w = 0 /\ batches_sent w = 0
  /\ is_dry_run w = dry_run.
Proof.
  cbn. split_and!; try done.
  - apply rstrip_slash_slashes.
  - apply rstrip_slash_no_trailing_slash.
Qed.

End writer_behaviour.

(** ** progress.py: documents, resets and terminal marks *)

Section checkpoint_documents.

Import progress checkpoints.


(** X12. A document reads as a checkpoint only if it has the twelve
    fields: a dict that lacks one of them, or has another number of keys
    than twelve, reads as nothing, and so does a file that holds no JSON or
    a JSON value that is no dict. [load] then answers [None]. *)
Theorem from_dict_needs_every_field data :
  (forall k, k ∈ field_names -> dict_get k data = None ->
             from_dict data = None)
  /\ (length data <> 12%nat -> from_dict data = None)
  /\ (forall k, k ∈ field_names -> dict_get k data = None ->
                load (only_file (Json (JDict data))) = None)
  /\ (forall text, load (only_file (NotJson text)) = None)
  /\ (forall doc, (forall d, doc <> JDict d) ->
                  load (only_file (Json doc)) = None).
Proof.
  assert (forall k, k ∈ field_names -> dict_get k data = None ->
                    from_dict data = None) as Hmissing.
  { intros k Hk Hnone. unfold from_dict.
    destruct (negb _); [done|].
    unfold field_names in Hk.
    repeat (apply elem_of_cons in Hk as [->|Hk]);
      [..|by apply elem_of_nil in Hk];
      repeat (match goal with
              | |- context [dict_get ?key data ≫= ?f] =>
                  destruct (dict_get key data ≫= f) eqn:?;
                  [cbn [mbind option_bind]|done]
              end;
              try (match goal with
                   | E : _ = Some _ |- _ =>
                       rewrite Hnone in E; discriminate E
                   end)). }
  split_and!; try done.
  - intros Hlen. unfold from_dict.
    destruct (Nat.eqb_spec (length data) 12); done.
  - intros doc Hdoc. unfold load, only_file. cbn.
    destruct doc; try done. by destruct (Hdoc d).
Qed.


(** X14. Resetting after a save, with a backup: there is no checkpoint to
    load any more, one backup file was added to those there were, and it
    holds the checkpoint that was saved; a further reset changes nothing.
    Without a backup the backups stay as they were, and a directory without
    a checkpoint is left as it is. *)
Theorem reset_moves_the_checkpoint_to_a_backup t utcnow p stamp :
  let saved := save t utcnow p in
  let t' := reset saved.1 stamp true in
  load t' = None
  /\ (exists content,
        backup_files t'
        = ("progress_" +:+ stamp +:+ ".backup.json", content)
            :: backup_files t
        /\ load (only_file content) = Some saved.2)
  /\ (forall stamp' backup, reset t' stamp' backup = t')
  /\ backup_files (reset saved.1 stamp false) = backup_files t
  /\ load (reset saved.1 stamp false) = None
  /\ (forall t0 stamp' backup,
        progress_file t0 = None -> reset t0 stamp' backup = t0).
Proof.
  cbn. split_and!; try done.
  - eexists. split; [done|]. unfold load, only_file. cbn [progress_file].
    apply from_dict_to_dict.
  - intros t0 stamp' backup Hnone. unfold reset. by rewrite Hnone.
Qed.

(** X15. Marking a checkpoint failed twice appends both messages to the
    error log, in order, after the messages it held; marking it completed
    afterwards keeps the log. None of the three touches the counters or
    the date, and the state directory holds the last state. *)
Theorem terminal_marks_keep_the_error_log t now1 now2 now3 p e1 e2 :
  let first := mark_failed t now1 p e1 in
  let second := mark_failed first.1 now2 first.2 e2 in
  let third := mark_completed second.1 now3 second.2 in
  errors second.2 = errors p ++ [e1; e2]
  /\ status second.2 = "failed"
  /\ load second.1 = Some second.2
  /\ errors third.2 = errors p ++ [e1; e2]
  /\ status third.2 = "completed"
  /\ load third.1 = Some third.2
  /\ (records_migrated third.2, records_failed third.2, batches_sent third.2,
      last_migrated_date third.2, total_records third.2, started_at third.2,
      dry_run third.2)
     = (records_migrated p, records_failed p, batches_sent p,
        last_migrated_date p, total_records p, started_at p, dry_run p).
Proof.
  intros first second third. subst first second third.
  unfold mark_failed, mark_completed. rewrite !load_save. cbn.
  rewrite <- app_assoc. by split_and!.
Qed.

End checkpoint_documents.

(** ** migrate.py: dates, days and validation *)

Section date_ranges.

Import migrate.

Lemma dates_from_lookup n current i d :
  dates_from n current !! i = Some d
  <-> d = current + Z.of_nat i /\ (i < n)%nat.
Proof.
  revert current i. induction n as [|n IH]; intros current i.
  - cbn. split; [done | lia].
  - destruct i as [|i]; cbn [dates_from lookup list_lookup].
    + split; [intros [= <-]; split; lia | intros [-> _]; f_equal; lia].
    + rewrite IH. split; intros [-> ?]; split; lia.
Qed.


End date_ranges.

Section migrate_day_and_writer.

Import migrate days.

Context (lower : string -> string).
Context (str_format : string -> string -> string -> string).
Context (str_float : float -> string).
Context (timestamp_ms_of : Z -> Z).
Context (query_day : progress.date -> list InfluxDataPoint * option exn).
Context (session_post : nat -> string -> vm_writer.post_outcome).
Context (s : mapping.schema) (known : gset string).

Local Abbreviation strict := (migrate.strict lower s known).
Local Abbreviation to_vm_point :=
  (migrate.to_vm_point str_format timestamp_ms_of s).
Local Abbreviation loop :=
  (migrate_day_loop lower str_format str_float timestamp_ms_of session_post
     s known).
Local Abbreviation migrate_day :=
  (migrate.migrate_day lower str_format str_float timestamp_ms_of query_day
     session_post s known).
Local Abbreviation write := (vm_writer.write_batch str_float session_post).

(** A call of [write_batch] that returns has counted its points and, unless
    the batch was empty, one batch. *)
Lemma write_batch_returns_counts w points n w' :
  write w points = (Ok n, w') ->
  n = Z.of_nat (length points)
  /\ vm_writer.points_written w'
     = vm_writer.points_written w + Z.of_nat (length points)
  /\ vm_writer.batches_sent w'
     = vm_writer.batches_sent w + (if points is [] then 0 else 1)
  /\ vm_writer._dry_run w' = vm_writer._dry_run w.
Proof.
  unfold vm_writer.write_batch, vm_writer.points_written,
    vm_writer.batches_sent.
  destruct points as [|p points].
  { intros [= <- <-]. cbn. split_and!; [done | lia | lia | done]. }
  cbn [vm_writer.record_call vm_writer._dry_run].
  destruct (vm_writer._dry_run w) eqn:Hdry.
  { intros [= <- <-]. by cbn. }
  destruct (session_post _ _) as [status_code text| | |]; try done.
  destruct (Z.leb 400 status_code); [done|].
  intros [= <- <-]. by cbn.
Qed.

(** A dry-run writer posts nothing, whatever the batch. *)
Lemma write_batch_dry_run_posts_nothing w points :
  vm_writer._dry_run w = true ->
  vm_writer.posted (write w points).2 = vm_writer.posted w
  /\ vm_writer._dry_run (write w points).2 = true.
Proof.
  intros Hdry. unfold vm_writer.write_batch.
  destruct points as [|p points]; [done|].
  cbn [vm_writer.record_call vm_writer._dry_run]. by rewrite Hdry.
Qed.

Lemma migrate_day_loop_counts batch_size points :
  forall st w st' w',
    loop batch_size points st w = (Ok st', w') ->
    vm_writer.points_written w' + Z.of_nat (length (batch st'))
      - records_count st'
    = vm_writer.points_written w + Z.of_nat (length (batch st))
      - records_count st
    /\ vm_writer.batches_sent w' - batches_sent st'
       = vm_writer.batches_sent w - batches_sent st
    /\ vm_writer._dry_run w' = vm_writer._dry_run w.
Proof.
  induction points as [|point points IH]; intros st w st' w' Hloop.
  - by injection Hloop as <- <-.
  - cbn [migrate_day_loop] in Hloop.
    destruct (strict point) as [[metric_name|]|e]; [| |done].
    + destruct (Z.leb batch_size _).
      * destruct (write w _) as [[n|e] w1] eqn:Hwrite; [|done].
        apply write_batch_returns_counts in Hwrite
          as (_ & Hpoints & Hbatches & Hdry).
        apply IH in Hloop as (Hp & Hb & Hd).
        cbn [batch records_count batches_sent length] in *.
        rewrite length_app in Hpoints. cbn [length] in Hpoints.
        destruct (batch st ++ [to_vm_point metric_name point]) eqn:Hnil.
        { by apply app_nil in Hnil as [_ ?]. }
        split_and!; [lia | lia | congruence].
      * apply IH in Hloop as (Hp & Hb & Hd).
        cbn [batch records_count batches_sent] in *.
        rewrite length_app in Hp. cbn [length] in Hp.
        split_and!; [lia | lia | done].
    + apply IH in Hloop as (Hp & Hb & Hd).
      cbn [batch records_count batches_sent] in *. by split_and!.
Qed.

(** X17. The counts [migrate_day] returns are the ones the writer kept:
    when it returns (records, batches, skipped), the writer's
    [points_written] has grown by records and its [batches_sent] by
    batches, in dry-run mode and in production mode alike, for every
    [batch_size]. *)
Theorem migrate_day_counts_agree_with_the_writer
  w day batch_size dry_run records batches skipped w' :
  migrate_day w day batch_size dry_run = (Ok (records, batches, skipped), w') ->
  vm_writer.points_written w' = vm_writer.points_written w + records
  /\ vm_writer.batches_sent w' = vm_writer.batches_sent w + batches
  /\ vm_writer.is_dry_run w' = vm_writer.is_dry_run w.
Proof.
  unfold migrate.migrate_day, vm_writer.is_dry_run.
  destruct (query_day day) as [points stream_error].
  destruct (loop batch_size points _ w) as [[st|e] w1] eqn:Hloop; [|done].
  apply migrate_day_loop_counts in Hloop as (Hp & Hb & Hd).
  cbn [batch records_count batches_sent length] in *.
  destruct stream_error; [done|].
  destruct (batch st) as [|p held] eqn:Hheld.
  - intros [= <- <- <- <-]. cbn [length] in Hp. split_and!; [lia | lia | done].
  - destruct (write w1 (p :: held)) as [[n|e] w2] eqn:Hwrite; [|done].
    apply write_batch_returns_counts in Hwrite as (_ & Hpoints & Hbatches & ?).
    intros [= <- <- <- <-]. split_and!; [lia | lia | congruence].
Qed.

Lemma migrate_day_loop_dry_run_posts_nothing batch_size points :
  forall st w,
    vm_writer._dry_run w = true ->
    vm_writer.posted (loop batch_size points st w).2 = vm_writer.posted w
    /\ vm_writer._dry_run (loop batch_size points st w).2 = true.
Proof.
  induction points as [|point points IH]; intros st w Hdry; [done|].
  cbn [migrate_day_loop].
  destruct (strict point) as [[metric_name|]|e]; [| by apply IH | done].
  destruct (Z.leb batch_size _); [|by apply IH].
  destruct (write_batch_dry_run_posts_nothing w
              (batch st ++ [to_vm_point metric_name point]) Hdry)
    as [Hposted Hdry1].
  destruct (write w _) as [[n|e] w1]; cbn [snd] in *; [|done].
  rewrite <- Hposted. by apply IH.
Qed.

(** X18. With a dry-run writer [migrate_day] sends nothing to the
    destination: whether it returns or raises, the list of payloads posted
    is the one before the call, and the writer is still a dry-run writer. *)
Theorem migrate_day_with_a_dry_run_writer_posts_nothing
  w day batch_size dry_run :
  vm_writer.is_dry_run w = true ->
  vm_writer.posted (migrate_day w day batch_size dry_run).2
    = vm_writer.posted w
  /\ vm_writer.is_dry_run (migrate_day w day batch_size dry_run).2 = true.
Proof.
  unfold vm_writer.is_dry_run, migrate.migrate_day. intros Hdry.
  destruct (query_day day) as [points stream_error].
  destruct (migrate_day_loop_dry_run_posts_nothing batch_size points
              {| batch := []; records_count := 0; batches_sent := 0;
                 skipped_count := 0 |} w Hdry) as [Hposted Hdry1].
  destruct (loop batch_size points _ w) as [[st|e] w1]; cbn [snd] in *;
    [|done].
  destruct stream_error; [done|].
  destruct (batch st) as [|p held]; [done|].
  destruct (write_batch_dry_run_posts_nothing w1 (p :: held) Hdry1)
    as [Hposted2 Hdry2].
  destruct (write w1 (p :: held)) as [[n|e] w2]; cbn [snd] in *;
    by rewrite <- Hposted.
Qed.

End migrate_day_and_writer.

Section validation.

Import migrate days.

Context (lower : string -> string).
Context (str_format : string -> string -> string -> string).
Context (str_float : float -> string).
Context (timestamp_ms_of : Z -> Z).
Context (query_day : progress.date -> list InfluxDataPoint * option exn).
Context (session_post : nat -> string -> vm_writer.post_outcome).
Context (s : mapping.schema) (known : gset string).

Local Abbreviation strict := (migrate.strict lower s known).
Local Abbreviation to_vm_point :=
  (migrate.to_vm_point str_format timestamp_ms_of s).
Local Abbreviation vm_points_of :=
  (migrate.vm_points_of lower str_format timestamp_ms_of s known).
Local Abbreviation skipped_of := (migrate.skipped_of lower s known).
Local Abbreviation failing_of := (days.failing_of lower s known).
Local Abbreviation rejected := (days.rejected lower s known).
Local Abbreviation loop :=
  (migrate_day_loop lower str_format str_float timestamp_ms_of session_post
     s known).
Local Abbreviation migrate_day :=
  (migrate.migrate_day lower str_format str_float timestamp_ms_of query_day
     session_post s known).
Local Abbreviation write := (vm_writer.write_batch str_float session_post).
Local Abbreviation validate_points := (migrate.validate_points lower s known).
Local Abbreviation validate_days :=
  (migrate.validate_days lower query_day s known).
Local Abbreviation perform_dry_run_validation :=
  (migrate.perform_dry_run_validation lower query_day s known).

Lemma unmapped_message_of_key point point' :
  combination_key point = combination_key point' ->
  unmapped_message point = unmapped_message point'.
Proof.
  unfold combination_key, unmapped_message. by intros [= -> -> -> ->].
Qed.

Lemma strict_raises_ValueError point e :
  strict point = Raise e -> exists msg, e = ValueError msg.
Proof.
  intros [metric_name ->]%strict_raises_only_ValueError. by eexists.
Qed.

(** The three ways a point is counted. *)
Lemma points_are_valid_skipped_or_rejected points :
  (length points
   = length (vm_points_of points) + skipped_of points + failing_of points)%nat.
Proof.
  induction points as [|point points IH]; [done|].
  cbn [length migrate.vm_points_of migrate.skipped_of days.failing_of].
  destruct (strict point) as [[metric_name|]|e]; cbn [length]; lia.
Qed.

Lemma failing_of_zero points :
  failing_of points = O <-> Forall (fun point => ~ rejected point) points.
Proof.
  induction points as [|point points IH]; [done|].
  cbn [days.failing_of]. rewrite Forall_cons, <- IH. unfold days.rejected.
  destruct (strict point) as [r|e].
  - split; [|by intros [_ ?]]. intros ?. split; [|done]. by intros [e ?].
  - split; [done|]. intros [[] _]. by exists e.
Qed.

Lemma vm_points_of_app a b :
  vm_points_of (a ++ b) = vm_points_of a ++ vm_points_of b.
Proof.
  induction a as [|point a IH]; [done|]. cbn [app migrate.vm_points_of].
  destruct (strict point) as [[metric_name|]|e]; by rewrite ?IH.
Qed.

Lemma skipped_of_app a b :
  skipped_of (a ++ b) = (skipped_of a + skipped_of b)%nat.
Proof.
  induction a as [|point a IH]; [done|]. cbn [app migrate.skipped_of].
  destruct (strict point) as [[metric_name|]|e]; rewrite ?IH; lia.
Qed.

Lemma failing_of_app a b :
  failing_of (a ++ b) = (failing_of a + failing_of b)%nat.
Proof.
  induction a as [|point a IH]; [done|]. cbn [app days.failing_of].
  destruct (strict point) as [r|e]; rewrite ?IH; lia.
Qed.

(** The inner loop of the validation never raises; it counts every point
    once, and it reports the rejected points, and only them. *)
Lemma validate_points_returns points :
  forall v,
    reported v ->
    exists v' extra,
      validate_points points v = Ok v'
      /\ reported v'
      /\ total_records v' = total_records v + Z.of_nat (length points)
      /\ valid_records v'
         = valid_records v + Z.of_nat (length (vm_points_of points))
      /\ skipped_records v'
         = skipped_records v + Z.of_nat (skipped_of points)
      /\ errors v' = errors v ++ extra
      /\ (length extra <= failing_of points)%nat
      /\ Forall (fun msg =>
                   exists point,
                     point ∈ points /\ rejected point
                     /\ msg = unmapped_message point) extra
      /\ (forall point,
            point ∈ points -> rejected point ->
            unmapped_message point ∈ errors v').
Proof.
  induction points as [|point points IH]; intros v Hv.
  - exists v, []. cbn. rewrite app_nil_r, !Z.add_0_r.
    split_and!; try done. by intros ? ?%elem_of_nil.
  - cbn [migrate.validate_points migrate.vm_points_of migrate.skipped_of
           days.failing_of length].
    destruct (strict point) as [[metric_name|]|e] eqn:Hstrict.
    + destruct (IH {| total_records := total_records v + 1;
                      valid_records := valid_records v + 1;
                      skipped_records := skipped_records v;
                      errors := errors v;
                      unmapped_combinations := unmapped_combinations v |} Hv)
        as (v' & extra & -> & Hrep & Ht & Hval & Hsk & Herr & Hlen & Hall
            & Hin).
      cbn [total_records valid_records skipped_records errors] in *.
      exists v', extra. split_and!; try done; try (cbn [length]; lia).
      * eapply Forall_impl; [exact Hall|]. intros msg (q & ? & ? & ?).
        exists q. split_and!; try done. by apply elem_of_cons; right.
      * intros q [->|?]%elem_of_cons [e He]; [congruence|].
        apply Hin; [done | by exists e].
    + destruct (IH {| total_records := total_records v + 1;
                      valid_records := valid_records v;
                      skipped_records := skipped_records v + 1;
                      errors := errors v;
                      unmapped_combinations := unmapped_combinations v |} Hv)
        as (v' & extra & -> & Hrep & Ht & Hval & Hsk & Herr & Hlen & Hall
            & Hin).
      cbn [total_records valid_records skipped_records errors] in *.
      exists v', extra. split_and!; try done; try (cbn [length]; lia).
      * eapply Forall_impl; [exact Hall|]. intros msg (q & ? & ? & ?).
        exists q. split_and!; try done. by apply elem_of_cons; right.
      * intros q [->|?]%elem_of_cons [e He]; [congruence|].
        apply Hin; [done | by exists e].
    + destruct (strict_raises_ValueError _ _ Hstrict) as [text ->].
      fold (combination_key point).
      destruct (bool_decide _) eqn:Hseen.
      * apply bool_decide_eq_true in Hseen.
        destruct (IH {| total_records := total_records v + 1;
                        valid_records := valid_records v;
                        skipped_records := skipped_records v;
                        errors := errors v;
                        unmapped_combinations := unmapped_combinations v |}
                    Hv)
          as (v' & extra & -> & Hrep & Ht & Hval & Hsk & Herr & Hlen & Hall
              & Hin).
        cbn [total_records valid_records skipped_records errors] in *.
        exists v', extra. split_and!; try done; try (cbn [length]; lia).
        -- eapply Forall_impl; [exact Hall|]. intros msg (q & ? & ? & ?).
           exists q. split_and!; try done. by apply elem_of_cons; right.
        -- intros q [->|?]%elem_of_cons Hq; [|by apply Hin].
           rewrite Herr. apply elem_of_app. left. by apply Hv.
      * apply bool_decide_eq_false in Hseen.
        assert (reported
                  {| total_records := total_records v + 1;
                     valid_records := valid_records v;
                     skipped_records := skipped_records v;
                     errors := errors v ++ [unmapped_message point];
                     unmapped_combinations :=
                       {[ combination_key point ]}
                       ∪ unmapped_combinations v |}) as Hv1.
        { intros q. cbn [unmapped_combinations errors].
          intros [Hq%elem_of_singleton|Hq]%elem_of_union; apply elem_of_app.
          - right. rewrite (unmapped_message_of_key _ _ Hq). by left.
          - left. by apply Hv. }
        destruct (IH _ Hv1)
          as (v' & extra & -> & Hrep & Ht & Hval & Hsk & Herr & Hlen & Hall
              & Hin).
        cbn [total_records valid_records skipped_records errors] in *.
        exists v', (unmapped_message point :: extra).
        split_and!; try done; try (cbn [length]; lia).
        -- by rewrite Herr, <- app_assoc.
        -- constructor.
           ++ exists point. split_and!; [by left | by eexists | done].
           ++ eapply Forall_impl; [exact Hall|]. intros msg (q & ? & ? & ?).
              exists q. split_and!; try done. by apply elem_of_cons; right.
        -- intros q [->|?]%elem_of_cons Hq; [|by apply Hin].
           rewrite Herr. apply elem_of_app. left. apply elem_of_app. right.
           by left.
Qed.

Lemma elem_of_points_over point day dates :
  day ∈ dates -> point ∈ (query_day day).1 ->
  point ∈ points_over query_day dates.
Proof.
  unfold points_over. intros Hday Hpoint.
  induction dates as [|d dates IH]; [by apply elem_of_nil in Hday|].
  cbn [fmap list_fmap concat]. apply elem_of_app.
  apply elem_of_cons in Hday as [<-|Hday]; [by left | right; by apply IH].
Qed.

Lemma points_over_cons day dates :
  points_over query_day (day :: dates)
  = (query_day day).1 ++ points_over query_day dates.
Proof. done. Qed.

(** The outer loop of the validation: it returns when every stream ends
    normally, and otherwise raises the exception of the first stream that
    does not, after the points of that stream. *)
Lemma validate_days_returns dates :
  forall v queried,
    reported v ->
    match validate_days dates v queried with
    | (Ok v', queried') =>
        let points := points_over query_day dates in
        queried' = queried ++ dates
        /\ Forall (fun day => (query_day day).2 = None) dates
        /\ reported v'
        /\ total_records v' = total_records v + Z.of_nat (length points)
        /\ valid_records v'
           = valid_records v + Z.of_nat (length (vm_points_of points))
        /\ skipped_records v'
           = skipped_records v + Z.of_nat (skipped_of points)
        /\ (exists extra,
              errors v' = errors v ++ extra
              /\ (length extra <= failing_of points)%nat
              /\ Forall (fun msg =>
                           exists point,
                             point ∈ points /\ rejected point
                             /\ msg = unmapped_message point) extra)
        /\ (forall point,
              point ∈ points -> rejected point ->
              unmapped_message point ∈ errors v')
    | (Raise e, queried') =>
        exists before day after,
          dates = before ++ day :: after
          /\ Forall (fun day => (query_day day).2 = None) before
          /\ (query_day day).2 = Some e
          /\ queried' = queried ++ before ++ [day]
    end.
Proof.
  induction dates as [|day dates IH]; intros v queried Hv.
  - cbn. rewrite app_nil_r, !Z.add_0_r. split_and!; try done.
    + exists []. by rewrite app_nil_r.
    + by intros ? ?%elem_of_nil.
  - cbn [migrate.validate_days]. rewrite points_over_cons.
    destruct (query_day day) as [points stream_error] eqn:Hday.
    cbn [fst].
    destruct (validate_points_returns points v Hv)
      as (v1 & extra1 & -> & Hv1 & Ht1 & Hval1 & Hsk1 & Herr1 & Hlen1
          & Hall1 & Hin1).
    destruct stream_error as [e|].
    { exists [], day, dates. rewrite Hday. by split_and!. }
    specialize (IH v1 (queried ++ [day]) Hv1).
    destruct (validate_days dates v1 _) as [[v'|e] queried'].
    + destruct IH as (-> & Hends & Hv' & Ht & Hval & Hsk
                      & (extra & Herr & Hlen & Hall) & Hin).
      cbn zeta. rewrite vm_points_of_app, skipped_of_app, failing_of_app,
        !length_app.
      split_and!; try done; try lia.
      * by rewrite <- app_assoc.
      * constructor; [by rewrite Hday | done].
      * exists (extra1 ++ extra). split_and!.
        -- by rewrite Herr, Herr1, app_assoc.
        -- rewrite length_app. lia.
        -- apply Forall_app. split.
           ++ eapply Forall_impl; [exact Hall1|]. intros msg (q & ? & ? & ?).
              exists q. split_and!; try done. apply elem_of_app. by left.
           ++ eapply Forall_impl; [exact Hall|]. intros msg (q & ? & ? & ?).
              exists q. split_and!; try done. apply elem_of_app. by right.
      * intros q [Hq|Hq]%elem_of_app Hrej; [|by apply Hin].
        rewrite Herr. apply elem_of_app. left. by apply Hin1.
    + destruct IH as (before & d & after & -> & Hends & Hd & ->).
      exists (day :: before), d, after. split_and!; try done.
      * constructor; [by rewrite Hday | done].
      * by rewrite <- !app_assoc.
Qed.

Lemma reported_at_the_start :
  reported {| total_records := 0; valid_records := 0; skipped_records := 0;
              errors := []; unmapped_combinations := ∅ |}.
Proof. intros point Hin. cbn in Hin. set_solver. Qed.

(** X19. When [perform_dry_run_validation] returns (total, valid, skipped,
    errors), it has asked the source for every day of the range, and over
    the points of those days: total is their number, valid the number of
    those that resolve to a metric, skipped the number of those that are
    ignored, and the remaining ones are those strict resolution rejects;
    a text is among the errors exactly when it is the UNMAPPED message of a
    rejected point, there are no more errors than rejected points, and
    there is no error exactly when there is no rejected point. *)
Theorem perform_dry_run_validation_counts_every_point
  start_date end_date total valid skipped errors queried :
  perform_dry_run_validation start_date end_date
    = (Ok (total, valid, skipped, errors), queried) ->
  let points :=
    points_over query_day (generate_date_range start_date end_date) in
  queried = generate_date_range start_date end_date
  /\ total = Z.of_nat (length points)
  /\ valid = Z.of_nat (length (vm_points_of points))
  /\ skipped = Z.of_nat (skipped_of points)
  /\ total = valid + skipped + Z.of_nat (failing_of points)
  /\ (forall msg,
        msg ∈ errors
        <-> exists point,
              point ∈ points /\ rejected point
              /\ msg = unmapped_message point)
  /\ (length errors <= failing_of points)%nat
  /\ (errors = [] <-> failing_of points = O).
Proof.
  intros Hrun points. unfold migrate.perform_dry_run_validation in Hrun.
  pose proof (validate_days_returns
                (generate_date_range start_date end_date) _ []
                reported_at_the_start) as Hdays.
  destruct (validate_days _ _ _) as [[v|e] queried']; [|done].
  injection Hrun as <- <- <- <- <-.
  destruct Hdays as (-> & Hends & Hv & Ht & Hval & Hsk
                     & (extra & Herr & Hlen & Hall) & Hin).
  cbn [total_records valid_records skipped_records migrate.errors app] in *.
  fold points in Ht, Hval, Hsk, Hlen, Hall, Hin. subst extra.
  pose proof (points_are_valid_skipped_or_rejected points) as Hsum.
  assert (forall msg,
            msg ∈ migrate.errors v
            <-> exists point,
                  point ∈ points /\ rejected point
                  /\ msg = unmapped_message point) as Hmsgs.
  { intros msg. split.
    - intros Hmsg. by apply (proj1 (Forall_forall _ _) Hall).
    - intros (point & Hpoint & Hrej & ->). by apply Hin. }
  split_and!; try done; try lia.
  split.
  - intros Hnone. apply failing_of_zero, Forall_forall. intros point Hpoint Hrej.
    specialize (Hin point Hpoint Hrej). rewrite Hnone in Hin.
    by apply elem_of_nil in Hin.
  - intros Hzero. rewrite Hzero in Hlen. destruct (migrate.errors v); [done|].
    cbn in Hlen. lia.
Qed.


(** A writer in dry-run mode, or one whose destination accepts every POST,
    accepts every batch. *)
Lemma write_batch_returns_when_accepted w points :
  vm_writer._dry_run w = true \/ accepts_every_post session_post ->
  exists n w',
    write w points = (Ok n, w')
    /\ vm_writer._dry_run w' = vm_writer._dry_run w.
Proof.
  intros Hmode. unfold vm_writer.write_batch.
  destruct points as [|p points]; [by eexists _, _|].
  cbn [vm_writer.record_call vm_writer._dry_run vm_writer.posted].
  destruct (vm_writer._dry_run w) eqn:Hdry; [by eexists _, _|].
  destruct Hmode as [?|Hpost]; [done|].
  destruct (Hpost (length (vm_writer.posted w))
              (join nl (vm_writer.format_prometheus_line str_float
                          <$> p :: points)))
    as (status_code & text & -> & Hstatus).
  destruct (Z.leb_spec 400 status_code) as [?|_]; [lia|].
  by eexists _, _.
Qed.

Lemma migrate_day_loop_returns_when_accepted batch_size points :
  forall st w,
    vm_writer._dry_run w = true \/ accepts_every_post session_post ->
    Forall (fun point => ~ rejected point) points ->
    exists st' w',
      loop batch_size points st w = (Ok st', w')
      /\ vm_writer._dry_run w' = vm_writer._dry_run w.
Proof.
  induction points as [|point points IH]; intros st w Hmode Hall.
  - by eexists _, _.
  - apply Forall_cons in Hall as [Hpoint Hall].
    cbn [migrate_day_loop].
    destruct (strict point) as [[metric_name|]|e] eqn:Hstrict.
    + destruct (Z.leb batch_size _); [|by apply IH].
      destruct (write_batch_returns_when_accepted w
                  (batch st ++ [to_vm_point metric_name point]) Hmode)
        as (n & w1 & -> & Hdry1).
      edestruct IH as (st' & w' & -> & Hdry'); [|exact Hall|].
      * rewrite Hdry1. exact Hmode.
      * eexists _, _. split; [done | congruence].
    + by apply IH.
    + destruct Hpoint. by exists e.
Qed.

(** X21. A validation that reports no error clears the migration of its
    range: with a writer in dry-run mode, or a destination that accepts
    every POST, [migrate_day] returns for every day of the validated range,
    whatever the batch size, and accounts for every point of the day. *)
Theorem migrate_day_returns_after_a_clean_validation
  start_date end_date total valid skipped queried w day batch_size dry_run :
  perform_dry_run_validation start_date end_date
    = (Ok (total, valid, skipped, []), queried) ->
  vm_writer.is_dry_run w = true \/ accepts_every_post session_post ->
  start_date <= day <= end_date ->
  exists records batches skipped_in_day w',
    migrate_day w day batch_size dry_run
      = (Ok (records, batches, skipped_in_day), w')
    /\ records + skipped_in_day = Z.of_nat (length (query_day day).1).
Proof.
  unfold migrate.perform_dry_run_validation, vm_writer.is_dry_run.
  intros Hrun Hmode Hday.
  pose proof (validate_days_returns
                (generate_date_range start_date end_date) _ []
                reported_at_the_start) as Hdays.
  destruct (validate_days _ _ _) as [[v|e] queried']; [|done].
  injection Hrun as <- <- <- Herrors <-.
  destruct Hdays as (_ & Hends & _ & _ & _ & _ & _ & Hin).
  assert (day ∈ generate_date_range start_date end_date) as Hrange.
  { apply list_elem_of_lookup. exists (Z.to_nat (day - start_date)).
    unfold generate_date_range. apply dates_from_lookup. lia. }
  assert ((query_day day).2 = None) as Hend.
  { by apply (proj1 (Forall_forall _ _) Hends). }
  assert (Forall (fun point => ~ rejected point) (query_day day).1) as Hall.
  { apply Forall_forall. intros point Hpoint Hrej.
    assert (point ∈ points_over query_day
                      (generate_date_range start_date end_date)) as Hover.
    { by apply (elem_of_points_over point day). }
    specialize (Hin point Hover Hrej). rewrite Herrors in Hin.
    by apply elem_of_nil in Hin. }
  unfold migrate.migrate_day.
  destruct (query_day day) as [points stream_error]. cbn [fst snd] in *.
  subst stream_error.
  destruct (migrate_day_loop_returns_when_accepted batch_size points
              {| batch := []; records_count := 0; batches_sent := 0;
                 skipped_count := 0 |} w Hmode Hall)
    as (st & w1 & Hloop & Hdry1).
  rewrite Hloop.
  apply migrate_day_loop_returns in Hloop
    as (flushed & _ & _ & Hrec & Hskip & Hlen & _).
  cbn [records_count skipped_count] in *.
  destruct (batch st) as [|p held].
  { eexists _, _, _, _. split; [done | lia]. }
  destruct (write_batch_returns_when_accepted w1 (p :: held))
    as (n & w2 & -> & _).
  { by rewrite Hdry1. }
  eexists _, _, _, _. split; [done | lia].
Qed.

End validation.

(** ** migrate.py: the whole run *)

Section the_run.

Import migrate days runs.

Context (lower : string -> string).
Context (str_format : string -> string -> string -> string).
Context (str_float : float -> string).
Context (date_isoformat : progress.date -> string).
Context (date_fromisoformat strptime_date : string -> option progress.date).
Context (day_min_isoformat day_max_isoformat : progress.date -> string).
Context (timestamp_ms_of : Z -> Z).
Context (utcnow_isoformat utcnow_stamp : nat -> string).
Context (query_day : progress.date -> list InfluxDataPoint * option exn).
Context (load_schema : string -> result (mapping.schema * gset string)).
Context (connect_influx : option exn).
Context (session_post : nat -> string -> vm_writer.post_outcome).
Context (session_get : string -> vm_writer.get_outcome).

Local Abbreviation main :=
  (migrate.main lower str_format str_float date_isoformat date_fromisoformat
     strptime_date day_min_isoformat day_max_isoformat timestamp_ms_of
     utcnow_isoformat utcnow_stamp query_day load_schema connect_influx
     session_post session_get).
Local Abbreviation main_from_schema :=
  (migrate.main_from_schema lower str_format str_float date_isoformat
     date_fromisoformat strptime_date day_min_isoformat day_max_isoformat
     timestamp_ms_of utcnow_isoformat query_day load_schema connect_influx
     session_post session_get).
Local Abbreviation after_reset_flag :=
  (migrate.after_reset_flag utcnow_stamp).
Local Abbreviation loaded_by args t :=
  (progress.load (after_reset_flag args t).1).
Local Abbreviation migrate_dates :=
  (migrate.migrate_dates lower str_format str_float date_isoformat
     timestamp_ms_of utcnow_isoformat query_day session_post).
Local Abbreviation migrate_day :=
  (migrate.migrate_day lower str_format str_float timestamp_ms_of query_day
     session_post).
Local Abbreviation vm_points_of :=
  (migrate.vm_points_of lower str_format timestamp_ms_of).

(** What [migrate_day] returns, against the stream and against the writer. *)
Lemma migrate_day_returns_counts s known
  w day batch_size dry_run records batches skipped w' :
  migrate_day s known w day batch_size dry_run
    = (Ok (records, batches, skipped), w') ->
  vm_writer.points_written w' = vm_writer.points_written w + records
  /\ vm_writer.batches_sent w' = vm_writer.batches_sent w + batches
  /\ records = Z.of_nat (length (vm_points_of s known (query_day day).1))
  /\ (query_day day).2 = None.
Proof.
  unfold migrate.migrate_day.
  destruct (query_day day) as [points stream_error]. cbn [fst snd].
  destruct (migrate_day_loop _ _ _ _ _ _ _ _ _ _ w) as [[st|e] w1] eqn:Hloop;
    [|done].
  pose proof Hloop as Hcounts.
  apply migrate_day_loop_counts in Hcounts as (Hp & Hb & _).
  apply migrate_day_loop_returns in Hloop as (_ & _ & _ & Hrec & _).
  cbn [batch records_count batches_sent length] in *.
  destruct stream_error; [done|].
  destruct (batch st) as [|p held] eqn:Hheld.
  - intros [= <- <- <- <-]. cbn [length] in Hp. split_and!; [lia | lia | lia | done].
  - destruct (vm_writer.write_batch _ _ w1 (p :: held)) as [[n|e] w2] eqn:Hwrite;
      [|done].
    apply write_batch_returns_counts in Hwrite as (_ & Hpoints & Hbatches & _).
    intros [= <- <- <- <-]. split_and!; [lia | lia | lia | done].
Qed.

Lemma last_cons_from_option {A B} (f : A -> B) (x : A) (l : list A) (b : B) :
  from_option f b (last (x :: l)) = from_option f (f x) (last l).
Proof. rewrite last_cons. by destruct (last l). Qed.

(** The loop of [main] over the days. When it ends, every day was asked for
    and the checkpoint has the counts of the writer added; when a day fails,
    the days before it are completed, the checkpoint is marked failed with
    the message of the inner handler, and no later day was asked for. *)
Lemma migrate_dates_returns s known args dates :
  forall st r st',
    migrate_dates s known args dates st = (r, st') ->
    progress.backup_files (tracker st')
      = progress.backup_files (tracker st)
    /\ (dates <> []
        \/ progress.load (tracker st) = Some (checkpoint st) ->
        progress.load (tracker st') = Some (checkpoint st'))
    /\ match r with
       | Ok _ =>
           queried st' = queried st ++ dates
           /\ progress.records_migrated (checkpoint st')
                - vm_writer.points_written (writer st')
              = progress.records_migrated (checkpoint st)
                - vm_writer.points_written (writer st)
           /\ progress.batches_sent (checkpoint st')
                - vm_writer.batches_sent (writer st')
              = progress.batches_sent (checkpoint st)
                - vm_writer.batches_sent (writer st)
           /\ progress.records_migrated (checkpoint st')
              = progress.records_migrated (checkpoint st)
                + Z.of_nat (length (vm_points_of s known
                                      (points_over query_day dates)))
           /\ progress.errors (checkpoint st')
              = progress.errors (checkpoint st)
           /\ progress.last_migrated_date (checkpoint st')
              = from_option (fun day => Some (date_isoformat day))
                  (progress.last_migrated_date (checkpoint st)) (last dates)
           /\ Forall (fun day => (query_day day).2 = None) dates
       | Raise e =>
           exists before day after w,
             dates = before ++ day :: after
             /\ queried st' = queried st ++ before ++ [day]
             /\ progress.status (checkpoint st') = "failed"
             /\ progress.errors (checkpoint st')
                = progress.errors (checkpoint st)
                  ++ ["Failed on " +:+ date_isoformat day +:+ ": "
                      +:+ str_exn e]
             /\ progress.last_migrated_date (checkpoint st')
                = from_option (fun day => Some (date_isoformat day))
                    (progress.last_migrated_date (checkpoint st))
                    (last before)
             /\ progress.records_migrated (checkpoint st')
                = progress.records_migrated (checkpoint st)
                  + Z.of_nat (length (vm_points_of s known
                                        (points_over query_day before)))
             /\ migrate_day s known w day (batch_size args) (dry_run args)
                = (Raise e, writer st')
       end.
Proof.
  induction dates as [|day dates IH]; intros st r st' Hrun.
  - injection Hrun as <- <-. cbn. rewrite app_nil_r, Z.add_0_r.
    split_and!; try done. by intros [?|?].
  - cbn [migrate.migrate_dates] in Hrun.
    destruct (migrate_day s known (writer st) day _ _)
      as [[[[records batches] skipped]|e] w] eqn:Hday.
    + cbn [progress.update progress.save] in Hrun.
      apply IH in Hrun as (Hbackups & Hload & Hrest).
      cbn [tracker checkpoint queried writer progress.backup_files] in *.
      apply migrate_day_returns_counts in Hday as (Hp & Hb & Hrec & Hend).
      split_and!; [done | |].
      { intros _. destruct dates as [|d dates].
        - apply Hload. right. apply from_dict_to_dict.
        - apply Hload. by left. }
      destruct r as [[]|e].
      * destruct Hrest as (Hq & Hrm & Hbs & Hcount & Herr & Hlast & Hends).
        cbn [progress.set_last_updated progress.records_migrated
               progress.batches_sent progress.errors
               progress.last_migrated_date] in *.
        rewrite last_cons_from_option, points_over_cons, vm_points_of_app,
          length_app.
        split_and!; try done; try lia.
        -- by rewrite Hq, <- app_assoc.
        -- by constructor.
      * destruct Hrest as (before & d & after & w0 & -> & Hq & Hst & Herr
                           & Hlast & Hcount & Hfail).
        cbn [progress.set_last_updated progress.records_migrated
               progress.batches_sent progress.errors
               progress.last_migrated_date] in *.
        exists (day :: before), d, after, w0.
        rewrite last_cons_from_option, points_over_cons, vm_points_of_app,
          length_app.
        split_and!; try done; try lia.
        by rewrite Hq, <- !app_assoc.
    + cbn [progress.mark_failed progress.save] in Hrun.
      injection Hrun as <- <-.
      cbn [tracker checkpoint queried writer progress.backup_files]. 
      split_and!; [done | |].
      { intros _. apply from_dict_to_dict. }
      exists [], day, dates, (writer st). cbn. rewrite Z.add_0_r.
      by split_and!.
Qed.

(** A terminal checkpoint ends the run at once. *)
Lemma main_stops_on_terminal args t p :
  loaded_by args t = Some p ->
  (progress.status p = "completed" ->
   main args t = stopped_at 0 (after_reset_flag args t).1)
  /\ (progress.status p = "failed" ->
      main args t = stopped_at 1 (after_reset_flag args t).1).
Proof.
  unfold migrate.main.
  destruct (after_reset_flag args t) as [t0 clock]. cbn [fst].
  intros ->. split; by intros ->.
Qed.

(** The ways of [main]: it stops at a terminal checkpoint; or it stops
    because the schema, the source or the dates fail it; or it has a
    checkpoint [p1] in the directory [t1] and a writer [w0], and then fails
    the health check, fails to read the last completed day, validates, or
    migrates. *)
Lemma main_cases args t :
  let t0 := (after_reset_flag args t).1 in
  let loaded := progress.load t0 in
  let r := main args t in
  (r = stopped_at 0 t0
   /\ exists p, loaded = Some p /\ progress.status p = "completed")
  \/ (r = stopped_at 1 t0
      /\ exists p, loaded = Some p /\ progress.status p = "failed")
  \/ (r = stopped_at 1 t0
      /\ ((exists e, load_schema (vm_url args) = Raise e)
          \/ (exists e, connect_influx = Some e)
          \/ strptime_date (start_date args) = None
          \/ strptime_date (end_date args) = None))
  \/ exists s known start end_ t1 clock1 p1 w0,
       load_schema (vm_url args) = Ok (s, known)
       /\ strptime_date (start_date args) = Some start
       /\ strptime_date (end_date args) = Some end_
       /\ w0 = vm_writer.__init__ (vm_url args) (dry_run args)
                 (batch_size args)
       /\ progress.load t1 = Some p1
       /\ progress.backup_files t1 = progress.backup_files t0
       /\ progress.records_migrated p1 = records_before loaded
       /\ progress.batches_sent p1 = batches_before loaded
       /\ progress.errors p1 = errors_before loaded
       /\ progress.last_migrated_date p1 = last_date_before loaded
       /\ connect_influx = None
       /\ progress.status p1 <> "completed"
       /\ progress.status p1 <> "failed"
       /\ ((dry_run args = false
            /\ vm_writer.health_check session_get w0 = false
            /\ r = {| exit := Ok 1; tracker_after := t1; days_queried := [];
                      writer_after := Some w0 |})
           \/ (first_day_left date_fromisoformat loaded start = None
               /\ r = {| exit := Raise (ValueError "Invalid isoformat string");
                         tracker_after := t1; days_queried := [];
                         writer_after := Some w0 |})
           \/ exists first,
                first_day_left date_fromisoformat loaded start = Some first
                /\ ((dry_run args = true
                     /\ r = match
                              perform_dry_run_validation lower query_day
                                s known first end_
                            with
                            | (Ok (_, _, _, errors), days) =>
                                {| exit :=
                                     Ok (if errors is [] then 0 else 1);
                                   tracker_after := t1;
                                   days_queried := days;
                                   writer_after := Some w0 |}
                            | (Raise e, days) =>
                                {| exit := Ok 1;
                                   tracker_after :=
                                     (progress.mark_failed t1
                                        (utcnow_isoformat clock1) p1
                                        (str_exn e)).1;
                                   days_queried := days;
                                   writer_after := Some w0 |}
                            end)
                    \/ (dry_run args = false
                        /\ exists res st,
                             migrate_dates s known args
                               (generate_date_range first end_)
                               {| tracker := t1; clock_reads := clock1;
                                  checkpoint := p1; queried := [];
                                  writer := w0; total_skipped := 0 |}
                             = (res, st)
                             /\ r = match res with
                                    | Ok _ =>
                                        {| exit := Ok 0;
                                           tracker_after :=
                                             (progress.mark_completed
                                                (tracker st)
                                                (utcnow_isoformat
                                                   (clock_reads st))
                                                (checkpoint st)).1;
                                           days_queried := queried st;
                                           writer_after :=
                                             Some (writer st) |}
                                    | Raise e =>
                                        {| exit := Ok 1;
                                           tracker_after :=
                                             (progress.mark_failed
                                                (tracker st)
                                                (utcnow_isoformat
                                                   (clock_reads st))
                                                (checkpoint st)
                                                (str_exn e)).1;
                                           days_queried := queried st;
                                           writer_after :=
                                             Some (writer st) |}
                                    end))).
Proof.
  intros t0 loaded r. subst t0 loaded r. unfold migrate.main.
  destruct (after_reset_flag args t) as [t0 clock] eqn:Hreset. cbn [fst].
  destruct (progress.load t0) as [p0|] eqn:Hload.
  - destruct (String.eqb_spec (progress.status p0) "completed")
      as [Hdone|Hnotdone].
    { left. split; [done | by exists p0]. }
    destruct (String.eqb_spec (progress.status p0) "failed")
      as [Hfailed|Hnotfailed].
    { right; left. split; [done | by exists p0]. }
    right; right. unfold migrate.main_from_schema.
    destruct (load_schema _) as [[s known]|e] eqn:Hschema;
      [|left; split; [done | left; by exists e]].
    destruct connect_influx as [e|];
      [left; split; [done | right; left; by exists e]|].
    destruct (strptime_date (start_date args)) as [start|] eqn:Hstart;
      [|left; split; [done | by right; right; left]].
    destruct (strptime_date (end_date args)) as [end_|] eqn:Hend;
      [|left; split; [done | by right; right; right]].
    right. exists s, known, start, end_, t0, clock, p0. eexists.
    split_and!; try done.
    destruct (dry_run args) eqn:Hmode; cbn [negb andb].
    + right. unfold first_day_left. cbn [last_date_before].
      destruct (truthy _).
      * destruct (date_fromisoformat _) as [resume_date|];
          [|left; by split].
        right. exists (resume_date + 1). split; [done|]. left. split; [done|].
        destruct (perform_dry_run_validation _ _ _ _ _ _)
          as [[[[[total valid] skipped] errors]|e] days]; [|done].
        by destruct errors.
      * right. exists start. split; [done|]. left. split; [done|].
        destruct (perform_dry_run_validation _ _ _ _ _ _)
          as [[[[[total valid] skipped] errors]|e] days]; [|done].
        by destruct errors.
    + destruct (vm_writer.health_check _ _) eqn:Hhealth; cbn [negb];
        [|left; by split_and!].
      right. unfold first_day_left. cbn [last_date_before].
      destruct (truthy _).
      * destruct (date_fromisoformat _) as [resume_date|];
          [|left; by split].
        right. exists (resume_date + 1). split; [done|]. right. split; [done|].
        destruct (migrate_dates s known args _ _) as [res st] eqn:Hrun.
        exists res, st. split; [done|]. by destruct res.
      * right. exists start. split; [done|]. right. split; [done|].
        destruct (migrate_dates s known args _ _) as [res st] eqn:Hrun.
        exists res, st. split; [done|]. by destruct res.
  - right; right. unfold migrate.main_from_schema.
    destruct (load_schema _) as [[s known]|e] eqn:Hschema;
      [|left; split; [done | left; by exists e]].
    destruct connect_influx as [e|];
      [left; split; [done | right; left; by exists e]|].
    destruct (strptime_date (start_date args)) as [start|] eqn:Hstart;
      [|left; split; [done | by right; right; left]].
    destruct (strptime_date (end_date args)) as [end_|] eqn:Hend;
      [|left; split; [done | by right; right; right]].
    right.
    pose (progress.create_new (utcnow_isoformat clock) 55000000
            (day_min_isoformat start) (day_max_isoformat end_)
            (dry_run args)) as fresh.
    exists s, known, start, end_,
      (progress.save t0 (utcnow_isoformat (S clock)) fresh).1,
      (S (S clock)),
      (progress.save t0 (utcnow_isoformat (S clock)) fresh).2.
    eexists. split_and!; try done.
    subst fresh. cbn [progress.save fst snd].
    destruct (dry_run args) eqn:Hmode; cbn [negb andb].
    + right; right. exists start. split; [done|]. left. split; [done|].
      cbn [truthy progress.set_last_updated progress.create_new
             progress.last_migrated_date].
      destruct (perform_dry_run_validation _ _ _ _ _ _)
        as [[[[[total valid] skipped] errors]|e] days]; [|done].
      by destruct errors.
    + destruct (vm_writer.health_check _ _) eqn:Hhealth; cbn [negb];
        [|left; by split_and!].
      right; right. exists start. split; [done|]. right. split; [done|].
      cbn [truthy progress.set_last_updated progress.create_new
             progress.last_migrated_date].
      destruct (migrate_dates s known args _ _) as [res st] eqn:Hrun.
      exists res, st. split; [done|]. by destruct res.
Qed.

Ltac run_cases args t :=
  let H := fresh "Hcases" in
  pose proof (main_cases args t) as H; cbv zeta in H;
  destruct H
    as [(Hr & p0 & Hloaded & Hstatus)
       |[(Hr & p0 & Hloaded & Hstatus)
        |[(Hr & Hsetup)
         |(s & known & start & end_ & t1 & clock1 & p1 & w0 & Hschema
           & Hstart & Hend & Hw0 & Hload1 & Hbackup & Hrec & Hbat & Herr
           & Hlast & Hconn & Hnotdone & Hnotfailed
           & [(Hmode' & Hhealth & Hr)
             |[(Hfirst & Hr)
              |(first & Hfirst
                & [(Hmode' & Hr)|(Hmode' & res & st & Hrun & Hr)])]])]]].

(** X22. The days a run asks the source for are the days it has left, in
    order and without a gap: they start at the day after the last completed
    day of the checkpoint it loaded (at the start date when there is none),
    never pass the end date, and are all of them when the run returns 0. *)
Theorem main_asks_for_the_days_left args t :
  days_queried (main args t) <> [] ->
  exists start end_ first,
    strptime_date (start_date args) = Some start
    /\ strptime_date (end_date args) = Some end_
    /\ first_day_left date_fromisoformat (loaded_by args t) start
       = Some first
    /\ days_queried (main args t) `prefix_of` generate_date_range first end_
    /\ (exit (main args t) = Ok 0 ->
        days_queried (main args t) = generate_date_range first end_).
Proof.
  run_cases args t; rewrite Hr; try done.
  - (* validation *)
    intros Hdays. exists start, end_, first. split_and!; try done;
      revert Hdays; unfold migrate.perform_dry_run_validation;
      pose proof (validate_days_returns lower str_format timestamp_ms_of
                    query_day s known
                    (generate_date_range first end_) _ []
                    reported_at_the_start) as Hv;
      destruct (validate_days _ _ _ _ _ _ _) as [[v|e] days].
    + destruct Hv as (-> & _). by destruct v as [? ? ? errs ?].
    + destruct Hv as (before & day & after & -> & _ & _ & ->).
      intros _. exists after. cbn [app days_queried].
      by rewrite <- app_assoc.
    + destruct Hv as (-> & _). by destruct v as [? ? ? errs ?].
    + done.
  - (* migration *)
    apply migrate_dates_returns in Hrun as (_ & _ & Hres).
    intros Hdays. exists start, end_, first. split_and!; try done.
    + destruct res as [[]|e].
      * destruct Hres as (-> & _). done.
      * destruct Hres as (before & day & after & w & -> & -> & _).
        exists after. cbn [app days_queried queried].
        by rewrite <- app_assoc.
    + destruct res as [[]|e]; [|done]. by destruct Hres as (-> & _).
Qed.

(** X23. A dry run writes nothing: the writer it constructs is never
    handed a batch, no backup is made or lost, and the checkpoint it leaves
    has the counters and the last completed day the run started from; the
    run never marks it completed. *)
Theorem dry_run_leaves_the_migration_where_it_was args t :
  dry_run args = true ->
  let r := main args t in
  let loaded := loaded_by args t in
  (forall w,
     writer_after r = Some w ->
     vm_writer.posted w = [] /\ vm_writer.write_batch_calls w = []
     /\ vm_writer.points_written w = 0 /\ vm_writer.batches_sent w = 0)
  /\ progress.backup_files (tracker_after r)
     = progress.backup_files (after_reset_flag args t).1
  /\ (forall p,
        progress.load (tracker_after r) = Some p ->
        progress.records_migrated p = records_before loaded
        /\ progress.batches_sent p = batches_before loaded
        /\ progress.last_migrated_date p = last_date_before loaded
        /\ (progress.status p = "completed" ->
            exists p0,
              loaded = Some p0 /\ progress.status p0 = "completed")).
Proof.
  intros Hmode r loaded. subst r loaded.
  assert (forall p,
            loaded_by args t = Some p ->
            progress.records_migrated p = records_before (loaded_by args t)
            /\ progress.batches_sent p = batches_before (loaded_by args t)
            /\ progress.last_migrated_date p
               = last_date_before (loaded_by args t)
            /\ (progress.status p = "completed" ->
                exists p0,
                  loaded_by args t = Some p0
                  /\ progress.status p0 = "completed")) as Hsame.
  { intros p ->. split_and!; try done. intros ?. by exists p. }
  assert (forall w,
            Some (vm_writer.__init__ (vm_url args) (dry_run args)
                    (batch_size args)) = Some w ->
            vm_writer.posted w = [] /\ vm_writer.write_batch_calls w = []
            /\ vm_writer.points_written w = 0
            /\ vm_writer.batches_sent w = 0) as Hwriter.
  { by intros w [= <-]. }
  run_cases args t; rewrite Hr; try congruence;
    try (split_and!; [done | done | exact Hsame]); subst w0.
  - split_and!; [done | done |]. cbn [tracker_after].
    intros p Hp. rewrite Hload1 in Hp. injection Hp as <-. by split_and!.
  - destruct (perform_dry_run_validation _ _ _ _ _ _)
      as [[[[[total valid] skipped] errors]|e] days];
      cbn [tracker_after writer_after].
    + split_and!; [done | done |].
      intros p Hp. rewrite Hload1 in Hp. injection Hp as <-. by split_and!.
    + split_and!; [done | done |].
      intros p Hp. unfold progress.mark_failed in Hp.
      rewrite load_save in Hp. injection Hp as <-. by split_and!.
Qed.

(** Without the reset flag the run starts from the directory as it is. *)
Lemma after_reset_flag_without_reset args t :
  migrate.reset args = false -> (after_reset_flag args t).1 = t.
Proof. unfold migrate.after_reset_flag. by intros ->. Qed.

(** X24. A production run that returns 0 leaves a completed checkpoint
    with the error log it started from. Unless it stopped at once at a
    completed checkpoint, it asked for every day it had left, the last of
    them is the last completed day, and the counters of the checkpoint are
    those it started from plus those of the writer. Run again without the
    reset flag, [main] returns 0 and does nothing. *)
Theorem production_run_that_returns_0 args t :
  dry_run args = false ->
  exit (main args t) = Ok 0 ->
  let r := main args t in
  let loaded := loaded_by args t in
  exists p,
    progress.load (tracker_after r) = Some p
    /\ progress.status p = "completed"
    /\ progress.errors p = errors_before loaded
    /\ match writer_after r with
       | Some w =>
           progress.records_migrated p
           = records_before loaded + vm_writer.points_written w
           /\ progress.batches_sent p
              = batches_before loaded + vm_writer.batches_sent w
           /\ progress.last_migrated_date p
              = last_date_after date_isoformat loaded (days_queried r)
           /\ Forall (fun day => (query_day day).2 = None) (days_queried r)
       | None => loaded = Some p /\ days_queried r = []
       end
    /\ forall args',
         migrate.reset args' = false ->
         main args' (tracker_after r) = stopped_at 0 (tracker_after r).
Proof.
  intros Hmode Hexit r loaded. subst r loaded. revert Hexit.
  run_cases args t; rewrite Hr; try done; try congruence.
  - (* a completed checkpoint *)
    intros _. exists p0. cbn [stopped_at tracker_after writer_after
                               days_queried].
    split_and!; try done; [by rewrite Hloaded|].
    intros args' Hflag.
    destruct (main_stops_on_terminal args' (after_reset_flag args t).1 p0)
      as [Hstop _]; [by rewrite after_reset_flag_without_reset|].
    rewrite Hstop by done. by rewrite after_reset_flag_without_reset.
  - (* the migration *)
    apply migrate_dates_returns in Hrun as (_ & Hsaved & Hres).
    destruct res as [[]|e]; [|done].
    destruct Hres as (Hq & Hrm & Hbs & _ & Herrs & Hdate & Hends).
    subst w0. intros _.
    cbn [progress.mark_completed progress.save fst tracker_after
           writer_after days_queried tracker checkpoint queried writer] in *.
    eexists. split; [apply from_dict_to_dict|].
    unfold vm_writer.points_written, vm_writer.batches_sent in *.
    cbn [progress.set_last_updated progress.status progress.errors
           progress.records_migrated progress.batches_sent
           progress.last_migrated_date vm_writer.__init__
           vm_writer._points_written vm_writer._batches_sent] in *.
    split_and!; try done; try congruence; try lia.
    + rewrite Hdate, Hlast, Hq. unfold last_date_after. cbn [app].
      by destruct (last _).
    + by rewrite Hq.
    + intros args' Hflag.
      match goal with
      | |- main _ ?t' = _ =>
          edestruct (main_stops_on_terminal args' t') as [Hstop _]
      end.
      { rewrite after_reset_flag_without_reset by done.
        apply from_dict_to_dict. }
      rewrite Hstop by done. by rewrite after_reset_flag_without_reset.
Qed.

(** X25. A production run that fails on a day leaves a failed checkpoint:
    the day is the last one asked for, the days before it are completed
    and counted, the error log has grown by two entries, the message of
    the day and the message of the run, and run again without the reset
    flag, [main] returns 1 and does nothing. *)
Theorem production_run_that_fails_on_a_day args t :
  dry_run args = false ->
  days_queried (main args t) <> [] ->
  exit (main args t) = Ok 1 ->
  let r := main args t in
  let loaded := loaded_by args t in
  exists s known p completed day e,
    load_schema (vm_url args) = Ok (s, known)
    /\ days_queried r = completed ++ [day]
    /\ progress.load (tracker_after r) = Some p
    /\ progress.status p = "failed"
    /\ progress.errors p
       = errors_before loaded
         ++ ["Failed on " +:+ date_isoformat day +:+ ": " +:+ str_exn e;
             str_exn e]
    /\ progress.last_migrated_date p
       = last_date_after date_isoformat loaded completed
    /\ progress.records_migrated p
       = records_before loaded
         + Z.of_nat (length (vm_points_of s known
                               (points_over query_day completed)))
    /\ forall args',
         migrate.reset args' = false ->
         main args' (tracker_after r) = stopped_at 1 (tracker_after r).
Proof.
  intros Hmode Hdays Hexit r loaded. subst r loaded. revert Hdays Hexit.
  run_cases args t; rewrite Hr; try done; try congruence.
  apply migrate_dates_returns in Hrun as (_ & _ & Hres).
  destruct res as [[]|e]; [done|].
  destruct Hres as (completed & day & after & w & _ & Hq & _ & Herrs & Hdate
                    & Hcount & _).
  intros _ _. exists s, known. eexists. exists completed, day, e.
  cbn [progress.mark_failed progress.save fst tracker_after days_queried
         tracker checkpoint queried] in *.
  split_and!; [done | by rewrite Hq | apply from_dict_to_dict | ..];
    cbn [progress.set_last_updated progress.status progress.errors
           progress.records_migrated progress.last_migrated_date].
  - done.
  - by rewrite Herrs, Herr, <- app_assoc.
  - rewrite Hdate, Hlast. unfold last_date_after. by destruct (last _).
  - by rewrite Hcount, Hrec.
  - intros args' Hflag.
    match goal with
    | |- main _ ?t' = _ =>
        edestruct (main_stops_on_terminal args' t') as [_ Hstop]
    end.
    { rewrite after_reset_flag_without_reset by done.
      apply from_dict_to_dict. }
    rewrite Hstop by done. by rewrite after_reset_flag_without_reset.
Qed.


(** X27. When the schema cannot be loaded, the source cannot be reached or
    one of the two dates does not parse, [main] stops before it creates a
    checkpoint or a writer: it leaves the directory as it was after the
    reset step, asks for no day, and returns 1, unless the checkpoint was
    already completed and it returned 0 before it came to any of this. *)
Theorem setup_failure_stops_before_the_checkpoint args t :
  (exists e, load_schema (vm_url args) = Raise e)
  \/ (exists e, connect_influx = Some e)
  \/ strptime_date (start_date args) = None
  \/ strptime_date (end_date args) = None ->
  main args t
  = stopped_at
      (match loaded_by args t with
       | Some p =>
           if String.eqb (progress.status p) "completed" then 0 else 1
       | None => 1
       end)
      (after_reset_flag args t).1.
Proof.
  intros Hfails. unfold migrate.main.
  destruct (after_reset_flag args t) as [t0 clock]. cbn [fst].
  assert (main_from_schema args t0 clock (progress.load t0)
          = stopped_at 1 t0) as Hstop.
  { unfold migrate.main_from_schema.
    destruct (load_schema _) as [[s known]|e]; [|done].
    destruct connect_influx as [e|]; [done|].
    destruct (strptime_date (start_date args)); [|done].
    destruct (strptime_date (end_date args)); [|done].
    by destruct Hfails as [[e ?]|[[e ?]|[?|?]]]. }
  destruct (progress.load t0) as [p|] eqn:Hload; [|done].
  destruct (String.eqb (progress.status p) "completed"); [done|].
  by destruct (String.eqb (progress.status p) "failed").
Qed.

End the_run.

(** ** influx_reader.py *)

Section reader.

Import migrate influx_reader.

Context (start_str end_str : string).

Local Abbreviation query_range :=
  (influx_reader.query_range start_str end_str).

(** Every domain has the field [value], unless fields were given. *)
Lemma value_is_a_field_of_every_domain self domain :
  list_truthy (fields self) = false ->
  "value" ∈ _get_fields_for_domain self domain.
Proof.
  unfold _get_fields_for_domain. intros ->.
  destruct (use_extended_fields self && truthy domain);
    [|by left].
  unfold EXTENDED_FIELDS.
  destruct (_ !! _) as [domain_fields|] eqn:Hlookup;
    [|by left].
  apply lookup_insert_Some in Hlookup as [[_ <-]|[_ Hlookup]]; [by left|].
  apply lookup_insert_Some in Hlookup as [[_ <-]|[_ Hlookup]]; [by left|].
  apply lookup_singleton_Some in Hlookup as [_ <-]. by left.
Qed.

Lemma point_of_friendly_name record v :
  friendly_name (point_of record v) = EmptyString ->
  entity_id (point_of record v) = EmptyString.
Proof.
  unfold point_of. cbn [friendly_name entity_id].
  destruct (values record !! "friendly_name") as [name|]; cbn [truthy];
    [|done].
  destruct (String.eqb_spec name EmptyString) as [->|Hname]; cbn [negb];
    [done | by cbn].
Qed.

(** X28. What [query_range] yields. Every point it yields is made from a
    record of the stream whose value is a float, with [unknown] for a
    missing domain or entity tag, and never with an empty friendly name
    unless the entity id is empty too. With extended fields, the field of
    every point is one of its domain's. Without them no record is dropped:
    when the generator ends normally it has yielded one point per record.
    A record on the field [value] is never dropped, unless fields were
    given. And the generator raises nothing but [QueryError]. *)
Theorem query_range_yields_the_records_of_valid_fields
  self records stream_error :
  let points := (query_range self records stream_error).1 in
  let error := (query_range self records stream_error).2 in
  (forall p,
     p ∈ points ->
     exists record v,
       record ∈ records /\ get_value record = inl v
       /\ p = point_of record v
       /\ domain p = default "unknown" (values record !! "domain")
       /\ entity_id p = default "unknown" (values record !! "entity_id")
       /\ (friendly_name p = EmptyString -> entity_id p = EmptyString)
       /\ (use_extended_fields self = true ->
           field p ∈ _get_fields_for_domain self (Some (domain p))))
  /\ (length points <= length records)%nat
  /\ (use_extended_fields self = false -> error = None ->
      length points = length records)
  /\ (list_truthy (fields self) = false -> error = None ->
      forall record v,
        record ∈ records -> get_field record = "value" ->
        get_value record = inl v ->
        point_of record v ∈ points)
  /\ (forall e, error = Some e -> exists msg, e = QueryError msg).
Proof.
  induction records as [|record records IH]; intros points error;
    subst points error.
  - cbn. split_and!; try done.
    + by intros p ?%elem_of_nil.
    + by intros _ _ record v ?%elem_of_nil.
    + destruct stream_error; intros e [= <-]. by eexists.
  - cbn zeta in IH. destruct IH as (Hfrom & Hlen & Hall & Hvalue & Herror).
    cbn [influx_reader.query_range].
    destruct (use_extended_fields self) eqn:Hext; cbn [andb].
    + destruct (bool_decide _) eqn:Hvalid; cbn [negb].
      * apply bool_decide_eq_true in Hvalid.
        destruct (get_value record) as [v|e] eqn:Hv.
        -- destruct (query_range self records stream_error)
             as [points error] eqn:Hrest.
           cbn [fst snd length] in *. split_and!; try done; try lia.
           ++ intros p [->|Hp]%elem_of_cons.
              ** exists record, v.
                 split_and!; try done; [by left|].
                 apply point_of_friendly_name.
              ** destruct (Hfrom p Hp) as (r & x & ? & ? & ? & ? & ? & ? & ?).
                 exists r, x. split_and!; try done. by right.
           ++ intros Hfields Hnone r x [->|Hr]%elem_of_cons Hfield Hx.
              ** rewrite Hv in Hx. injection Hx as <-. by left.
              ** right. by apply Hvalue.
        -- cbn [fst snd length]. split_and!; try done; try lia.
           ++ by intros p ?%elem_of_nil.
           ++ intros e' [= <-]. by eexists.
      * apply bool_decide_eq_false in Hvalid.
        split_and!; try done.
        -- intros p Hp.
           destruct (Hfrom p Hp) as (r & x & ? & ? & ? & ? & ? & ? & ?).
           exists r, x. split_and!; try done. by right.
        -- cbn [length]. lia.
        -- intros Hfields Hnone r x [->|Hr]%elem_of_cons Hfield Hx;
             [|by apply Hvalue].
           destruct Hvalid. rewrite Hfield.
           by apply value_is_a_field_of_every_domain.
    + destruct (get_value record) as [v|e] eqn:Hv.
      * destruct (query_range self records stream_error)
          as [points error] eqn:Hrest.
        cbn [fst snd length] in *. split_and!; try done; try lia.
        -- intros p [->|Hp]%elem_of_cons.
           ++ exists record, v.
              split_and!; try done; [by left|].
              apply point_of_friendly_name.
           ++ destruct (Hfrom p Hp) as (r & x & ? & ? & ? & ? & ? & ? & ?).
              exists r, x. split_and!; try done. by right.
        -- intros _ Hnone. f_equal. by apply Hall.
        -- intros Hfields Hnone r x [->|Hr]%elem_of_cons Hfield Hx.
           ++ rewrite Hv in Hx. injection Hx as <-. by left.
           ++ right. by apply Hvalue.
      * cbn [fst snd length]. split_and!; try done; try lia.
        -- by intros p ?%elem_of_nil.
        -- intros e' [= <-]. by eexists.
Qed.

End reader.

(** ** migrate_hvac_action.py *)

Section hvac.

Import migrate_hvac_action.

Context (str_float : float -> string).
Context (timestamp_ms_of : Z -> Z).
Context (session_post : nat -> string -> vm_writer.post_outcome).

Local Abbreviation build_vm_datapoints :=
  (migrate_hvac_action.build_vm_datapoints timestamp_ms_of).
Local Abbreviation datapoint_for :=
  (migrate_hvac_action.datapoint_for timestamp_ms_of).
Local Abbreviation day_loop :=
  (migrate_hvac_action.day_loop str_float timestamp_ms_of session_post).
Local Abbreviation migrate_one_day :=
  (migrate_hvac_action.migrate_one_day str_float timestamp_ms_of
     session_post).
Local Abbreviation write := (vm_writer.write_batch str_float session_post).

Lemma one_is_not_zero : 1%float <> 0%float.
Proof.
  intros Heq.
  assert (PrimFloat.eqb 1 1 = PrimFloat.eqb 0 1) as Hb by (by rewrite Heq).
  vm_compute in Hb. discriminate Hb.
Qed.

Lemma datapoint_for_value point a :
  (vm_writer.value (datapoint_for point a) = 1%float <-> a = action point)
  /\ (vm_writer.value (datapoint_for point a) = 0%float
      <-> a <> action point).
Proof.
  cbn [migrate_hvac_action.datapoint_for vm_writer.value].
  destruct (String.eqb_spec a (action point)) as [Heq|Hne].
  - split; [done|]. split; [|done].
    intros Hone. by apply one_is_not_zero in Hone.
  - split; [|done]. split; [|done].
    intros Hzero. symmetry in Hzero. by apply one_is_not_zero in Hzero.
Qed.

Lemma active_cons p points :
  active (p :: points)
  = if PrimFloat.eqb (vm_writer.value p) 1 then p :: active points
    else active points.
Proof.
  unfold active. destruct (PrimFloat.eqb (vm_writer.value p) 1) eqn:Hp.
  - by rewrite filter_cons_True.
  - rewrite filter_cons_False; [done|]. by rewrite Hp.
Qed.

Lemma active_datapoints point actions :
  NoDup actions ->
  length (active (datapoint_for point <$> actions))
  = if bool_decide (action point ∈ actions) then 1%nat else 0%nat.
Proof.
  induction 1 as [|a actions Hnotin Hnodup IH]; [done|].
  cbn [fmap list_fmap]. rewrite active_cons.
  cbn [migrate_hvac_action.datapoint_for vm_writer.value].
  destruct (String.eqb_spec a (action point)) as [Heq|Hne].
  - replace (PrimFloat.eqb 1 1) with true by (by vm_compute).
    cbn [length]. rewrite IH. subst a.
    rewrite (bool_decide_eq_false_2 (action point ∈ actions)) by done.
    rewrite bool_decide_eq_true_2; [done | by left].
  - replace (PrimFloat.eqb 0 1) with false by (by vm_compute).
    rewrite IH.
    rewrite (bool_decide_ext (action point ∈ actions)
               (action point ∈ a :: actions)); [done|].
    split; [by right|]. by intros [?|?]%elem_of_cons.
Qed.

(** X29. [build_vm_datapoints] is one-hot. It makes eight points of the
    metric [homeassistant_climate_action] at the time of the record, one
    per known action and in that order; the point whose [action] label is
    the action of the record has the value 1 and every other one the value
    0; so exactly one point is 1 when the action is a known one, and none
    is when it is not. *)
Theorem build_vm_datapoints_is_one_hot (point : HvacActionPoint) :
  length (build_vm_datapoints point) = 8%nat
  /\ (fun p => dicts.dict_lookup "action" (vm_writer.labels p))
       <$> build_vm_datapoints point
     = Some <$> ALL_HVAC_ACTIONS
  /\ Forall (fun p =>
               vm_writer.metric_name p = "homeassistant_climate_action"
               /\ vm_writer.timestamp_ms p
                  = timestamp_ms_of (timestamp point)
               /\ dicts.dict_lookup "entity" (vm_writer.labels p)
                  = Some ("climate." +:+ entity_id point)
               /\ (vm_writer.value p = 1%float
                   <-> dicts.dict_lookup "action" (vm_writer.labels p)
                       = Some (action point))
               /\ (vm_writer.value p = 0%float
                   <-> dicts.dict_lookup "action" (vm_writer.labels p)
                       <> Some (action point)))
       (build_vm_datapoints point)
  /\ length (active (build_vm_datapoints point))
     = if bool_decide (action point ∈ ALL_HVAC_ACTIONS) then 1%nat
       else 0%nat.
Proof.
  split_and!.
  - done.
  - done.
  - unfold migrate_hvac_action.build_vm_datapoints.
    apply Forall_fmap, Forall_forall. intros a _.
    destruct (datapoint_for_value point a) as [Hone Hzero].
    cbn [migrate_hvac_action.datapoint_for vm_writer.metric_name
           vm_writer.timestamp_ms vm_writer.labels dicts.dict_lookup
           String.eqb Ascii.eqb Bool.eqb] in *.
    split_and!; try done.
    + rewrite Hone. split; [by intros -> | by intros [= ->]].
    + rewrite Hzero. split; [by intros ? [= ->] | intros Hne ->; by apply Hne].
  - apply active_datapoints. unfold ALL_HVAC_ACTIONS.
    apply (bool_decide_unpack _). by vm_compute.
Qed.

(** [query_hvac_action] yields one point per record whose value is a text
    that is not empty, with the action in lower case, and nothing for the
    other records. *)
Lemma query_hvac_action_keeps_the_text_actions lower records :
  Forall (fun p =>
            exists record text,
              record ∈ records
              /\ get_value record = Some text /\ text <> EmptyString
              /\ action p = lower text
              /\ timestamp p = get_time record
              /\ entity_id p
                 = default "unknown" (values record !! "entity_id")
              /\ friendly_name p
                 = default (entity_id p) (values record !! "friendly_name"))
    (query_hvac_action lower records)
  /\ length (query_hvac_action lower records)
     = length (filter (fun record => truthy (get_value record) = true)
                 records).
Proof.
  induction records as [|record records [IHall IHlen]]; [done|].
  cbn [migrate_hvac_action.query_hvac_action].
  destruct (get_value record) as [text|] eqn:Hvalue; cbn [truthy negb].
  - destruct (String.eqb_spec text EmptyString) as [->|Htext]; cbn [negb].
    + rewrite filter_cons_False by (by rewrite Hvalue). split; [|done].
      eapply Forall_impl; [exact IHall|].
      intros p (r & x & ? & ?). exists r, x. split; [by right | done].
    + rewrite filter_cons_True
        by (rewrite Hvalue; cbn; by destruct (String.eqb_spec text "")).
      split; [|by cbn; rewrite IHlen].
      constructor.
      * exists record, text. cbn. split_and!; try done. by left.
      * eapply Forall_impl; [exact IHall|].
        intros p (r & x & ? & ?). exists r, x. split; [by right | done].
  - rewrite filter_cons_False by (by rewrite Hvalue). split; [|done].
    eapply Forall_impl; [exact IHall|].
    intros p (r & x & ? & ?). exists r, x. split; [by right | done].
Qed.

(** The loop over the points of a day, when it runs to their end. *)
Lemma day_loop_returns batch_size points :
  forall batch day_records total_batches w batch' day_records'
         total_batches' w',
    day_loop batch_size points batch day_records total_batches w
      = (Ok (batch', day_records', total_batches'), w') ->
    exists flushed,
      vm_writer.write_batch_calls w'
        = vm_writer.write_batch_calls w ++ flushed
      /\ concat flushed ++ batch'
         = batch ++ concat (build_vm_datapoints <$> points)
      /\ day_records' = day_records + Z.of_nat (length points)
      /\ total_batches' = total_batches + Z.of_nat (length flushed)
      /\ ((exists k, length batch = (8 * k)%nat) ->
          Z.of_nat (length batch) < batch_size ->
          Forall (fun b =>
                    (exists k, length b = (8 * k)%nat)
                    /\ batch_size <= Z.of_nat (length b) < batch_size + 8)
            flushed
          /\ (exists k, length batch' = (8 * k)%nat)
          /\ Z.of_nat (length batch') < batch_size).
Proof.
  induction points as [|point points IH];
    intros batch day_records total_batches w batch' day_records'
      total_batches' w' Hloop.
  - injection Hloop as <- <- <- <-. exists []. cbn.
    rewrite !app_nil_r, !Z.add_0_r. by split_and!.
  - cbn [migrate_hvac_action.day_loop] in Hloop.
    assert (length (batch ++ build_vm_datapoints point)
            = (length batch + 8)%nat) as Hlen by (by rewrite length_app).
    destruct (Z.leb batch_size _) eqn:Hfull.
    + destruct (write w _) as [[n|e] w1] eqn:Hwrite; [|done].
      apply IH in Hloop as (flushed & Hcalls & Hcat & Hrec & Hbat & Hsize).
      exists ((batch ++ build_vm_datapoints point) :: flushed).
      assert (vm_writer.write_batch_calls w1
              = vm_writer.write_batch_calls w
                ++ [batch ++ build_vm_datapoints point]) as Hw1.
      { by rewrite <- (write_batch_calls_snoc str_float session_post w),
          Hwrite. }
      rewrite Hcalls, Hw1. cbn [concat length fmap list_fmap].
      rewrite <- !app_assoc, Hcat. cbn [app].
      split_and!; try done; try lia.
      intros [k Hk] Hbelow. apply Z.leb_le in Hfull.
      destruct Hsize as (Hall & Hheld & Hless); [by exists O | cbn; lia |].
      split_and!; try done. constructor; [|done].
      split; [exists (S k); lia | lia].
    + apply IH in Hloop as (flushed & Hcalls & Hcat & Hrec & Hbat & Hsize).
      exists flushed. cbn [concat length fmap list_fmap].
      rewrite Hcat, <- app_assoc.
      split_and!; try done; try lia.
      intros [k Hk] Hbelow. apply Z.leb_gt in Hfull.
      apply Hsize; [exists (S k); lia | lia].
Qed.

(** X30. The batches of a day hold whole records. When the migration of a
    day returns, the batches handed to [write_batch], concatenated, are the
    eight points of every record of the day, in order; each batch holds the
    points of one record or more, never a part of them; every batch but the
    last has at least [batch_size] points and fewer than [batch_size + 8];
    and the count of batches has grown by their number. *)
Theorem hvac_batches_hold_whole_records
  batch_size points total_batches w day_records total_batches' w' :
  1 <= batch_size ->
  migrate_one_day batch_size points total_batches w
    = (Ok (day_records, total_batches'), w') ->
  let calls := migrate.calls_since w w' in
  day_records = Z.of_nat (length points)
  /\ concat calls = concat (build_vm_datapoints <$> points)
  /\ total_batches' = total_batches + Z.of_nat (length calls)
  /\ Forall (fun b => exists k, (1 <= k)%nat /\ length b = (8 * k)%nat) calls
  /\ (forall i b,
        calls !! i = Some b -> (S i < length calls)%nat ->
        batch_size <= Z.of_nat (length b) < batch_size + 8).
Proof.
  intros Hpos Hday calls. subst calls.
  unfold migrate_hvac_action.migrate_one_day in Hday.
  destruct (day_loop batch_size points [] 0 total_batches w)
    as [[[[batch n] tb]|e] w1] eqn:Hloop; [|done].
  apply day_loop_returns in Hloop
    as (flushed & Hcalls & Hcat & Hrec & Hbat & Hsize).
  destruct Hsize as (Hall & [k Hk] & Hless); [by exists O | cbn; lia |].
  assert (Forall (fun b => exists k, (1 <= k)%nat /\ length b = (8 * k)%nat)
            flushed) as Hwhole.
  { eapply Forall_impl; [exact Hall|]. intros b [[j Hj] Hb].
    exists j. split; [lia | done]. }
  cbn [app] in Hcat. unfold migrate.calls_since.
  destruct batch as [|p held].
  - injection Hday as <- <- <-.
    rewrite Hcalls, drop_app_length. rewrite app_nil_r in Hcat.
    split_and!; try done; try lia.
    intros i b Hi _. apply (proj1 (Forall_forall _ _) Hall).
    by eapply list_elem_of_lookup_2.
  - destruct (write w1 (p :: held)) as [[m|e] w2] eqn:Hwrite; [|done].
    injection Hday as <- <- <-.
    assert (vm_writer.write_batch_calls w2
            = vm_writer.write_batch_calls w ++ flushed ++ [p :: held])
      as Hw2.
    { pose proof (write_batch_calls_snoc str_float session_post w1
                    (p :: held)) as Hsnoc.
      rewrite Hwrite in Hsnoc. cbn [snd] in Hsnoc.
      by rewrite Hsnoc, Hcalls, <- app_assoc. }
    rewrite Hw2, drop_app_length.
    split_and!; try lia.
    + by rewrite concat_app, <- Hcat; cbn; rewrite app_nil_r.
    + rewrite length_app. cbn [length]. lia.
    + apply Forall_app. split; [done|]. constructor; [|done].
      exists k. split; [cbn [length] in Hk; lia | done].
    + intros i b Hi Hlast. rewrite length_app in Hlast.
      cbn [length] in Hlast.
      rewrite lookup_app_l in Hi by lia.
      apply (proj1 (Forall_forall _ _) Hall).
      by eapply list_elem_of_lookup_2.
Qed.

End hvac.

(** ** The further properties on concrete inputs *)

Example sample_query_range :
  influx_reader.query_range "2025-05-01T00:00:00Z" "2025-05-02T00:00:00Z"
    samples.extended_reader
    [samples.thermostat_record; samples.light_record; samples.bare_record;
     samples.text_record] None
  = ([influx_reader.point_of samples.thermostat_record 21.5%float;
      influx_reader.point_of samples.bare_record 65.25%float],
     Some (QueryError
             ("Failed to query range 2025-05-01T00:00:00Z to "
              +:+ "2025-05-02T00:00:00Z: could not convert string to float"))).
Proof. vm_compute. reflexivity. Qed.

Example sample_validation :
  samples.validation
  = (Ok (5, 3, 2, []), [example.may_first; example.may_first + 1]).
Proof. vm_compute. reflexivity. Qed.

Example sample_hvac_day :
  samples.hvac_day.1 = Ok (3, 2).
Proof. vm_compute. reflexivity. Qed.

Lemma resolved_name_is_not_empty_witness :
  mapping.get_vm_metric_name ascii_lower example.schema0 "sensor" "%"
    "phone_battery_level" "value"
  = Some "homeassistant_sensor_battery_percent"
  /\ "homeassistant_sensor_battery_percent" <> EmptyString.
Proof.
  split; [vm_compute; reflexivity|].
  apply (resolved_name_is_not_empty ascii_lower example.schema0 "sensor" "%"
           "phone_battery_level" "value").
  vm_compute. reflexivity.
Defined.

Lemma extra_field_resolves_by_field_rule_alone_witness :
  mapping.get_vm_metric_name ascii_lower example.schema0 "climate" "°C"
    "hall" "current_temperature"
  = mapping.get_vm_metric_name ascii_lower example.schema0 "climate" "units"
      "thermostat" "current_temperature".
Proof.
  assert ("current_temperature" <> "value") as Hfield by discriminate.
  destruct (extra_field_resolves_by_field_rule_alone ascii_lower
              example.schema0 "climate" "units" "thermostat"
              "current_temperature" Hfield) as [Hsame _].
  apply Hsame.
Defined.

Lemma allow_new_pair_never_raises_witness :
  exists r,
    mapping.get_vm_metric_name_strict ascii_lower samples.open_schema ∅
      "sensor" "custom" "anything" "value" = Ok r.
Proof.
  apply (allow_new_pair_never_raises ascii_lower samples.open_schema ∅
           "sensor" "custom").
  vm_compute. reflexivity.
Defined.

Lemma str_float_has_no_newline (x : float) :
  strs.count_char newline (example.str_float x) = O.
Proof.
  unfold example.str_float.
  repeat (destruct (PrimFloat.eqb x _); [vm_compute; reflexivity|]).
  vm_compute. reflexivity.
Qed.

Lemma payload_has_one_line_per_point_witness :
  strs.count_char newline
    (join nl (vm_writer.format_prometheus_line example.str_float
                <$> [example.temperature_point; example.tricky_point;
                     example.motion_point]))
  = 2%nat.
Proof.
  destruct (payload_has_one_line_per_point example.str_float
              [example.temperature_point; example.tricky_point;
               example.motion_point] str_float_has_no_newline)
    as (_ & _ & Hcount).
  - repeat constructor.
  - exact Hcount.
Defined.

Lemma failed_write_leaves_the_counters_witness :
  let r :=
    vm_writer.write_batch example.str_float example.post_rejects
      example.real_writer [example.temperature_point] in
  r.1 = Raise (WriteError 500 "Internal Server Error")
  /\ vm_writer.points_written r.2 = 0
  /\ vm_writer.batches_sent r.2 = 0.
Proof.
  intros r.
  assert (r.1 = Raise (WriteError 500 "Internal Server Error")) as Hr
    by (vm_compute; reflexivity).
  destruct (failed_write_leaves_the_counters example.str_float
              example.post_rejects example.real_writer
              [example.temperature_point] _ Hr) as (Hp & Hb & _).
  split; [exact Hr|]. split; [exact Hp | exact Hb].
Defined.

Lemma rejected_batch_raises_WriteError_witness :
  exists body,
    (vm_writer.write_batch example.str_float example.post_rejects
       example.real_writer [example.temperature_point]).1
    = Raise (WriteError 500 body)
    /\ String.prefix body "Internal Server Error" = true.
Proof.
  destruct (rejected_batch_raises_WriteError example.str_float
              example.post_rejects example.real_writer
              [example.temperature_point] 500 "Internal Server Error")
    as [Hrejected _]; [reflexivity | discriminate | reflexivity |].
  destruct Hrejected as (body & Hraise & Hprefix & _); [lia|].
  exists body. split; [exact Hraise | exact Hprefix].
Defined.


Lemma migrate_day_counts_agree_with_the_writer_witness :
  let r :=
    migrate.migrate_day ascii_lower example.str_format example.str_float
      example.timestamp_ms_of example.query_day example.post_accepts
      example.schema0 example.known0 example.real_writer example.may_first
      2 false in
  r.1 = Ok (3, 2, 1)
  /\ vm_writer.points_written r.2 = 0 + 3
  /\ vm_writer.batches_sent r.2 = 0 + 2.
Proof.
  intros r.
  assert (r = (Ok (3, 2, 1), r.2)) as Hr by (vm_compute; reflexivity).
  destruct (migrate_day_counts_agree_with_the_writer ascii_lower
              example.str_format example.str_float example.timestamp_ms_of
              example.query_day example.post_accepts example.schema0
              example.known0 example.real_writer example.may_first 2 false
              3 2 1 r.2 Hr) as (Hp & Hb & _).
  split; [by rewrite Hr|]. split; [exact Hp | exact Hb].
Defined.

Lemma migrate_day_with_a_dry_run_writer_posts_nothing_witness :
  vm_writer.posted
    (example.migrate_day example.dry_writer example.may_first 2 true).2
  = [].
Proof.
  destruct (migrate_day_with_a_dry_run_writer_posts_nothing ascii_lower
              example.str_format example.str_float example.timestamp_ms_of
              example.query_day example.post_accepts example.schema0
              example.known0 example.dry_writer example.may_first 2 true)
    as [Hposted _]; [reflexivity|].
  exact Hposted.
Defined.

Lemma perform_dry_run_validation_counts_every_point_witness :
  5 = 3 + 2
      + Z.of_nat
          (days.failing_of ascii_lower example.schema0 example.known0
             (days.points_over example.query_day
                (migrate.generate_date_range example.may_first
                   (example.may_first + 1)))).
Proof.
  destruct (perform_dry_run_validation_counts_every_point ascii_lower
              example.str_format example.timestamp_ms_of example.query_day
              example.schema0 example.known0 example.may_first
              (example.may_first + 1) 5 3 2 []
              [example.may_first; example.may_first + 1])
    as (_ & _ & _ & _ & Hsum & _); [vm_compute; reflexivity|].
  exact Hsum.
Defined.

Lemma migrate_day_returns_after_a_clean_validation_witness :
  exists records batches skipped w',
    migrate.migrate_day ascii_lower example.str_format example.str_float
      example.timestamp_ms_of example.query_day example.post_rejects
      example.schema0 example.known0 example.dry_writer example.may_first
      1 true
    = (Ok (records, batches, skipped), w')
    /\ records + skipped
       = Z.of_nat (length (example.query_day example.may_first).1).
Proof.
  apply (migrate_day_returns_after_a_clean_validation ascii_lower
           example.str_format example.str_float example.timestamp_ms_of
           example.query_day example.post_rejects example.schema0
           example.known0 example.may_first (example.may_first + 1) 5 3 2
           [example.may_first; example.may_first + 1]).
  - vm_compute. reflexivity.
  - left. reflexivity.
  - unfold example.may_first. lia.
Defined.

Lemma main_asks_for_the_days_left_witness :
  migrate.days_queried (example.main example.args0 example.empty_dir)
  `prefix_of` migrate.generate_date_range example.may_first
                (example.may_first + 1).
Proof.
  destruct (main_asks_for_the_days_left ascii_lower example.str_format
              example.str_float example.date_isoformat
              example.date_fromisoformat example.date_fromisoformat
              example.day_min_isoformat example.day_max_isoformat
              example.timestamp_ms_of example.utcnow_isoformat
              example.utcnow_stamp example.query_day example.load_schema
              None example.post_accepts example.session_get example.args0
              example.empty_dir)
    as (start & end_ & first & Hstart & Hend & Hfirst & Hprefix & _).
  { vm_compute. discriminate. }
  vm_compute in Hstart, Hend, Hfirst.
  injection Hstart as <-. injection Hend as <-. injection Hfirst as <-.
  exact Hprefix.
Defined.

Lemma dry_run_leaves_the_migration_where_it_was_witness :
  exists p,
    progress.load
      (migrate.tracker_after
         (example.main samples.args_dry_run example.empty_dir)) = Some p
    /\ progress.records_migrated p = 0
    /\ progress.batches_sent p = 0
    /\ progress.last_migrated_date p = None.
Proof.
  destruct (dry_run_leaves_the_migration_where_it_was ascii_lower
              example.str_format example.str_float example.date_isoformat
              example.date_fromisoformat example.date_fromisoformat
              example.day_min_isoformat example.day_max_isoformat
              example.timestamp_ms_of example.utcnow_isoformat
              example.utcnow_stamp example.query_day example.load_schema
              None example.post_accepts example.session_get
              samples.args_dry_run example.empty_dir)
    as (_ & _ & Hsame); [reflexivity|].
  destruct (progress.load
              (migrate.tracker_after
                 (example.main samples.args_dry_run example.empty_dir)))
    as [p|] eqn:Hp; [|vm_compute in Hp; discriminate Hp].
  exists p. destruct (Hsame p Hp) as (Hr & Hb & Hd & _).
  split; [reflexivity|]. split; [exact Hr|]. split; [exact Hb | exact Hd].
Defined.

Lemma production_run_that_returns_0_witness :
  exists p,
    progress.load
      (migrate.tracker_after (example.main example.args0 example.empty_dir))
    = Some p
    /\ progress.status p = "completed"
    /\ forall args',
         migrate.reset args' = false ->
         example.main args'
           (migrate.tracker_after
              (example.main example.args0 example.empty_dir))
         = runs.stopped_at 0
             (migrate.tracker_after
                (example.main example.args0 example.empty_dir)).
Proof.
  destruct (production_run_that_returns_0 ascii_lower example.str_format
              example.str_float example.date_isoformat
              example.date_fromisoformat example.date_fromisoformat
              example.day_min_isoformat example.day_max_isoformat
              example.timestamp_ms_of example.utcnow_isoformat
              example.utcnow_stamp example.query_day example.load_schema
              None example.post_accepts example.session_get example.args0
              example.empty_dir)
    as (p & Hload & Hstatus & _ & _ & Hagain);
    [reflexivity | vm_compute; reflexivity |].
  exists p. split; [exact Hload|]. split; [exact Hstatus | exact Hagain].
Defined.

Lemma production_run_that_fails_on_a_day_witness :
  exists p completed day e,
    migrate.days_queried
      (example.main samples.args_three_days example.empty_dir)
    = completed ++ [day]
    /\ progress.load
         (migrate.tracker_after
            (example.main samples.args_three_days example.empty_dir))
       = Some p
    /\ progress.status p = "failed"
    /\ progress.errors p
       = ["Failed on " +:+ example.date_isoformat day +:+ ": "
          +:+ migrate.str_exn e;
          migrate.str_exn e].
Proof.
  destruct (production_run_that_fails_on_a_day ascii_lower
              example.str_format example.str_float example.date_isoformat
              example.date_fromisoformat example.date_fromisoformat
              example.day_min_isoformat example.day_max_isoformat
              example.timestamp_ms_of example.utcnow_isoformat
              example.utcnow_stamp example.query_day example.load_schema
              None example.post_accepts example.session_get
              samples.args_three_days example.empty_dir)
    as (s & known & p & completed & day & e & _ & Hdays & Hload & Hstatus
        & Herrors & _);
    [reflexivity | vm_compute; discriminate | vm_compute; reflexivity |].
  exists p, completed, day, e.
  split; [exact Hdays|]. split; [exact Hload|]. split; [exact Hstatus|].
  exact Herrors.
Defined.

Lemma setup_failure_stops_before_the_checkpoint_witness :
  example.main samples.args_bad_date example.empty_dir
  = runs.stopped_at 1 example.empty_dir.
Proof.
  apply (setup_failure_stops_before_the_checkpoint ascii_lower
           example.str_format example.str_float example.date_isoformat
           example.date_fromisoformat example.date_fromisoformat
           example.day_min_isoformat example.day_max_isoformat
           example.timestamp_ms_of example.utcnow_isoformat
           example.utcnow_stamp example.query_day example.load_schema
           None example.post_accepts example.session_get
           samples.args_bad_date example.empty_dir).
  right; right; left. vm_compute. reflexivity.
Defined.

Lemma hvac_batches_hold_whole_records_witness :
  Forall (fun b => exists k, (1 <= k)%nat /\ length b = (8 * k)%nat)
    (migrate.calls_since example.dry_writer samples.hvac_day.2)
  /\ 2 = 0 + Z.of_nat
             (length
                (migrate.calls_since example.dry_writer samples.hvac_day.2)).
Proof.
  assert (1 <= 10) as Hpos by lia.
  assert (samples.hvac_day = (Ok (3, 2), samples.hvac_day.2)) as Hday
    by (vm_compute; reflexivity).
  destruct (hvac_batches_hold_whole_records example.str_float
              example.timestamp_ms_of example.post_accepts 10
              [samples.heating; samples.resting; samples.heating] 0
              example.dry_writer 3 2 samples.hvac_day.2 Hpos Hday)
    as (_ & _ & Hcount & Hwhole & _).
  split; [exact Hwhole | exact Hcount].
Defined.
